(** * W25Q128JV serial NOR flash behind the FlexSPI controller

    A shallow embedding of [drivers/flash/flash_mcux_flexspi_w25q128jv.c]:
    the transfer wrappers, the busy-wait loop, the quad-mode handshake and
    the read, write and erase entry points, together with the properties
    of their traces of controller calls. *)

From Stdlib Require Import ZArith List Bool Lia.
From Stdlib Require Import Strings.Byte.
Import ListNotations.
Open Scope Z_scope.

Set Implicit Arguments.

(** ** Machine integers

    The driver is built for 32-bit Cortex-M parts: [int], [long] (and so
    [off_t]) and [size_t] are 32 bits wide.  Values are kept in [Z]; the
    conversions C performs are written out with [u32] and [s32]. *)

Definition u32 (z : Z) : Z := z mod 2 ^ 32.
Definition s32 (z : Z) : Z := (z + 2 ^ 31) mod 2 ^ 32 - 2 ^ 31.
Definition u8 (z : Z) : Z := z mod 2 ^ 8.

Definition BIT (n : Z) : Z := Z.shiftl 1 n.
Definition KB (x : Z) : Z := Z.shiftl x 10.

Definition EIO : Z := 5.
Definition ENODEV : Z := 19.
Definition EINVAL : Z := 22.

Definition NOR_WRITE_SIZE : Z := 1.
Definition NOR_ERASE_VALUE : Z := 0xff.

(** ** The sequence table indices and the transfer descriptor *)

Inductive lut_seq : Type :=
| READ_FAST_QUAD_IO
| READ_STATUS_REG1
| READ_FAST_QUAD_OUTPUT
| WRITE_ENABLE
| READ_ID
| ERASE_SECTOR
| WRITE_STATUS_REG
| READ_STATUS_REG2
| ERASE_BLOCK
| PAGE_PROGRAM_INPUT
| PAGE_PROGRAM_QUAD_INPUT
| ERASE_CHIP.

Definition lut_index (q : lut_seq) : Z :=
  match q with
  | READ_FAST_QUAD_IO => 0
  | READ_STATUS_REG1 => 1
  | READ_FAST_QUAD_OUTPUT => 2
  | WRITE_ENABLE => 3
  | READ_ID => 4
  | ERASE_SECTOR => 5
  | WRITE_STATUS_REG => 6
  | READ_STATUS_REG2 => 7
  | ERASE_BLOCK => 8
  | PAGE_PROGRAM_INPUT => 9
  | PAGE_PROGRAM_QUAD_INPUT => 10
  | ERASE_CHIP => 11
  end.

Definition lut_seq_eqb (a b : lut_seq) : bool := lut_index a =? lut_index b.

Inductive flexspi_command_type_t : Type :=
| kFLEXSPI_Command
| kFLEXSPI_Config
| kFLEXSPI_Read
| kFLEXSPI_Write.

(** What the [data] pointer of a transfer designates: nothing, a
    [uint32_t] object or array (with its current contents), or caller
    bytes. *)
Inductive xfer_data : Type :=
| NULL
| word_buf (ws : list Z)
| byte_buf (bs : list byte).

Record flexspi_transfer_t : Type := {
  deviceAddress : Z;
  port : Z;
  cmdType : flexspi_command_type_t;
  SeqNumber : Z;
  seqIndex : lut_seq;
  data : xfer_data;
  dataSize : Z
}.

(** ** Build-time constants

    [spi_nor.h] and the Kconfig options are not part of the driver file;
    the three size macros (unsigned int constants) and the two options the
    code tests are parameters of the model. *)
Record build_config : Type := {
  SPI_NOR_PAGE_SIZE : Z;
  SPI_NOR_SECTOR_SIZE : Z;
  SPI_NOR_BLOCK_SIZE : Z;
  CONFIG_FLASH_MCUX_FLEXSPI_NOR_WRITE_BUFFER : bool;
  CONFIG_HAS_MCUX_CACHE : bool
}.

Record flexspi_device_config_t : Type := {
  flashSize : Z
}.

Record flash_parameters : Type := {
  write_block_size : Z;
  erase_value : Z
}.

(** The fields of [struct flash_flexspi_nor_data] the code reads; the
    controller itself is the platform state below. *)
Record flash_flexspi_nor_data : Type := {
  config : flexspi_device_config_t;
  data_port : Z;
  flash_params : flash_parameters
}.

(** ** The collaborators

    The memory controller, the interrupt lock and the data cache are
    outside the driver.  They are an interface over a state [S]: a
    transfer returns its status code and, for a read, the contents of the
    [uint32_t] object it was given after the transfer. *)
Class Platform (S : Type) : Type := {
  device_is_ready : S -> bool;
  memc_flexspi_transfer : flexspi_transfer_t -> S -> Z * Z * S;
  memc_flexspi_reset : S -> S;
  memc_flexspi_wait_bus_idle : S -> S;
  memc_flexspi_is_running_xip : S -> bool;
  memc_flexspi_set_device_config : S -> Z * S;
  memc_flexspi_get_ahb_address : Z -> Z -> S -> Z;
  ahb_load : S -> Z -> byte;
  irq_lock : S -> Z * S;
  irq_unlock : Z -> S -> S;
  DCACHE_InvalidateByRange : Z -> Z -> S -> S
}.

(** The calls made on the collaborators, as they are logged. *)
Inductive call : Type :=
| Transfer (t : flexspi_transfer_t) (ret : Z) (rd : Z)
| Reset
| WaitBusIdle
| SetDeviceConfig (ret : Z)
| IrqLock (key : Z)
| IrqUnlock (key : Z)
| DcacheInvalidate (addr size : Z).

(** ** State, result and trace *)

Record world (S : Type) : Type := {
  hw : S;
  nor_write_buf : list byte
}.

(** A computation either runs out of loop iterations ([None]) or returns a
    value, the new state and the calls it made, oldest first. *)
Definition M (S A : Type) : Type := world S -> option (A * world S * list call).

Definition Ret {S A : Type} (a : A) : M S A := fun w => Some (a, w, []).

Definition bind {S A B : Type} (m : M S A) (f : A -> M S B) : M S B :=
  fun w =>
    match m w with
    | None => None
    | Some (a, w1, t1) =>
        match f a w1 with
        | None => None
        | Some (b, w2, t2) => Some (b, w2, t1 ++ t2)
        end
    end.

Definition spin {S A : Type} : M S A := fun _ => None.

Notation "x <- m ;; k" := (bind m (fun x => k))
  (at level 61, m at next level, right associativity).
Notation "m ;;; k" := (bind m (fun _ => k))
  (at level 61, right associativity).

Section Driver.

Context {S : Type} {plat : Platform S}.
Variable bc : build_config.
Variable dev : flash_flexspi_nor_data.

#[local] Abbreviation M := (M S).

(** *** Calls on the collaborators *)

Definition transfer (t : flexspi_transfer_t) : M (Z * Z) :=
  fun w =>
    let '(ret, rd, s) := memc_flexspi_transfer t (hw w) in
    Some ((ret, rd), {| hw := s; nor_write_buf := nor_write_buf w |},
          [Transfer t ret rd]).

Definition reset : M unit :=
  fun w =>
    Some (tt, {| hw := memc_flexspi_reset (hw w);
                 nor_write_buf := nor_write_buf w |}, [Reset]).

Definition wait_bus_idle : M unit :=
  fun w =>
    Some (tt, {| hw := memc_flexspi_wait_bus_idle (hw w);
                 nor_write_buf := nor_write_buf w |}, [WaitBusIdle]).

Definition set_device_config : M Z :=
  fun w =>
    let '(ret, s) := memc_flexspi_set_device_config (hw w) in
    Some (ret, {| hw := s; nor_write_buf := nor_write_buf w |},
          [SetDeviceConfig ret]).

Definition do_irq_lock : M Z :=
  fun w =>
    let '(key, s) := irq_lock (hw w) in
    Some (key, {| hw := s; nor_write_buf := nor_write_buf w |}, [IrqLock key]).

Definition do_irq_unlock (key : Z) : M unit :=
  fun w =>
    Some (tt, {| hw := irq_unlock key (hw w);
                 nor_write_buf := nor_write_buf w |}, [IrqUnlock key]).

Definition dcache_invalidate (addr size : Z) : M unit :=
  fun w =>
    Some (tt, {| hw := DCACHE_InvalidateByRange addr size (hw w);
                 nor_write_buf := nor_write_buf w |},
          [DcacheInvalidate addr size]).

Definition is_running_xip : M bool :=
  fun w => Some (memc_flexspi_is_running_xip (hw w), w, []).

Definition is_ready : M bool :=
  fun w => Some (device_is_ready (hw w), w, []).

Definition get_ahb_address (offset : Z) : M Z :=
  fun w => Some (memc_flexspi_get_ahb_address (data_port dev) offset (hw w), w, []).

(** [memcpy(nor_write_buf, src, i)] *)
Definition stage (src : list byte) (i : Z) : M unit :=
  fun w =>
    let n := Z.to_nat i in
    Some (tt, {| hw := hw w;
                 nor_write_buf := firstn n src ++ skipn n (nor_write_buf w) |},
          []).

Definition staged : M (list byte) :=
  fun w => Some (nor_write_buf w, w, []).

(** *** The transfer wrappers *)

Definition flash_flexspi_nor_get_vendor_id : M (Z * Z) :=
  let buffer := 0 in
  r <- transfer {| deviceAddress := 0; port := data_port dev;
                   cmdType := kFLEXSPI_Read; SeqNumber := 1;
                   seqIndex := READ_ID;
                   data := word_buf [buffer]; dataSize := 1 |} ;;
  let '(ret, buffer) := r in
  Ret (ret, u8 buffer).

Definition flash_flexspi_nor_read_status (status : Z) : M (Z * Z) :=
  transfer {| deviceAddress := 0; port := data_port dev;
              cmdType := kFLEXSPI_Read; SeqNumber := 1;
              seqIndex := READ_STATUS_REG1;
              data := word_buf [status]; dataSize := 1 |}.

Definition flash_flexspi_nor_read_status2 (status : Z) : M (Z * Z) :=
  transfer {| deviceAddress := 0; port := data_port dev;
              cmdType := kFLEXSPI_Read; SeqNumber := 1;
              seqIndex := READ_STATUS_REG2;
              data := word_buf [status]; dataSize := 1 |}.

Definition flash_flexspi_nor_write_status (status : list Z) (size : Z) : M Z :=
  if 2 <? size then Ret (- EINVAL)
  else
    r <- transfer {| deviceAddress := 0; port := data_port dev;
                     cmdType := kFLEXSPI_Write; SeqNumber := 1;
                     seqIndex := WRITE_STATUS_REG;
                     data := word_buf status; dataSize := size |} ;;
    Ret (fst r).

Definition flash_flexspi_nor_write_enable : M Z :=
  r <- transfer {| deviceAddress := 0; port := data_port dev;
                   cmdType := kFLEXSPI_Command; SeqNumber := 1;
                   seqIndex := WRITE_ENABLE;
                   data := NULL; dataSize := 0 |} ;;
  Ret (fst r).

Definition flash_flexspi_nor_erase_sector (offset : Z) : M Z :=
  r <- transfer {| deviceAddress := u32 offset; port := data_port dev;
                   cmdType := kFLEXSPI_Command; SeqNumber := 1;
                   seqIndex := ERASE_SECTOR;
                   data := NULL; dataSize := 0 |} ;;
  Ret (fst r).

Definition flash_flexspi_nor_erase_block (offset : Z) : M Z :=
  r <- transfer {| deviceAddress := u32 offset; port := data_port dev;
                   cmdType := kFLEXSPI_Command; SeqNumber := 1;
                   seqIndex := ERASE_BLOCK;
                   data := NULL; dataSize := 0 |} ;;
  Ret (fst r).

Definition flash_flexspi_nor_erase_chip : M Z :=
  r <- transfer {| deviceAddress := 0; port := data_port dev;
                   cmdType := kFLEXSPI_Command; SeqNumber := 1;
                   seqIndex := ERASE_CHIP;
                   data := NULL; dataSize := 0 |} ;;
  Ret (fst r).

Definition flash_flexspi_nor_page_program (offset : Z) (buffer : list byte)
    (len : Z) : M Z :=
  r <- transfer {| deviceAddress := u32 offset; port := data_port dev;
                   cmdType := kFLEXSPI_Write; SeqNumber := 1;
                   seqIndex := PAGE_PROGRAM_QUAD_INPUT;
                   data := byte_buf buffer; dataSize := len |} ;;
  Ret (fst r).

(** *** Busy wait

    The [do ... while] loop has no bound of its own; [fuel] counts the
    status reads allowed before the model gives up with [None]. *)
Fixpoint wait_bus_busy_loop (fuel : nat) (status : Z) : M Z :=
  match fuel with
  | O => spin
  | Datatypes.S fuel' =>
      r <- flash_flexspi_nor_read_status status ;;
      let '(ret, status) := r in
      if negb (ret =? 0) then Ret ret
      else if negb (Z.land status (BIT 0) =? 0)
           then wait_bus_busy_loop fuel' status
           else Ret 0
  end.

Definition flash_flexspi_nor_wait_bus_busy (fuel : nat) : M Z :=
  let status := 0 in
  wait_bus_busy_loop fuel status.

(** *** Quad mode *)

Definition flash_flexspi_nor_enable_quad_mode (fuel : nat) : M Z :=
  let status := [0x00; 0x02] in
  flash_flexspi_nor_write_enable ;;;
  r <- flash_flexspi_nor_write_status status 2 ;;
  if negb (r =? 0) then Ret (- EIO)
  else
    flash_flexspi_nor_wait_bus_busy fuel ;;;
    let quad_enabled := 0 in
    p <- flash_flexspi_nor_read_status2 quad_enabled ;;
    let quad_enabled := snd p in
    if negb (0x02 =? quad_enabled) then Ret (- EIO)
    else
      flash_flexspi_nor_wait_bus_busy fuel ;;;
      reset ;;;
      Ret 0.

(** *** Read *)

Definition memcpy_from (s : S) (src : Z) (len : Z) : list byte :=
  map (fun k => ahb_load s (src + Z.of_nat k)) (seq 0 (Z.to_nat len)).

Definition flash_flexspi_nor_read (offset : Z) (len : Z) : M (Z * list byte) :=
  src <- get_ahb_address offset ;;
  fun w => Some ((0, memcpy_from (hw w) src len), w, []).

(** *** Write

    The [while (len)] loop.  Each turn takes at least one byte off [len],
    so [n], set to the number of bytes at the start, bounds the turns. *)

Fixpoint write_loop (fuel n : nat) (offset : Z) (src : list byte) (len : Z)
    : M unit :=
  if len =? 0 then Ret tt
  else
    match n with
    | O => spin
    | Datatypes.S n' =>
        let i := s32 (Z.min (SPI_NOR_PAGE_SIZE bc
                             - u32 offset mod SPI_NOR_PAGE_SIZE bc) len) in
        (if CONFIG_FLASH_MCUX_FLEXSPI_NOR_WRITE_BUFFER bc
         then stage src (u32 i) else Ret tt) ;;;
        flash_flexspi_nor_write_enable ;;;
        buf <- (if CONFIG_FLASH_MCUX_FLEXSPI_NOR_WRITE_BUFFER bc
                then staged else Ret src) ;;
        flash_flexspi_nor_page_program offset buf (u32 i) ;;;
        flash_flexspi_nor_wait_bus_busy fuel ;;;
        reset ;;;
        write_loop fuel n' (s32 (offset + i))
                   (skipn (Z.to_nat i) src) (u32 (len - i))
    end.

Definition flash_flexspi_nor_write (fuel : nat) (offset : Z)
    (buffer : list byte) (len : Z) : M Z :=
  let size := len in
  let src := buffer in
  let key := 0 in
  dst <- get_ahb_address offset ;;
  xip <- is_running_xip ;;
  key <- (if xip then do_irq_lock else Ret key) ;;
  write_loop fuel (Z.to_nat len) offset src len ;;;
  xip <- is_running_xip ;;
  (if xip then do_irq_unlock key else Ret tt) ;;;
  (if CONFIG_HAS_MCUX_CACHE bc then dcache_invalidate (u32 dst) size
   else Ret tt) ;;;
  Ret 0.

(** *** Erase *)

Fixpoint erase_block_loop (fuel : nat) (count : nat) (offset : Z) : M unit :=
  match count with
  | O => Ret tt
  | Datatypes.S count' =>
      flash_flexspi_nor_write_enable ;;;
      flash_flexspi_nor_erase_block offset ;;;
      flash_flexspi_nor_wait_bus_busy fuel ;;;
      reset ;;;
      erase_block_loop fuel count' (s32 (offset + SPI_NOR_BLOCK_SIZE bc))
  end.

Fixpoint erase_sector_loop (fuel : nat) (count : nat) (offset : Z) : M unit :=
  match count with
  | O => Ret tt
  | Datatypes.S count' =>
      flash_flexspi_nor_write_enable ;;;
      flash_flexspi_nor_erase_sector offset ;;;
      flash_flexspi_nor_wait_bus_busy fuel ;;;
      reset ;;;
      erase_sector_loop fuel count' (s32 (offset + SPI_NOR_SECTOR_SIZE bc))
  end.

Definition flash_flexspi_nor_erase (fuel : nat) (offset : Z) (size : Z) : M Z :=
  let num_sectors := size / SPI_NOR_SECTOR_SIZE bc in
  let num_blocks := size / SPI_NOR_BLOCK_SIZE bc in
  let key := 0 in
  dst <- get_ahb_address offset ;;
  if negb (u32 offset mod SPI_NOR_SECTOR_SIZE bc =? 0) then Ret (- EINVAL)
  else if negb (size mod SPI_NOR_SECTOR_SIZE bc =? 0) then Ret (- EINVAL)
  else
    xip <- is_running_xip ;;
    key <- (if xip then do_irq_lock else Ret key) ;;
    (if (offset =? 0) && (size =? u32 (flashSize (config dev) * KB 1))
     then
       flash_flexspi_nor_write_enable ;;;
       flash_flexspi_nor_erase_chip ;;;
       flash_flexspi_nor_wait_bus_busy fuel ;;;
       reset
     else if (0 =? u32 offset mod SPI_NOR_BLOCK_SIZE bc)
             && (0 =? size mod SPI_NOR_BLOCK_SIZE bc)
     then erase_block_loop fuel (Z.to_nat num_blocks) offset
     else erase_sector_loop fuel (Z.to_nat num_sectors) offset) ;;;
    xip <- is_running_xip ;;
    (if xip then do_irq_unlock key else Ret tt) ;;;
    (if CONFIG_HAS_MCUX_CACHE bc then dcache_invalidate (u32 dst) size
     else Ret tt) ;;;
    Ret 0.

(** The branch of [flash_flexspi_nor_erase] that does the work, named for
    the proofs. *)
Definition erase_work (fuel : nat) (offset size : Z) : M unit :=
  if (offset =? 0) && (size =? u32 (flashSize (config dev) * KB 1))
  then
    flash_flexspi_nor_write_enable ;;;
    flash_flexspi_nor_erase_chip ;;;
    flash_flexspi_nor_wait_bus_busy fuel ;;;
    reset
  else if (0 =? u32 offset mod SPI_NOR_BLOCK_SIZE bc)
          && (0 =? size mod SPI_NOR_BLOCK_SIZE bc)
  then erase_block_loop fuel
         (Z.to_nat (size / SPI_NOR_BLOCK_SIZE bc)) offset
  else erase_sector_loop fuel
         (Z.to_nat (size / SPI_NOR_SECTOR_SIZE bc)) offset.

Definition flash_flexspi_nor_get_parameters : flash_parameters :=
  flash_params dev.

(** *** Initialisation *)

Definition flash_flexspi_nor_init (fuel : nat) : M Z :=
  ready <- is_ready ;;
  if negb ready then Ret (- ENODEV)
  else
    xip <- is_running_xip ;;
    (if xip then wait_bus_idle else Ret tt) ;;;
    c <- set_device_config ;;
    if negb (c =? 0) then Ret (- EINVAL)
    else
      flash_flexspi_nor_wait_bus_busy fuel ;;;
      reset ;;;
      v <- flash_flexspi_nor_get_vendor_id ;;
      if negb (fst v =? 0) then Ret (- EIO)
      else
        q <- flash_flexspi_nor_enable_quad_mode fuel ;;
        if negb (q =? 0) then Ret (- EIO)
        else
          flash_flexspi_nor_wait_bus_busy fuel ;;;
          reset ;;;
          Ret 0.

End Driver.

(** * Scripted platforms

    Small instances of the collaborator interface, used to run the driver
    on concrete inputs.  The state counts the status reads that still
    report busy; [xfer_ret] is the code every transfer returns, [sr2] the
    value status register 2 reads as, [xip] whether code runs from flash. *)

Record sim : Type := {
  busy_reads : nat;
  xfer_ret : Z;
  sr2 : Z;
  xip : bool
}.

Definition sim_word (t : flexspi_transfer_t) : Z :=
  match data t with
  | word_buf (v :: _) => v
  | _ => 0
  end.

Definition sim_transfer (t : flexspi_transfer_t) (s : sim) : Z * Z * sim :=
  if negb (xfer_ret s =? 0) then (xfer_ret s, sim_word t, s)
  else
    match seqIndex t with
    | READ_STATUS_REG1 =>
        match busy_reads s with
        | O => (0, 0, s)
        | Datatypes.S n =>
            (0, 1, {| busy_reads := n; xfer_ret := xfer_ret s;
                      sr2 := sr2 s; xip := xip s |})
        end
    | READ_STATUS_REG2 => (0, sr2 s, s)
    | READ_ID => (0, 0xef, s)
    | _ => (0, 0, s)
    end.

#[export] Instance sim_platform : Platform sim := {
  device_is_ready _ := true;
  memc_flexspi_transfer := sim_transfer;
  memc_flexspi_reset s := s;
  memc_flexspi_wait_bus_idle s := s;
  memc_flexspi_is_running_xip := xip;
  memc_flexspi_set_device_config s := (0, s);
  memc_flexspi_get_ahb_address _ offset _ := 0x60000000 + offset;
  ahb_load _ _ := xff;
  irq_lock s := (0, s);
  irq_unlock _ s := s;
  DCACHE_InvalidateByRange _ _ s := s
}.

(** A device that answers at once, with quad mode on. *)
Definition idle_flash : sim :=
  {| busy_reads := 0; xfer_ret := 0; sr2 := 0x02; xip := false |}.

(** A device whose next [n] status reads report busy. *)
Definition busy_flash (n : nat) : sim :=
  {| busy_reads := n; xfer_ret := 0; sr2 := 0x02; xip := false |}.

(** A bus on which every transfer fails with [-EIO]. *)
Definition dead_bus : sim :=
  {| busy_reads := 0; xfer_ret := - EIO; sr2 := 0x02; xip := false |}.

(** A device that does not take the quad-enable bit. *)
Definition no_quad_flash : sim :=
  {| busy_reads := 0; xfer_ret := 0; sr2 := 0x00; xip := false |}.

Definition boot (s : sim) : world sim := {| hw := s; nor_write_buf := [] |}.

(** The W25Q128JV build: 256-byte pages, 4 KiB sectors, 64 KiB blocks,
    16 MiB in all. *)
Definition w25q128jv_h : build_config :=
  {| SPI_NOR_PAGE_SIZE := 0x100;
     SPI_NOR_SECTOR_SIZE := 0x1000;
     SPI_NOR_BLOCK_SIZE := 0x10000;
     CONFIG_FLASH_MCUX_FLEXSPI_NOR_WRITE_BUFFER := false;
     CONFIG_HAS_MCUX_CACHE := false |}.

Definition w25q128jv : flash_flexspi_nor_data :=
  {| config := {| flashSize := 0x4000 |}; data_port := 0;
     flash_params := {| write_block_size := NOR_WRITE_SIZE;
                        erase_value := NOR_ERASE_VALUE |} |}.

(** * What a trace says

    Projections of a trace used to state the properties below. *)

(** The bus side of a call: a command with its sequence, device address
    and data size, or a controller reset. *)
Inductive bus_op : Type :=
| Cmd (q : lut_seq) (addr size : Z)
| Rst.

Definition bus_op_of (c : call) : option bus_op :=
  match c with
  | Transfer t _ _ => Some (Cmd (seqIndex t) (deviceAddress t) (dataSize t))
  | Reset => Some Rst
  | _ => None
  end.

Fixpoint bus_ops (tr : list call) : list bus_op :=
  match tr with
  | [] => []
  | c :: tr' =>
      match bus_op_of c with
      | Some o => o :: bus_ops tr'
      | None => bus_ops tr'
      end
  end.

(** The status read of the busy wait. *)
Definition poll : bus_op := Cmd READ_STATUS_REG1 0 1.

Definition is_poll (c : call) : bool :=
  match c with
  | Transfer t _ _ => lut_seq_eqb (seqIndex t) READ_STATUS_REG1
  | _ => false
  end.

(** A status read that succeeded and found the busy bit set. *)
Definition poll_busy (c : call) : bool :=
  match c with
  | Transfer t ret rd => is_poll c && (ret =? 0) && Z.testbit rd 0
  | _ => false
  end.

(** A status read that succeeded and found the busy bit clear. *)
Definition poll_idle (c : call) : bool :=
  match c with
  | Transfer t ret rd => is_poll c && (ret =? 0) && negb (Z.testbit rd 0)
  | _ => false
  end.

(** A status read that failed with code [r]. *)
Definition poll_failed (r : Z) (c : call) : bool :=
  match c with
  | Transfer t ret rd => is_poll c && negb (ret =? 0) && (ret =? r)
  | _ => false
  end.

(** The commands that change the device: erase, program, write status. *)
Definition is_mutating (c : call) : bool :=
  match c with
  | Transfer t _ _ =>
      match seqIndex t with
      | ERASE_SECTOR | ERASE_BLOCK | ERASE_CHIP
      | PAGE_PROGRAM_INPUT | PAGE_PROGRAM_QUAD_INPUT
      | WRITE_STATUS_REG => true
      | _ => false
      end
  | _ => false
  end.

(** [polls_then_reset tr]: [tr] starts with status reads and the first
    call after them is the controller reset. *)
Fixpoint polls_then_reset (tr : list call) : bool :=
  match tr with
  | Reset :: _ => true
  | c :: tr' => is_poll c && polls_then_reset tr'
  | [] => false
  end.

Definition settled_next (tr : list call) : bool :=
  match tr with
  | c :: tr' => is_poll c && polls_then_reset tr'
  | [] => false
  end.

(** Every mutating command is followed by at least one status read, then
    status reads only, then the reset. *)
Fixpoint settle_each (tr : list call) : bool :=
  match tr with
  | [] => true
  | c :: tr' =>
      (if is_mutating c then settled_next tr' else true) && settle_each tr'
  end.

(** A program command stays inside one page of [page_size] bytes. *)
Definition in_one_page (page_size : Z) (c : call) : bool :=
  match c with
  | Transfer t _ _ =>
      match seqIndex t with
      | PAGE_PROGRAM_INPUT | PAGE_PROGRAM_QUAD_INPUT =>
          (1 <=? dataSize t)
          && (deviceAddress t / page_size
              =? (deviceAddress t + dataSize t - 1) / page_size)
      | _ => true
      end
  | _ => true
  end.

(** The erase commands of a trace, each with its device address. *)
Fixpoint erase_cmds (tr : list call) : list (lut_seq * Z) :=
  match tr with
  | [] => []
  | Transfer t _ _ :: tr' =>
      match seqIndex t with
      | ERASE_SECTOR | ERASE_BLOCK | ERASE_CHIP =>
          (seqIndex t, deviceAddress t) :: erase_cmds tr'
      | _ => erase_cmds tr'
      end
  | _ :: tr' => erase_cmds tr'
  end.

(** The transfers of a trace that returned a non-zero code. *)
Definition failed_transfer (c : call) : bool :=
  match c with
  | Transfer _ ret _ => negb (ret =? 0)
  | _ => false
  end.

(** The trace of a finished wait: status reads that found the device busy,
    then one last read that either found it idle (result 0) or failed
    (result: its code). *)
Definition wait_trace (r : Z) (tr : list call) : Prop :=
  exists busy last,
    tr = busy ++ [last]
    /\ forallb poll_busy busy = true
    /\ ((r = 0 /\ poll_idle last = true)
        \/ (r <> 0 /\ poll_failed r last = true)).

(** [settled_cmd t tr rest]: [tr] is the command [t], then the status
    reads of one busy wait, then the reset, then [rest]. *)
Definition settled_cmd (t : flexspi_transfer_t) (tr rest : list call) : Prop :=
  exists r rd polls n,
    tr = Transfer t r rd :: polls ++ Reset :: rest
    /\ forallb is_poll polls = true
    /\ bus_ops polls = repeat poll (Datatypes.S n).

(** The calls around the loops that do not touch the bus: interrupt lock
    and unlock, cache invalidation. *)
Definition off_bus (c : call) : bool :=
  match c with
  | IrqLock _ | IrqUnlock _ | DcacheInvalidate _ _ => true
  | _ => false
  end.

(** The page-program commands of a trace: device address and size. *)
Fixpoint program_cmds (tr : list call) : list (Z * Z) :=
  match tr with
  | [] => []
  | Transfer t _ _ :: tr' =>
      match seqIndex t with
      | PAGE_PROGRAM_INPUT | PAGE_PROGRAM_QUAD_INPUT =>
          (deviceAddress t, dataSize t) :: program_cmds tr'
      | _ => program_cmds tr'
      end
  | _ :: tr' => program_cmds tr'
  end.

(** The split of a write in the specification's words, for comparison
    with the loop of the driver: while bytes remain, the next chunk starts
    at [offset] and is [min (page_size - offset mod page_size) remaining]
    bytes long.  [n] bounds the number of chunks. *)
Fixpoint spec_page_chunks (n : nat) (page_size offset remaining : Z)
    : list (Z * Z) :=
  if remaining <=? 0 then []
  else
    match n with
    | O => []
    | Datatypes.S n' =>
        let chunk := Z.min (page_size - offset mod page_size) remaining in
        (offset, chunk)
        :: spec_page_chunks n' page_size (offset + chunk) (remaining - chunk)
    end.

(** The read of status register 2 that checks the quad-enable bit. *)
Definition is_probe (c : call) : bool :=
  match c with
  | Transfer t _ _ => lut_seq_eqb (seqIndex t) READ_STATUS_REG2
  | _ => false
  end.

(** The traces of the quad-mode handshake and its result [q]: the write
    enable and the status write; if the status write failed, nothing more
    and [-EIO]; otherwise the status reads of a busy wait and the probe of
    status register 2; if the probe did not read [0x02], nothing more and
    [-EIO]; otherwise the status reads of a second wait, the reset, and 0. *)
Definition quad_trace (q : Z) (tr : list call) : Prop :=
  exists we r1 rd1 ws r2 rd2,
    seqIndex we = WRITE_ENABLE /\ seqIndex ws = WRITE_STATUS_REG
    /\ ((r2 <> 0 /\ q = - EIO
         /\ tr = [Transfer we r1 rd1; Transfer ws r2 rd2])
        \/ (r2 = 0
            /\ exists polls probe r3 rd3,
                forallb is_poll polls = true /\ polls <> []
                /\ seqIndex probe = READ_STATUS_REG2
                /\ ((rd3 <> 0x02 /\ q = - EIO
                     /\ tr = Transfer we r1 rd1 :: Transfer ws r2 rd2
                             :: polls ++ [Transfer probe r3 rd3])
                    \/ (rd3 = 0x02 /\ q = 0
                        /\ exists polls',
                            forallb is_poll polls' = true /\ polls' <> []
                            /\ tr = Transfer we r1 rd1 :: Transfer ws r2 rd2
                                     :: polls ++ Transfer probe r3 rd3
                                        :: polls' ++ [Reset])))).

(** ** Further projections of a trace *)

(** The bytes a write transfer sends: the first [dataSize] bytes at its
    [data] pointer. *)
Definition payload (t : flexspi_transfer_t) : list byte :=
  match data t with
  | byte_buf bs => firstn (Z.to_nat (dataSize t)) bs
  | _ => []
  end.

(** The bytes of all page programs of a trace, in order. *)
Fixpoint programmed_bytes (tr : list call) : list byte :=
  match tr with
  | [] => []
  | Transfer t _ _ :: tr' =>
      match seqIndex t with
      | PAGE_PROGRAM_INPUT | PAGE_PROGRAM_QUAD_INPUT =>
          payload t ++ programmed_bytes tr'
      | _ => programmed_bytes tr'
      end
  | _ :: tr' => programmed_bytes tr'
  end.

(** A call on the bus side of the controller: a transfer or a reset. *)
Definition on_bus (c : call) : bool :=
  match c with
  | Transfer _ _ _ | Reset => true
  | _ => false
  end.

(** The calls a write makes on the bus. *)
Definition program_call (c : call) : bool :=
  match c with
  | Transfer t _ _ =>
      match seqIndex t with
      | WRITE_ENABLE | PAGE_PROGRAM_QUAD_INPUT | READ_STATUS_REG1 => true
      | _ => false
      end
  | Reset => true
  | _ => false
  end.

(** The calls an erase makes on the bus. *)
Definition erase_call (c : call) : bool :=
  match c with
  | Transfer t _ _ =>
      match seqIndex t with
      | WRITE_ENABLE | ERASE_SECTOR | ERASE_BLOCK | ERASE_CHIP
      | READ_STATUS_REG1 => true
      | _ => false
      end
  | Reset => true
  | _ => false
  end.

(** The number of transfers of sequence [q], and of resets, in a trace. *)
Definition count_cmd (q : lut_seq) (tr : list call) : nat :=
  length (filter (fun c => match c with
                           | Transfer t _ _ => lut_seq_eqb (seqIndex t) q
                           | _ => false
                           end) tr).

Definition count_resets (tr : list call) : nat :=
  length (filter (fun c => match c with Reset => true | _ => false end) tr).

Definition is_cache_call (c : call) : bool :=
  match c with
  | DcacheInvalidate _ _ => true
  | _ => false
  end.

Definition is_irq_call (c : call) : bool :=
  match c with
  | IrqLock _ | IrqUnlock _ => true
  | _ => false
  end.

(** [turns cmd tr]: [tr] is a sequence of turns, each a write enable, a
    command of sequence [cmd], the status reads of its wait, and the
    reset. *)
Inductive turns (cmd : lut_seq) : list call -> Prop :=
| turns_nil : turns cmd []
| turns_cons (we : flexspi_transfer_t) (r1 rd1 : Z) (t : flexspi_transfer_t)
    (body rest : list call) :
    seqIndex we = WRITE_ENABLE ->
    seqIndex t = cmd ->
    settled_cmd t body rest ->
    turns cmd rest ->
    turns cmd (Transfer we r1 rd1 :: body).

(** The bytes one erase command of sequence [q] clears. *)
Definition erase_unit (bc : build_config) (dev : flash_flexspi_nor_data)
    (q : lut_seq) : Z :=
  match q with
  | ERASE_SECTOR => SPI_NOR_SECTOR_SIZE bc
  | ERASE_BLOCK => SPI_NOR_BLOCK_SIZE bc
  | ERASE_CHIP => u32 (flashSize (config dev) * KB 1)
  | _ => 0
  end.

(** The bytes a list of erase commands clears in all, and what it means
    for one of them to lie inside the range asked for, on a boundary of
    its own unit. *)
Definition erased_bytes (bc : build_config) (dev : flash_flexspi_nor_data)
    (cmds : list (lut_seq * Z)) : Z :=
  fold_right (fun c acc => erase_unit bc dev (fst c) + acc) 0 cmds.

Definition erase_in_range (bc : build_config) (dev : flash_flexspi_nor_data)
    (offset size : Z) (c : lut_seq * Z) : Prop :=
  snd c mod erase_unit bc dev (fst c) = 0
  /\ offset <= snd c
  /\ snd c + erase_unit bc dev (fst c) <= offset + size.

(** The descriptors the handshake and the initialisation hand to the
    controller, as their wrappers build them, named for the proofs. *)
Definition xfer_write_enable (dev : flash_flexspi_nor_data)
    : flexspi_transfer_t :=
  {| deviceAddress := 0; port := data_port dev;
     cmdType := kFLEXSPI_Command; SeqNumber := 1;
     seqIndex := WRITE_ENABLE; data := NULL; dataSize := 0 |}.

Definition xfer_write_status (dev : flash_flexspi_nor_data)
    (status : list Z) (size : Z) : flexspi_transfer_t :=
  {| deviceAddress := 0; port := data_port dev;
     cmdType := kFLEXSPI_Write; SeqNumber := 1;
     seqIndex := WRITE_STATUS_REG; data := word_buf status;
     dataSize := size |}.

Definition xfer_read_status2 (dev : flash_flexspi_nor_data) (status : Z)
    : flexspi_transfer_t :=
  {| deviceAddress := 0; port := data_port dev;
     cmdType := kFLEXSPI_Read; SeqNumber := 1;
     seqIndex := READ_STATUS_REG2; data := word_buf [status];
     dataSize := 1 |}.

Definition xfer_read_id (dev : flash_flexspi_nor_data) : flexspi_transfer_t :=
  {| deviceAddress := 0; port := data_port dev;
     cmdType := kFLEXSPI_Read; SeqNumber := 1;
     seqIndex := READ_ID; data := word_buf [0]; dataSize := 1 |}.

Definition is_idle_wait (c : call) : bool :=
  match c with
  | WaitBusIdle => true
  | _ => false
  end.

(** The three runs of the quad-mode handshake with result [q], with the
    codes and values the controller gave: [r2] for the status write, [rd3]
    left by the read of status register 2. *)
Definition quad_run (dev : flash_flexspi_nor_data) (q : Z) (tr : list call)
    : Prop :=
  exists r1 rd1 r2 rd2,
    (r2 <> 0 /\ q = - EIO
     /\ tr = [Transfer (xfer_write_enable dev) r1 rd1;
              Transfer (xfer_write_status dev [0x00; 0x02] 2) r2 rd2])
    \/ (r2 = 0
        /\ exists polls n r3 rd3,
            forallb is_poll polls = true
            /\ bus_ops polls = repeat poll (Datatypes.S n)
            /\ ((rd3 <> 0x02 /\ q = - EIO
                 /\ tr = Transfer (xfer_write_enable dev) r1 rd1
                         :: Transfer (xfer_write_status dev [0x00; 0x02] 2)
                              r2 rd2
                         :: polls
                         ++ [Transfer (xfer_read_status2 dev 0) r3 rd3])
                \/ (rd3 = 0x02 /\ q = 0
                    /\ exists polls' m,
                        forallb is_poll polls' = true
                        /\ bus_ops polls' = repeat poll (Datatypes.S m)
                        /\ tr = Transfer (xfer_write_enable dev) r1 rd1
                                :: Transfer
                                     (xfer_write_status dev [0x00; 0x02] 2)
                                     r2 rd2
                                :: polls
                                ++ Transfer (xfer_read_status2 dev 0) r3 rd3
                                   :: polls' ++ [Reset]))).

(** The runs of the initialisation on a ready controller, after the
    optional wait for the idle bus [idle]: with the code [c] of the device
    configuration, the code [ret] of the identifier read, and the
    handshake. *)
Definition init_run (dev : flash_flexspi_nor_data) (r : Z)
    (idle tr : list call) : Prop :=
  exists c,
    (c <> 0 /\ r = - EINVAL /\ tr = idle ++ [SetDeviceConfig c])
    \/ (c = 0
        /\ exists polls n ret rd,
            forallb is_poll polls = true
            /\ bus_ops polls = repeat poll (Datatypes.S n)
            /\ ((ret <> 0 /\ r = - EIO
                 /\ tr = idle ++ SetDeviceConfig c :: polls
                         ++ [Reset; Transfer (xfer_read_id dev) ret rd])
                \/ (ret = 0
                    /\ exists q qtr post,
                        quad_run dev q qtr
                        /\ tr = idle ++ SetDeviceConfig c :: polls
                                ++ Reset :: Transfer (xfer_read_id dev) ret rd
                                   :: qtr ++ post
                        /\ ((q <> 0 /\ r = - EIO /\ post = [])
                            \/ (q = 0 /\ r = 0
                                /\ exists polls' m,
                                    forallb is_poll polls' = true
                                    /\ bus_ops polls'
                                       = repeat poll (Datatypes.S m)
                                    /\ post = polls' ++ [Reset]))))).

(** The calls of the bring-up: status reads, the identifier read, the
    write enable, the status write, the read of status register 2, resets,
    the wait for the idle bus and the device configuration. *)
Definition bring_up_call (c : call) : bool :=
  match c with
  | Transfer t _ _ =>
      match seqIndex t with
      | READ_STATUS_REG1 | READ_ID | WRITE_ENABLE | WRITE_STATUS_REG
      | READ_STATUS_REG2 => true
      | _ => false
      end
  | Reset | WaitBusIdle | SetDeviceConfig _ => true
  | _ => false
  end.

(** [write_enabled_each tr]: every erase, page program and status write
    of [tr] comes directly after a write enable.  [armed] says that the
    call before was a write enable. *)
Definition is_write_enable (c : call) : bool :=
  match c with
  | Transfer t _ _ => lut_seq_eqb (seqIndex t) WRITE_ENABLE
  | _ => false
  end.

Fixpoint enabled_before (armed : bool) (tr : list call) : bool :=
  match tr with
  | [] => true
  | c :: tr' =>
      (armed || negb (is_mutating c))
      && enabled_before (is_write_enable c) tr'
  end.

Definition write_enabled_each (tr : list call) : bool :=
  enabled_before false tr.

(** A call that neither changes the flash nor enables writing. *)
Definition quiet (c : call) : bool :=
  negb (is_mutating c) && negb (is_write_enable c).

(** What the first transfer of sequence [q] in a trace returned: its code
    and the word it left; and the code of the device configuration. *)
Fixpoint transfer_result (q : lut_seq) (tr : list call) : option (Z * Z) :=
  match tr with
  | [] => None
  | Transfer t ret rd :: tr' =>
      if lut_seq_eqb (seqIndex t) q then Some (ret, rd)
      else transfer_result q tr'
  | _ :: tr' => transfer_result q tr'
  end.

Fixpoint config_result (tr : list call) : option Z :=
  match tr with
  | [] => None
  | SetDeviceConfig c :: _ => Some c
  | _ :: tr' => config_result tr'
  end.

(** ** The device instance

    [FLASH_FLEXSPI_DEVICE_CONFIG(n)] and [FLASH_FLEXSPI_W25Q128JV(n)]
    build the data of instance [n] from its devicetree properties: [size]
    (in bits) and the [reg] address.  The page layout, part of the same
    structure in C, is kept beside the fields modelled above. *)

Record flash_pages_layout : Type := {
  pages_count : Z;
  pages_size : Z
}.

Record flash_flexspi_nor_instance : Type := {
  inst_data : flash_flexspi_nor_data;
  layout : flash_pages_layout
}.

Definition FLASH_FLEXSPI_DEVICE_CONFIG (size : Z) : flexspi_device_config_t :=
  {| flashSize := u32 (size / 8 / KB 1) |}.

Definition FLASH_FLEXSPI_W25Q128JV (bc : build_config) (size reg : Z)
    : flash_flexspi_nor_instance :=
  {| inst_data :=
       {| config := FLASH_FLEXSPI_DEVICE_CONFIG size;
          data_port := reg;
          flash_params := {| write_block_size := NOR_WRITE_SIZE;
                             erase_value := NOR_ERASE_VALUE |} |};
     layout :=
       {| pages_count := u32 (size / 8 / SPI_NOR_SECTOR_SIZE bc);
          pages_size := SPI_NOR_SECTOR_SIZE bc |} |}.

(** [flash_flexspi_nor_pages_layout]: the layout and [layout_size = 1]. *)
Definition flash_flexspi_nor_pages_layout (i : flash_flexspi_nor_instance)
    : flash_pages_layout * Z :=
  (layout i, 1).

(** ** More scripted platforms and builds *)

(** A platform whose execute-in-place status is the constant [x] and
    whose interrupt lock hands out [key]; the state counts the status
    reads that still report busy. *)
Definition fixed_platform (x : bool) (key : Z) : Platform nat := {|
  device_is_ready := fun _ => true;
  memc_flexspi_transfer := fun t n =>
    match seqIndex t with
    | READ_STATUS_REG1 =>
        match n with
        | O => (0, 0, O)
        | Datatypes.S m => (0, 1, m)
        end
    | READ_STATUS_REG2 => (0, 0x02, n)
    | _ => (0, 0, n)
    end;
  memc_flexspi_reset := fun n => n;
  memc_flexspi_wait_bus_idle := fun n => n;
  memc_flexspi_is_running_xip := fun _ => x;
  memc_flexspi_set_device_config := fun n => (0, n);
  memc_flexspi_get_ahb_address := fun _ offset _ => 0x60000000 + offset;
  ahb_load := fun _ a => match Byte.of_N (Z.to_N (a mod 256)) with
                         | Some b => b
                         | None => x00
                         end;
  irq_lock := fun n => (key, n);
  irq_unlock := fun _ n => n;
  DCACHE_InvalidateByRange := fun _ _ n => n
|}.

(** A board whose controller is ready or not, accepts the device
    configuration with code [cfg], and executes in place or not. *)
Definition board (ready : bool) (cfg : Z) (x : bool) : Platform nat := {|
  device_is_ready := fun _ => ready;
  memc_flexspi_transfer := fun t n =>
    match seqIndex t with
    | READ_STATUS_REG1 =>
        match n with
        | O => (0, 0, O)
        | Datatypes.S m => (0, 1, m)
        end
    | READ_STATUS_REG2 => (0, 0x02, n)
    | READ_ID => (0, 0xef, n)
    | _ => (0, 0, n)
    end;
  memc_flexspi_reset := fun n => n;
  memc_flexspi_wait_bus_idle := fun n => n;
  memc_flexspi_is_running_xip := fun _ => x;
  memc_flexspi_set_device_config := fun n => (cfg, n);
  memc_flexspi_get_ahb_address := fun _ offset _ => 0x60000000 + offset;
  ahb_load := fun _ _ => xff;
  irq_lock := fun n => (0, n);
  irq_unlock := fun _ n => n;
  DCACHE_InvalidateByRange := fun _ _ n => n
|}.

Definition boot_nat (n : nat) : world nat := {| hw := n; nor_write_buf := [] |}.

(** The same build with the data cache and the staging buffer. *)
Definition w25q128jv_cached_h : build_config :=
  {| SPI_NOR_PAGE_SIZE := 0x100;
     SPI_NOR_SECTOR_SIZE := 0x1000;
     SPI_NOR_BLOCK_SIZE := 0x10000;
     CONFIG_FLASH_MCUX_FLEXSPI_NOR_WRITE_BUFFER := true;
     CONFIG_HAS_MCUX_CACHE := true |}.

Definition boot_with (s : sim) (buf : list byte) : world sim :=
  {| hw := s; nor_write_buf := buf |}.

(** * Arithmetic of the conversions *)

Lemma u32_range (z : Z) : 0 <= u32 z < 2 ^ 32.
Proof. unfold u32. apply Z.mod_pos_bound. lia. Qed.

Lemma u32_id (z : Z) : 0 <= z < 2 ^ 32 -> u32 z = z.
Proof. intros Hz. unfold u32. apply Z.mod_small. exact Hz. Qed.

Lemma u32_s32 (z : Z) : u32 (s32 z) = u32 z.
Proof.
  unfold u32, s32.
  rewrite Zminus_mod, Z.mod_mod by lia.
  rewrite <- Zminus_mod.
  f_equal. lia.
Qed.

Lemma u32_add_l (a b : Z) : u32 (u32 a + b) = u32 (a + b).
Proof. unfold u32. rewrite Zplus_mod_idemp_l. reflexivity. Qed.

Lemma u32_s32_add (a b : Z) : u32 (s32 a + b) = u32 (a + b).
Proof.
  rewrite <- (u32_add_l (s32 a)), u32_s32, u32_add_l. reflexivity.
Qed.

Lemma land_bit0 (z : Z) : (Z.land z (BIT 0) =? 0) = negb (Z.testbit z 0).
Proof.
  change (BIT 0) with (Z.ones 1).
  rewrite Z.land_ones by lia.
  rewrite <- Z.bit0_mod.
  destruct (Z.testbit z 0); reflexivity.
Qed.

Lemma poll_busy_intro t ret rd :
  seqIndex t = READ_STATUS_REG1 -> ret = 0 -> Z.testbit rd 0 = true ->
  poll_busy (Transfer t ret rd) = true.
Proof.
  intros Hq -> Hb. unfold poll_busy, is_poll. rewrite Hq, Hb. reflexivity.
Qed.

Lemma poll_idle_intro t ret rd :
  seqIndex t = READ_STATUS_REG1 -> ret = 0 -> Z.testbit rd 0 = false ->
  poll_idle (Transfer t ret rd) = true.
Proof.
  intros Hq -> Hb. unfold poll_idle, is_poll. rewrite Hq, Hb. reflexivity.
Qed.

Lemma poll_failed_intro t ret rd :
  seqIndex t = READ_STATUS_REG1 -> ret <> 0 ->
  poll_failed ret (Transfer t ret rd) = true.
Proof.
  intros Hq Hr. unfold poll_failed, is_poll. rewrite Hq, Z.eqb_refl.
  apply Z.eqb_neq in Hr. rewrite Hr. reflexivity.
Qed.

(** * Reasoning about computations *)

Section Inversion.

Context {S : Type} {plat : Platform S}.

Lemma bind_inv {A B : Type} (m : M S A) (k : A -> M S B) w b w' tr :
  bind m k w = Some (b, w', tr) ->
  exists a w1 t1 t2,
    m w = Some (a, w1, t1) /\ k a w1 = Some (b, w', t2) /\ tr = t1 ++ t2.
Proof.
  unfold bind. intros H.
  destruct (m w) as [[[a w1] t1]|]; [|discriminate].
  destruct (k a w1) as [[[b' w2] t2]|] eqn:Hk; [|discriminate].
  inversion H; subst. exists a, w1, t1, t2. auto.
Qed.

Lemma Ret_inv {A : Type} (a b : A) (w w' : world S) tr :
  Ret a w = Some (b, w', tr) -> b = a /\ w' = w /\ tr = [].
Proof. unfold Ret. intros H. inversion H. auto. Qed.

Lemma transfer_inv t (w w' : world S) p tr :
  transfer t w = Some (p, w', tr) ->
  tr = [Transfer t (fst p) (snd p)]
  /\ nor_write_buf w' = nor_write_buf w.
Proof.
  unfold transfer. intros H.
  destruct (memc_flexspi_transfer t (hw w)) as [[ret rd] s].
  inversion H; subst. auto.
Qed.

Lemma reset_inv (w w' : world S) u tr :
  reset w = Some (u, w', tr) ->
  tr = [Reset] /\ nor_write_buf w' = nor_write_buf w.
Proof. unfold reset. intros H. inversion H. auto. Qed.

(** A wrapper that makes one transfer and hands back its code. *)
Lemma wrapper_inv t (w w' : world S) r tr :
  (p <- transfer t ;; Ret (fst p)) w = Some (r, w', tr) ->
  exists rd, tr = [Transfer t r rd] /\ nor_write_buf w' = nor_write_buf w.
Proof.
  intros H. apply bind_inv in H. destruct H as (p & w1 & t1 & t2 & H1 & H2 & ->).
  apply transfer_inv in H1. destruct H1 as [-> Hb].
  apply Ret_inv in H2. destruct H2 as (-> & -> & ->).
  exists (snd p). auto.
Qed.

End Inversion.

(** * Busy wait *)

Section BusyWait.

Context {S : Type} {plat : Platform S}.
Variable dev : flash_flexspi_nor_data.

Lemma wait_bus_busy_loop_trace fuel : forall status (w w' : world S) r tr,
  wait_bus_busy_loop dev fuel status w = Some (r, w', tr) ->
  wait_trace r tr /\ (length tr <= fuel)%nat
  /\ nor_write_buf w' = nor_write_buf w.
Proof.
  induction fuel as [|fuel IH]; intros status w w' r tr H; simpl in H.
  - discriminate.
  - apply bind_inv in H. destruct H as ([ret st] & w1 & t1 & t2 & H1 & H2 & ->).
    apply transfer_inv in H1. destruct H1 as [-> Hb]. cbn [fst snd] in *.
    destruct (ret =? 0) eqn:Hret; cbn [negb] in H2.
    + apply Z.eqb_eq in Hret.
      rewrite land_bit0, negb_involutive in H2.
      destruct (Z.testbit st 0) eqn:Hbit.
      * apply IH in H2.
        destruct H2 as ((busy & last & -> & Hbusy & Hlast) & Hlen & Hb').
        split; [|split].
        -- eexists (_ :: busy), last.
           split; [reflexivity|]. split; [|exact Hlast].
           cbn [forallb]. rewrite Hbusy, andb_true_r.
           apply poll_busy_intro; auto.
        -- cbn [app length]. lia.
        -- congruence.
      * apply Ret_inv in H2. destruct H2 as (-> & -> & ->).
        split; [|split; [cbn; lia | exact Hb]].
        eexists [], _. split; [reflexivity|]. split; [reflexivity|].
        left. split; [reflexivity|]. apply poll_idle_intro; auto.
    + apply Ret_inv in H2. destruct H2 as (-> & -> & ->).
      split; [|split; [cbn; lia | exact Hb]].
      eexists [], _. split; [reflexivity|]. split; [reflexivity|].
      right. apply Z.eqb_neq in Hret. split; [exact Hret|].
      apply poll_failed_intro; auto.
Qed.

(** More fuel does not change a finished wait. *)
Lemma wait_bus_busy_loop_mono fuel : forall fuel' status (w : world S) x,
  wait_bus_busy_loop dev fuel status w = Some x ->
  (fuel <= fuel')%nat ->
  wait_bus_busy_loop dev fuel' status w = Some x.
Proof.
  induction fuel as [|fuel IH]; intros fuel' status w x H Hle.
  - discriminate.
  - destruct fuel' as [|fuel']; [lia|].
    cbn [wait_bus_busy_loop] in H |- *. unfold bind in *.
    destruct (flash_flexspi_nor_read_status dev status w)
      as [[[[ret st] w1] t1]|]; [|discriminate].
    destruct (negb (ret =? 0)); [exact H|].
    destruct (negb (Z.land st (BIT 0) =? 0)); [|exact H].
    destruct (wait_bus_busy_loop dev fuel st w1) as [y|] eqn:E; [|discriminate].
    rewrite (IH fuel' st w1 y E) by lia. exact H.
Qed.

End BusyWait.

Section BusyWaitRuns.

Variable dev : flash_flexspi_nor_data.

Lemma busy_flash_step n status :
  flash_flexspi_nor_read_status dev status (boot (busy_flash (Datatypes.S n)))
  = Some ((0, 1), boot (busy_flash n),
          [Transfer {| deviceAddress := 0; port := data_port dev;
                       cmdType := kFLEXSPI_Read; SeqNumber := 1;
                       seqIndex := READ_STATUS_REG1;
                       data := word_buf [status]; dataSize := 1 |} 0 1]).
Proof. reflexivity. Qed.

Lemma busy_flash_spins n : forall fuel status,
  (fuel <= n)%nat ->
  wait_bus_busy_loop dev fuel status (boot (busy_flash n)) = None.
Proof.
  induction n as [|n IH]; intros fuel status Hle.
  - assert (fuel = O) by lia. subst. reflexivity.
  - destruct fuel as [|fuel]; [reflexivity|].
    cbn [wait_bus_busy_loop]. unfold bind.
    rewrite busy_flash_step. cbn [negb Z.eqb].
    change (negb (Z.land 1 (BIT 0) =? 0)) with true. cbv iota.
    rewrite IH by lia. reflexivity.
Qed.

Lemma busy_flash_settles n : forall status,
  exists tr,
    wait_bus_busy_loop dev (Datatypes.S n) status (boot (busy_flash n))
    = Some (0, boot (busy_flash 0), tr)
    /\ length tr = Datatypes.S n.
Proof.
  induction n as [|n IH]; intros status.
  - eexists. split; reflexivity.
  - destruct (IH 1) as (tr & Htr & Hlen).
    eexists (_ :: tr). split.
    + change (wait_bus_busy_loop dev (Datatypes.S (Datatypes.S n)) status)
        with (r <- flash_flexspi_nor_read_status dev status ;;
              let '(ret, status) := r in
              if negb (ret =? 0) then Ret ret
              else if negb (Z.land status (BIT 0) =? 0)
                   then wait_bus_busy_loop dev (Datatypes.S n) status
                   else Ret 0).
      unfold bind. rewrite busy_flash_step. cbn [negb Z.eqb].
      change (negb (Z.land 1 (BIT 0) =? 0)) with true. cbv iota.
      rewrite Htr. reflexivity.
    + cbn [length]. rewrite Hlen. reflexivity.
Qed.

End BusyWaitRuns.

(** * One command and its settling *)

Lemma lut_seq_eqb_eq (a b : lut_seq) : lut_seq_eqb a b = true -> a = b.
Proof. destruct a, b; intros H; try reflexivity; discriminate H. Qed.

Lemma is_poll_seq (c : call) :
  is_poll c = true -> exists t r rd, c = Transfer t r rd /\ seqIndex t = READ_STATUS_REG1.
Proof.
  destruct c as [t r rd| | | | | |]; try discriminate.
  intros H. apply lut_seq_eqb_eq in H. eauto.
Qed.

Lemma is_poll_not_mutating (c : call) : is_poll c = true -> is_mutating c = false.
Proof.
  intros H. apply is_poll_seq in H. destruct H as (t & r & rd & -> & Hq).
  unfold is_mutating. rewrite Hq. reflexivity.
Qed.

Lemma bus_ops_app (a b : list call) : bus_ops (a ++ b) = bus_ops a ++ bus_ops b.
Proof.
  induction a as [|c a IH]; [reflexivity|].
  cbn [app bus_ops]. destruct (bus_op_of c); rewrite IH; reflexivity.
Qed.

Lemma erase_cmds_app (a b : list call) :
  erase_cmds (a ++ b) = erase_cmds a ++ erase_cmds b.
Proof.
  induction a as [|c a IH]; [reflexivity|].
  cbn [app erase_cmds]. destruct c as [t r rd| | | | | |]; try exact IH.
  destruct (seqIndex t); rewrite ?IH; reflexivity.
Qed.

Lemma polls_then_reset_app (polls rest : list call) :
  forallb is_poll polls = true ->
  polls_then_reset (polls ++ Reset :: rest) = true.
Proof.
  induction polls as [|c polls IH]; intros H; [reflexivity|].
  cbn [forallb] in H. apply andb_prop in H. destruct H as [Hc Hp].
  cbn [app polls_then_reset].
  destruct c; try discriminate Hc. rewrite Hc, IH by exact Hp. reflexivity.
Qed.

Lemma settle_each_polls (polls rest : list call) :
  forallb is_poll polls = true ->
  settle_each (polls ++ rest) = settle_each rest.
Proof.
  induction polls as [|c polls IH]; intros H; [reflexivity|].
  cbn [forallb] in H. apply andb_prop in H. destruct H as [Hc Hp].
  cbn [app settle_each]. rewrite (is_poll_not_mutating c Hc), IH by exact Hp.
  reflexivity.
Qed.

Lemma forallb_polls_weaken (P : call -> bool) (polls : list call) :
  (forall c, is_poll c = true -> P c = true) ->
  forallb is_poll polls = true -> forallb P polls = true.
Proof.
  intros HP. induction polls as [|c polls IH]; intros H; [reflexivity|].
  cbn [forallb] in *. apply andb_prop in H. destruct H as [Hc Hp].
  rewrite (HP c Hc), IH by exact Hp. reflexivity.
Qed.

Lemma erase_cmds_polls (polls : list call) :
  forallb is_poll polls = true -> erase_cmds polls = [].
Proof.
  induction polls as [|c polls IH]; intros H; [reflexivity|].
  cbn [forallb] in H. apply andb_prop in H. destruct H as [Hc Hp].
  apply is_poll_seq in Hc. destruct Hc as (t & r & rd & -> & Hq).
  cbn [erase_cmds]. rewrite Hq. exact (IH Hp).
Qed.

(** After a settled command the next call is a status read and the
    reset comes before anything else. *)
Lemma settled_cmd_settle_each t tr rest :
  settled_cmd t tr rest -> settle_each rest = true -> settle_each tr = true.
Proof.
  intros (r & rd & polls & n & -> & Hp & Hn) Hrest.
  cbn [settle_each].
  rewrite (settle_each_polls polls (Reset :: rest) Hp).
  cbn [settle_each]. change (is_mutating Reset) with false. rewrite Hrest.
  destruct polls as [|c polls]; [discriminate Hn|].
  cbn [forallb] in Hp. apply andb_prop in Hp. destruct Hp as [Hc Hp].
  cbn [app settled_next]. rewrite Hc, (polls_then_reset_app polls rest Hp).
  destruct (is_mutating (Transfer t r rd)); reflexivity.
Qed.

Lemma settled_cmd_bus_ops t tr rest :
  settled_cmd t tr rest ->
  exists n, bus_ops tr
            = Cmd (seqIndex t) (deviceAddress t) (dataSize t)
              :: repeat poll (Datatypes.S n) ++ Rst :: bus_ops rest.
Proof.
  intros (r & rd & polls & n & -> & Hp & Hn). exists n.
  cbn [bus_ops bus_op_of]. rewrite bus_ops_app, Hn. reflexivity.
Qed.

Lemma settled_cmd_erase_cmds t tr rest :
  settled_cmd t tr rest ->
  erase_cmds tr = erase_cmds [Transfer t 0 0] ++ erase_cmds rest.
Proof.
  intros (r & rd & polls & n & -> & Hp & Hn).
  cbn [erase_cmds]. rewrite erase_cmds_app, (erase_cmds_polls polls Hp).
  cbn [app erase_cmds]. destruct (seqIndex t); reflexivity.
Qed.

Lemma settled_cmd_forallb (P : call -> bool) t tr rest :
  (forall c, is_poll c = true -> P c = true) -> P Reset = true ->
  (forall r rd, P (Transfer t r rd) = true) ->
  settled_cmd t tr rest -> forallb P rest = true -> forallb P tr = true.
Proof.
  intros Hpoll Hreset Ht (r & rd & polls & n & -> & Hp & Hn) Hrest.
  cbn [forallb]. rewrite Ht, forallb_app.
  rewrite (forallb_polls_weaken P polls Hpoll Hp).
  cbn [forallb]. rewrite Hreset, Hrest. reflexivity.
Qed.

Section Settling.

Context {S : Type} {plat : Platform S}.
Variable dev : flash_flexspi_nor_data.

Lemma wait_bus_busy_loop_polls fuel : forall status (w w' : world S) r tr,
  wait_bus_busy_loop dev fuel status w = Some (r, w', tr) ->
  forallb is_poll tr = true
  /\ exists n, bus_ops tr = repeat poll (Datatypes.S n).
Proof.
  induction fuel as [|fuel IH]; intros status w w' r tr H.
  - discriminate.
  - cbn [wait_bus_busy_loop] in H.
    apply bind_inv in H. destruct H as ([ret st] & w1 & t1 & t2 & H1 & H2 & ->).
    apply transfer_inv in H1. destruct H1 as [-> _]. cbn [fst snd] in *.
    assert (Hend : forall a (v v' : world S) t,
               Ret a v = Some (r, v', t) ->
               forallb is_poll
                 ([Transfer
                     {| deviceAddress := 0; port := data_port dev;
                        cmdType := kFLEXSPI_Read; SeqNumber := 1;
                        seqIndex := READ_STATUS_REG1;
                        data := word_buf [status]; dataSize := 1 |} ret st]
                  ++ t) = true
               /\ exists n,
                   bus_ops
                     ([Transfer
                         {| deviceAddress := 0; port := data_port dev;
                            cmdType := kFLEXSPI_Read; SeqNumber := 1;
                            seqIndex := READ_STATUS_REG1;
                            data := word_buf [status]; dataSize := 1 |} ret st]
                      ++ t) = repeat poll (Datatypes.S n)).
    { intros a v v' t Hr. apply Ret_inv in Hr. destruct Hr as (_ & _ & ->).
      split; [reflexivity|]. exists O. reflexivity. }
    destruct (negb (ret =? 0)); [eapply Hend; exact H2|].
    destruct (negb (Z.land st (BIT 0) =? 0)); [|eapply Hend; exact H2].
    apply IH in H2. destruct H2 as (Hp & n & Hn). split.
    + cbn [app forallb]. rewrite Hp. reflexivity.
    + exists (Datatypes.S n). cbn [app bus_ops bus_op_of]. rewrite Hn. reflexivity.
Qed.

(** A command, its busy wait and the reset, then the rest of the work. *)
Lemma settle_inv {A : Type} t (k : M S A) fuel (w w' : world S) a tr :
  ((p <- transfer t ;; Ret (fst p)) ;;;
   flash_flexspi_nor_wait_bus_busy dev fuel ;;;
   reset ;;; k) w = Some (a, w', tr) ->
  exists w1 rest,
    settled_cmd t tr rest
    /\ nor_write_buf w1 = nor_write_buf w
    /\ k w1 = Some (a, w', rest).
Proof.
  intros H.
  apply bind_inv in H. destruct H as (r & w1 & t1 & t2 & H1 & H2 & ->).
  apply wrapper_inv in H1. destruct H1 as (rd & -> & Hb1).
  apply bind_inv in H2. destruct H2 as (r2 & w2 & t3 & t4 & H2 & H3 & ->).
  pose proof (wait_bus_busy_loop_trace _ _ _ _ H2) as (_ & _ & Hb2).
  apply wait_bus_busy_loop_polls in H2. destruct H2 as (Hp & n & Hn).
  apply bind_inv in H3. destruct H3 as (u & w3 & t5 & t6 & H3 & H4 & ->).
  apply reset_inv in H3. destruct H3 as (-> & Hb3).
  exists w3, t6. split; [|split; [congruence | exact H4]].
  exists r, rd, t3, n. auto.
Qed.

End Settling.

(** * Program *)

Lemma u32_sub_s32 (a b : Z) : u32 (a - s32 b) = u32 (a - b).
Proof.
  unfold u32. rewrite Zminus_mod. fold (u32 (s32 b)). rewrite u32_s32.
  unfold u32. rewrite <- Zminus_mod. reflexivity.
Qed.

(** The chunk taken at device address [a] with [len] bytes left. *)
Lemma chunk_bounds (P a len : Z) :
  0 < P -> 0 <= a -> 0 < len < 2 ^ 32 ->
  let m := Z.min (P - a mod P) len in
  1 <= m <= len
  /\ u32 (s32 m) = m
  /\ a / P = (a + m - 1) / P
  /\ u32 (len - s32 m) = len - m.
Proof.
  intros HP Ha Hlen m.
  pose proof (Z.mod_pos_bound a P HP) as Hr.
  assert (Hm : 1 <= m <= len) by (unfold m; lia).
  split; [exact Hm|]. split; [|split].
  - rewrite u32_s32. apply u32_id. lia.
  - apply Z.div_unique with (r := a mod P + m - 1).
    + left. unfold m. lia.
    + pose proof (Z.div_mod a P). lia.
  - rewrite u32_sub_s32. apply u32_id. lia.
Qed.

Section Program.

Context {S : Type} {plat : Platform S}.
Variable bc : build_config.
Variable dev : flash_flexspi_nor_data.

Lemma write_loop_done fuel n offset src (w w' : world S) u tr :
  write_loop bc dev fuel n offset src 0 w = Some (u, w', tr) ->
  tr = [] /\ w' = w.
Proof.
  destruct n; cbn [write_loop Z.eqb]; intros H;
    apply Ret_inv in H; destruct H as (_ & -> & ->); auto.
Qed.

(** One turn of the [while] loop: the write enable, then the page program
    of the chunk with its wait and reset, then the loop again on what is
    left. *)
Lemma write_loop_turn fuel n offset src len (w w' : world S) u tr :
  len <> 0 ->
  write_loop bc dev fuel n offset src len w = Some (u, w', tr) ->
  let i := s32 (Z.min (SPI_NOR_PAGE_SIZE bc
                       - u32 offset mod SPI_NOR_PAGE_SIZE bc) len) in
  exists n' we r1 rd1 t body rest w1,
    n = Datatypes.S n'
    /\ tr = Transfer we r1 rd1 :: body
    /\ (seqIndex we = WRITE_ENABLE /\ deviceAddress we = 0 /\ dataSize we = 0)
    /\ settled_cmd t body rest
    /\ (seqIndex t = PAGE_PROGRAM_QUAD_INPUT
        /\ deviceAddress t = u32 offset /\ dataSize t = u32 i)
    /\ write_loop bc dev fuel n' (s32 (offset + i))
         (skipn (Z.to_nat i) src) (u32 (len - i)) w1 = Some (u, w', rest).
Proof.
  intros Hlen H i.
  apply Z.eqb_neq in Hlen.
  destruct n as [|n']; cbn [write_loop] in H; rewrite Hlen in H;
    [discriminate|].
  fold i in H.
  apply bind_inv in H. destruct H as (u0 & w0 & t0 & t1 & H0 & H & ->).
  assert (t0 = []) as ->.
  { destruct (CONFIG_FLASH_MCUX_FLEXSPI_NOR_WRITE_BUFFER bc).
    - unfold stage in H0. inversion H0. reflexivity.
    - apply Ret_inv in H0. tauto. }
  apply bind_inv in H. destruct H as (r1 & w1 & t2 & t3 & H1 & H & ->).
  apply wrapper_inv in H1. destruct H1 as (rd1 & -> & _).
  apply bind_inv in H. destruct H as (buf & w2 & t4 & t5 & H2 & H & ->).
  assert (t4 = []) as ->.
  { destruct (CONFIG_FLASH_MCUX_FLEXSPI_NOR_WRITE_BUFFER bc).
    - unfold staged in H2. inversion H2. reflexivity.
    - apply Ret_inv in H2. tauto. }
  apply (settle_inv dev) in H. destruct H as (w3 & rest & Hs & _ & Hk).
  do 8 eexists. split; [reflexivity|]. split; [reflexivity|].
  split; [cbn; auto|]. split; [exact Hs|]. split; [cbn; auto|]. exact Hk.
Qed.

Lemma write_loop_settle_each fuel n : forall offset src len (w w' : world S) u tr,
  write_loop bc dev fuel n offset src len w = Some (u, w', tr) ->
  settle_each tr = true.
Proof.
  induction n as [|n IH]; intros offset src len w w' u tr H;
    destruct (Z.eq_dec len 0) as [->|Hlen];
    try (apply write_loop_done in H; destruct H as [-> _]; reflexivity);
    (apply write_loop_turn in H; [|exact Hlen]);
    destruct H as (n' & we & r1 & rd1 & t & body & rest & w1
                   & Hn & -> & (Hwe & _) & Hs & _ & Hk);
    [discriminate|].
  injection Hn as <-.
  cbn [settle_each]. unfold is_mutating. rewrite Hwe.
  apply IH in Hk. apply (settled_cmd_settle_each Hs Hk).
Qed.

Lemma write_loop_in_one_page fuel n : forall offset src len (w w' : world S) u tr,
  0 < SPI_NOR_PAGE_SIZE bc -> 0 <= len < 2 ^ 32 ->
  write_loop bc dev fuel n offset src len w = Some (u, w', tr) ->
  forallb (in_one_page (SPI_NOR_PAGE_SIZE bc)) tr = true.
Proof.
  induction n as [|n IH]; intros offset src len w w' u tr HP Hr H;
    destruct (Z.eq_dec len 0) as [->|Hlen];
    try (apply write_loop_done in H; destruct H as [-> _]; reflexivity);
    (apply write_loop_turn in H; [|exact Hlen]);
    destruct H as (n' & we & r1 & rd1 & t & body & rest & w1
                   & Hn & -> & (Hwe & _) & Hs & (Hq & Ha & Hsz) & Hk);
    [discriminate|].
  injection Hn as <-.
  pose proof (u32_range offset) as Hoff.
  assert (Ha' : 0 <= u32 offset) by lia.
  assert (Hl' : 0 < len < 2 ^ 32) by lia.
  pose proof (chunk_bounds HP Ha' Hl') as Hc. cbv zeta in Hc.
  destruct Hc as (Hm & Hu & Hdiv & Hleft).
  cbn [forallb]. apply andb_true_intro. split.
  - unfold in_one_page. rewrite Hwe. reflexivity.
  - eapply settled_cmd_forallb; [| | |exact Hs|].
    + intros c Hc. apply is_poll_seq in Hc.
      destruct Hc as (t' & r' & rd' & -> & Hq').
      unfold in_one_page. rewrite Hq'. reflexivity.
    + reflexivity.
    + intros r rd. unfold in_one_page. rewrite Hq, Ha, Hsz, Hu.
      apply andb_true_intro. split; [apply Z.leb_le; lia|].
      apply Z.eqb_eq. exact Hdiv.
    + eapply IH; [exact HP | | exact Hk].
      rewrite Hleft. lia.
Qed.

End Program.

(** * Calls off the bus, and traces put together *)

Lemma bus_ops_off_bus (l : list call) :
  forallb off_bus l = true -> bus_ops l = [].
Proof.
  induction l as [|c l IH]; intros H; [reflexivity|].
  cbn [forallb] in H. apply andb_prop in H. destruct H as [Hc Hl].
  destruct c; try discriminate Hc; cbn [bus_ops bus_op_of]; exact (IH Hl).
Qed.

Lemma erase_cmds_off_bus (l : list call) :
  forallb off_bus l = true -> erase_cmds l = [].
Proof.
  induction l as [|c l IH]; intros H; [reflexivity|].
  cbn [forallb] in H. apply andb_prop in H. destruct H as [Hc Hl].
  destruct c; try discriminate Hc; cbn [erase_cmds]; exact (IH Hl).
Qed.

Lemma forallb_off_bus (P : call -> bool) (l : list call) :
  (forall c, off_bus c = true -> P c = true) ->
  forallb off_bus l = true -> forallb P l = true.
Proof.
  intros HP. induction l as [|c l IH]; intros H; [reflexivity|].
  cbn [forallb] in *. apply andb_prop in H. destruct H as [Hc Hl].
  rewrite (HP c Hc), IH by exact Hl. reflexivity.
Qed.

Lemma in_one_page_off_bus (P : Z) (c : call) :
  off_bus c = true -> in_one_page P c = true.
Proof. destruct c; try discriminate; reflexivity. Qed.

Lemma settle_each_off_bus (l rest : list call) :
  forallb off_bus l = true -> settle_each (l ++ rest) = settle_each rest.
Proof.
  induction l as [|c l IH]; intros H; [reflexivity|].
  cbn [forallb] in H. apply andb_prop in H. destruct H as [Hc Hl].
  cbn [app settle_each]. rewrite (IH Hl).
  destruct c; try discriminate Hc; reflexivity.
Qed.

Lemma polls_then_reset_mono (a b : list call) :
  polls_then_reset a = true -> polls_then_reset (a ++ b) = true.
Proof.
  induction a as [|c a IH]; intros H; [discriminate H|].
  cbn [app polls_then_reset] in *.
  destruct c; try exact H;
    apply andb_prop in H; destruct H as [Hc Ha];
    rewrite Hc, (IH Ha); reflexivity.
Qed.

Lemma settled_next_mono (a b : list call) :
  settled_next a = true -> settled_next (a ++ b) = true.
Proof.
  destruct a as [|c a]; intros H; [discriminate H|].
  cbn [app settled_next] in *.
  apply andb_prop in H. destruct H as [Hc Ha].
  rewrite Hc, (polls_then_reset_mono a b Ha). reflexivity.
Qed.

Lemma settle_each_app (a b : list call) :
  settle_each a = true -> settle_each b = true -> settle_each (a ++ b) = true.
Proof.
  induction a as [|c a IH]; intros Ha Hb; [exact Hb|].
  cbn [app settle_each] in *.
  apply andb_prop in Ha. destruct Ha as [Hc Ha].
  rewrite (IH Ha Hb), andb_true_r.
  destruct (is_mutating c); [|reflexivity].
  apply settled_next_mono. exact Hc.
Qed.

Section Totality.

Context {S : Type} {plat : Platform S}.

Lemma bind_not_None {A B : Type} (m : M S A) (k : A -> M S B) w :
  m w <> None ->
  (forall a w1 t, m w = Some (a, w1, t) -> k a w1 <> None) ->
  bind m k w <> None.
Proof.
  unfold bind. intros Hm Hk.
  destruct (m w) as [[[a w1] t1]|]; [|contradiction].
  specialize (Hk a w1 t1 eq_refl).
  destruct (k a w1) as [[[b w2] t2]|]; [discriminate|contradiction].
Qed.

Lemma transfer_not_None t (w : world S) : transfer t w <> None.
Proof.
  unfold transfer. destruct (memc_flexspi_transfer t (hw w)) as [[? ?] ?].
  discriminate.
Qed.

Lemma wrapper_not_None t (w : world S) :
  (p <- transfer t ;; Ret (fst p)) w <> None.
Proof.
  apply bind_not_None; [apply transfer_not_None|]. intros; discriminate.
Qed.

End Totality.

(** * Program, as a whole *)

Section ProgramWhole.

Context {S : Type} {plat : Platform S}.
Variable bc : build_config.
Variable dev : flash_flexspi_nor_data.

(** The write entry point returns 0, and its trace is the loop's trace
    with calls off the bus before and after. *)
Lemma flash_flexspi_nor_write_inv fuel offset buffer len (w w' : world S) r tr :
  flash_flexspi_nor_write bc dev fuel offset buffer len w = Some (r, w', tr) ->
  r = 0
  /\ exists pre loop post w1 w2,
       tr = pre ++ loop ++ post
       /\ forallb off_bus pre = true /\ forallb off_bus post = true
       /\ write_loop bc dev fuel (Z.to_nat len) offset buffer len w1
          = Some (tt, w2, loop).
Proof.
  unfold flash_flexspi_nor_write. intros H.
  apply bind_inv in H. destruct H as (dst & w0 & t0 & t1 & H0 & H & ->).
  unfold get_ahb_address in H0. injection H0 as <- <- <-.
  apply bind_inv in H. destruct H as (xip & w1 & t2 & t3 & H1 & H & ->).
  unfold is_running_xip in H1. injection H1 as <- <- <-.
  apply bind_inv in H. destruct H as (key & w2 & pre & t4 & H2 & H & ->).
  apply bind_inv in H. destruct H as ([] & w3 & loop & t5 & H3 & H & ->).
  apply bind_inv in H. destruct H as (xip' & w4 & t6 & t7 & H4 & H & ->).
  unfold is_running_xip in H4. injection H4 as <- <- <-.
  apply bind_inv in H. destruct H as (u1 & w5 & t8 & t9 & H5 & H & ->).
  apply bind_inv in H. destruct H as (u2 & w6 & t10 & t11 & H6 & H & ->).
  apply Ret_inv in H. destruct H as (-> & -> & ->).
  split; [reflexivity|].
  exists pre, loop, (t8 ++ t10), w2, w3.
  split; [cbn [app]; rewrite app_nil_r; reflexivity|].
  split; [|split; [|exact H3]].
  - destruct (memc_flexspi_is_running_xip (hw w)).
    + unfold do_irq_lock in H2. destruct (irq_lock (hw w)) as [k s].
      injection H2 as <- <- <-. reflexivity.
    + apply Ret_inv in H2. destruct H2 as (_ & _ & ->). reflexivity.
  - rewrite forallb_app. apply andb_true_intro. split.
    + destruct (memc_flexspi_is_running_xip (hw w3)).
      * unfold do_irq_unlock in H5. inversion H5. reflexivity.
      * apply Ret_inv in H5. destruct H5 as (_ & _ & ->). reflexivity.
    + destruct (CONFIG_HAS_MCUX_CACHE bc).
      * unfold dcache_invalidate in H6. inversion H6. reflexivity.
      * apply Ret_inv in H6. destruct H6 as (_ & _ & ->). reflexivity.
Qed.

Lemma write_loop_program_cmds fuel n :
  forall m offset src len (w w' : world S) u tr a,
  0 < SPI_NOR_PAGE_SIZE bc -> 0 <= len < 2 ^ 32 -> 0 <= a ->
  a + len <= 2 ^ 32 ->
  (len <> 0 -> u32 offset = a) -> (Z.to_nat len <= m)%nat ->
  write_loop bc dev fuel n offset src len w = Some (u, w', tr) ->
  program_cmds tr = spec_page_chunks m (SPI_NOR_PAGE_SIZE bc) a len.
Proof.
  induction n as [|n IH]; intros m offset src len w w' u tr a HP Hl Ha Hend Hoff Hm H;
    destruct (Z.eq_dec len 0) as [->|Hlen];
    try (apply write_loop_done in H; destruct H as [-> _];
         destruct m; reflexivity);
    (apply write_loop_turn in H; [|exact Hlen]);
    destruct H as (n' & we & r1 & rd1 & t & body & rest & w1
                   & Hn & -> & (Hwe & _) & Hs & (Hq & Hta & Hsz) & Hk);
    [discriminate|].
  injection Hn as <-.
  specialize (Hoff Hlen). rewrite Hoff in *.
  assert (Hl' : 0 < len < 2 ^ 32) by lia.
  pose proof (chunk_bounds HP Ha Hl') as Hc. cbv zeta in Hc.
  destruct Hc as (Hc & Hu & _ & Hleft).
  set (c := Z.min (SPI_NOR_PAGE_SIZE bc - a mod SPI_NOR_PAGE_SIZE bc) len) in *.
  destruct m as [|m]; [lia|].
  cbn [spec_page_chunks]. fold c.
  destruct (len <=? 0) eqn:E; [apply Z.leb_le in E; lia|].
  destruct Hs as (r & rd & polls & k & -> & Hp & Hk').
  cbn [program_cmds]. rewrite Hwe, Hq, Hta, Hsz, Hu.
  f_equal.
  assert (Hpolls : forall l, program_cmds (polls ++ Reset :: l) = program_cmds l).
  { clear - Hp. intros l. induction polls as [|x polls IHp]; [reflexivity|].
    cbn [forallb] in Hp. apply andb_prop in Hp. destruct Hp as [Hx Hp].
    apply is_poll_seq in Hx. destruct Hx as (t' & r' & rd' & -> & Hq').
    cbn [app program_cmds]. rewrite Hq'. exact (IHp Hp). }
  rewrite Hpolls. rewrite Hleft in Hk.
  eapply IH; [exact HP | | | | | | exact Hk].
  - lia.
  - lia.
  - lia.
  - intros Hne.
    rewrite u32_s32, Z.add_comm, u32_s32_add, Z.add_comm, <- u32_add_l, Hoff.
    apply u32_id. lia.
  - lia.
Qed.

Lemma write_loop_returns fuel n : forall offset src len (w : world S),
  0 < SPI_NOR_PAGE_SIZE bc -> 0 <= len < 2 ^ 32 -> (Z.to_nat len <= n)%nat ->
  (forall v : world S, flash_flexspi_nor_wait_bus_busy dev fuel v <> None) ->
  write_loop bc dev fuel n offset src len w <> None.
Proof.
  induction n as [|n IH]; intros offset src len w HP Hl Hn Hidle;
    destruct (Z.eq_dec len 0) as [->|Hlen]; try discriminate; [lia|].
  cbn [write_loop]. destruct (len =? 0) eqn:E; [apply Z.eqb_eq in E; lia|].
  pose proof (u32_range offset) as Ho.
  assert (Ha' : 0 <= u32 offset) by lia.
  assert (Hl' : 0 < len < 2 ^ 32) by lia.
  pose proof (chunk_bounds HP Ha' Hl') as Hc. cbv zeta in Hc.
  destruct Hc as (Hc & _ & _ & Hleft).
  apply bind_not_None.
  { destruct (CONFIG_FLASH_MCUX_FLEXSPI_NOR_WRITE_BUFFER bc); discriminate. }
  intros ? w1 ? _. apply bind_not_None; [apply wrapper_not_None|].
  intros ? w2 ? _. apply bind_not_None.
  { destruct (CONFIG_FLASH_MCUX_FLEXSPI_NOR_WRITE_BUFFER bc); discriminate. }
  intros buf w3 ? _. apply bind_not_None; [apply wrapper_not_None|].
  intros ? w4 ? _. apply bind_not_None; [apply Hidle|].
  intros ? w5 ? _. apply bind_not_None; [discriminate|].
  intros ? w6 ? _. apply IH; [exact HP | | | exact Hidle].
  - rewrite Hleft. lia.
  - rewrite Hleft. lia.
Qed.

(** The write entry point returns whenever every busy wait does. *)
Lemma flash_flexspi_nor_write_returns fuel offset buffer len (w : world S) :
  0 < SPI_NOR_PAGE_SIZE bc -> 0 <= len < 2 ^ 32 ->
  (forall v : world S, flash_flexspi_nor_wait_bus_busy dev fuel v <> None) ->
  flash_flexspi_nor_write bc dev fuel offset buffer len w <> None.
Proof.
  intros HP Hl Hidle. unfold flash_flexspi_nor_write.
  assert (Hn : (Z.to_nat len <= Z.to_nat len)%nat) by apply Nat.le_refl.
  apply bind_not_None; [discriminate|].
  intros dst w1 ? _. apply bind_not_None; [discriminate|].
  intros xip w2 ? _. apply bind_not_None.
  { destruct xip; [|discriminate].
    unfold do_irq_lock. destruct (irq_lock (hw w2)). discriminate. }
  intros key w3 ? _. apply bind_not_None.
  { apply write_loop_returns; assumption. }
  intros ? w4 ? _. apply bind_not_None; [discriminate|].
  intros xip' w5 ? _. apply bind_not_None; [destruct xip'; discriminate|].
  intros ? w6 ? _. apply bind_not_None;
    [destruct (CONFIG_HAS_MCUX_CACHE bc); discriminate|].
  intros; discriminate.
Qed.

End ProgramWhole.

Lemma program_cmds_app (a b : list call) :
  program_cmds (a ++ b) = program_cmds a ++ program_cmds b.
Proof.
  induction a as [|c a IH]; [reflexivity|].
  cbn [app program_cmds]. destruct c as [t r rd| | | | | |]; try exact IH.
  destruct (seqIndex t); rewrite ?IH; reflexivity.
Qed.

Lemma program_cmds_off_bus (l : list call) :
  forallb off_bus l = true -> program_cmds l = [].
Proof.
  induction l as [|c l IH]; intros H; [reflexivity|].
  cbn [forallb] in H. apply andb_prop in H. destruct H as [Hc Hl].
  destruct c; try discriminate Hc; cbn [program_cmds]; exact (IH Hl).
Qed.

Section ProgramTurns.

Context {S : Type} {plat : Platform S}.
Variable bc : build_config.
Variable dev : flash_flexspi_nor_data.

Lemma write_loop_turn_bus_ops fuel n offset src len (w w' : world S) u tr :
  len <> 0 ->
  write_loop bc dev fuel n offset src len w = Some (u, w', tr) ->
  exists n' k rest w1,
    n = Datatypes.S n'
    /\ bus_ops tr
       = Cmd WRITE_ENABLE 0 0
         :: Cmd PAGE_PROGRAM_QUAD_INPUT (u32 offset)
              (u32 (s32 (Z.min (SPI_NOR_PAGE_SIZE bc
                                - u32 offset mod SPI_NOR_PAGE_SIZE bc) len)))
         :: repeat poll (Datatypes.S k) ++ Rst :: bus_ops rest
    /\ write_loop bc dev fuel n'
         (s32 (offset + s32 (Z.min (SPI_NOR_PAGE_SIZE bc
                                    - u32 offset mod SPI_NOR_PAGE_SIZE bc) len)))
         (skipn (Z.to_nat (s32 (Z.min (SPI_NOR_PAGE_SIZE bc
                                       - u32 offset mod SPI_NOR_PAGE_SIZE bc)
                                      len))) src)
         (u32 (len - s32 (Z.min (SPI_NOR_PAGE_SIZE bc
                                 - u32 offset mod SPI_NOR_PAGE_SIZE bc) len)))
         w1 = Some (u, w', rest).
Proof.
  intros Hlen H. apply write_loop_turn in H; [|exact Hlen]. cbv zeta in H.
  destruct H as (n' & we & r1 & rd1 & t & body & rest & w1
                 & -> & -> & (Hwe & Hwa & Hws) & Hs & (Hq & Ha & Hsz) & Hk).
  apply settled_cmd_bus_ops in Hs. destruct Hs as (k & Hs).
  exists n', k, rest, w1. split; [reflexivity|]. split; [|exact Hk].
  cbn [bus_ops bus_op_of]. rewrite Hs, Hwe, Hwa, Hws, Hq, Ha, Hsz. reflexivity.
Qed.

End ProgramTurns.

(** * Erase *)

Section Erase.

Context {S : Type} {plat : Platform S}.
Variable bc : build_config.
Variable dev : flash_flexspi_nor_data.

(** A command whose reset ends the work. *)
Lemma settle_last_inv t fuel (w w' : world S) u tr :
  ((p <- transfer t ;; Ret (fst p)) ;;;
   flash_flexspi_nor_wait_bus_busy dev fuel ;;;
   reset) w = Some (u, w', tr) ->
  settled_cmd t tr [].
Proof.
  intros H.
  apply bind_inv in H. destruct H as (r & w1 & t1 & t2 & H1 & H2 & ->).
  apply wrapper_inv in H1. destruct H1 as (rd & -> & _).
  apply bind_inv in H2. destruct H2 as (r2 & w2 & t3 & t4 & H2 & H3 & ->).
  apply wait_bus_busy_loop_polls in H2. destruct H2 as (Hp & n & Hn).
  apply reset_inv in H3. destruct H3 as (-> & _).
  exists r, rd, t3, n. auto.
Qed.

Lemma erase_block_loop_turn fuel count offset (w w' : world S) u tr :
  erase_block_loop bc dev fuel (Datatypes.S count) offset w = Some (u, w', tr) ->
  exists we r1 rd1 t body rest w1,
    tr = Transfer we r1 rd1 :: body
    /\ seqIndex we = WRITE_ENABLE
    /\ settled_cmd t body rest
    /\ (seqIndex t = ERASE_BLOCK /\ deviceAddress t = u32 offset)
    /\ erase_block_loop bc dev fuel count (s32 (offset + SPI_NOR_BLOCK_SIZE bc)) w1
       = Some (u, w', rest).
Proof.
  cbn [erase_block_loop]. intros H.
  apply bind_inv in H. destruct H as (r1 & w1 & t1 & t2 & H1 & H & ->).
  apply wrapper_inv in H1. destruct H1 as (rd1 & -> & _).
  apply (settle_inv dev) in H. destruct H as (w3 & rest & Hs & _ & Hk).
  do 7 eexists. split; [reflexivity|]. split; [reflexivity|].
  split; [exact Hs|]. split; [cbn; auto|]. exact Hk.
Qed.

Lemma erase_sector_loop_turn fuel count offset (w w' : world S) u tr :
  erase_sector_loop bc dev fuel (Datatypes.S count) offset w = Some (u, w', tr) ->
  exists we r1 rd1 t body rest w1,
    tr = Transfer we r1 rd1 :: body
    /\ seqIndex we = WRITE_ENABLE
    /\ settled_cmd t body rest
    /\ (seqIndex t = ERASE_SECTOR /\ deviceAddress t = u32 offset)
    /\ erase_sector_loop bc dev fuel count (s32 (offset + SPI_NOR_SECTOR_SIZE bc)) w1
       = Some (u, w', rest).
Proof.
  cbn [erase_sector_loop]. intros H.
  apply bind_inv in H. destruct H as (r1 & w1 & t1 & t2 & H1 & H & ->).
  apply wrapper_inv in H1. destruct H1 as (rd1 & -> & _).
  apply (settle_inv dev) in H. destruct H as (w3 & rest & Hs & _ & Hk).
  do 7 eexists. split; [reflexivity|]. split; [reflexivity|].
  split; [exact Hs|]. split; [cbn; auto|]. exact Hk.
Qed.

(** The addresses of [count] erase commands from [offset], [step] apart. *)
Lemma erase_addresses_step (q : lut_seq) (offset step : Z) (count : nat) :
  (q, u32 offset)
  :: map (fun k => (q, u32 (s32 (offset + step) + Z.of_nat k * step)))
       (seq 0 count)
  = map (fun k => (q, u32 (offset + Z.of_nat k * step)))
      (seq 0 (Datatypes.S count)).
Proof.
  cbn [seq map]. f_equal; [f_equal; f_equal; lia|].
  rewrite <- seq_shift, map_map. apply map_ext. intros k.
  rewrite u32_s32_add. f_equal. f_equal. lia.
Qed.

Lemma erase_block_loop_trace fuel count : forall offset (w w' : world S) u tr,
  erase_block_loop bc dev fuel count offset w = Some (u, w', tr) ->
  settle_each tr = true
  /\ erase_cmds tr
     = map (fun k => (ERASE_BLOCK,
                      u32 (offset + Z.of_nat k * SPI_NOR_BLOCK_SIZE bc)))
         (seq 0 count).
Proof.
  induction count as [|count IH]; intros offset w w' u tr H.
  - apply Ret_inv in H. destruct H as (_ & _ & ->). split; reflexivity.
  - apply erase_block_loop_turn in H.
    destruct H as (we & r1 & rd1 & t & body & rest & w1
                   & -> & Hwe & Hs & (Hq & Ha) & Hk).
    apply IH in Hk. destruct Hk as (Hse & Hec). split.
    + cbn [settle_each]. unfold is_mutating. rewrite Hwe.
      apply (settled_cmd_settle_each Hs Hse).
    + cbn [erase_cmds]. rewrite Hwe.
      rewrite (settled_cmd_erase_cmds Hs). cbn [erase_cmds app].
      rewrite Hq, Ha, Hec. apply erase_addresses_step.
Qed.

Lemma erase_sector_loop_trace fuel count : forall offset (w w' : world S) u tr,
  erase_sector_loop bc dev fuel count offset w = Some (u, w', tr) ->
  settle_each tr = true
  /\ erase_cmds tr
     = map (fun k => (ERASE_SECTOR,
                      u32 (offset + Z.of_nat k * SPI_NOR_SECTOR_SIZE bc)))
         (seq 0 count).
Proof.
  induction count as [|count IH]; intros offset w w' u tr H.
  - apply Ret_inv in H. destruct H as (_ & _ & ->). split; reflexivity.
  - apply erase_sector_loop_turn in H.
    destruct H as (we & r1 & rd1 & t & body & rest & w1
                   & -> & Hwe & Hs & (Hq & Ha) & Hk).
    apply IH in Hk. destruct Hk as (Hse & Hec). split.
    + cbn [settle_each]. unfold is_mutating. rewrite Hwe.
      apply (settled_cmd_settle_each Hs Hse).
    + cbn [erase_cmds]. rewrite Hwe.
      rewrite (settled_cmd_erase_cmds Hs). cbn [erase_cmds app].
      rewrite Hq, Ha, Hec. apply erase_addresses_step.
Qed.

Lemma erase_chip_trace fuel (w w' : world S) u tr :
  (flash_flexspi_nor_write_enable dev ;;;
   flash_flexspi_nor_erase_chip dev ;;;
   flash_flexspi_nor_wait_bus_busy dev fuel ;;;
   reset) w = Some (u, w', tr) ->
  settle_each tr = true /\ erase_cmds tr = [(ERASE_CHIP, 0)].
Proof.
  intros H.
  apply bind_inv in H. destruct H as (r1 & w1 & t1 & t2 & H1 & H & ->).
  apply wrapper_inv in H1. destruct H1 as (rd1 & -> & _).
  apply settle_last_inv in H. split.
  - cbn [app settle_each]. change (is_mutating _) with false at 1.
    apply (settled_cmd_settle_each H). reflexivity.
  - cbn [app erase_cmds seqIndex].
    rewrite (settled_cmd_erase_cmds H). reflexivity.
Qed.

(** A misaligned request is refused before anything is done. *)
Lemma flash_flexspi_nor_erase_misaligned fuel offset size (w : world S) :
  u32 offset mod SPI_NOR_SECTOR_SIZE bc <> 0
  \/ size mod SPI_NOR_SECTOR_SIZE bc <> 0 ->
  flash_flexspi_nor_erase bc dev fuel offset size w = Some (- EINVAL, w, []).
Proof.
  intros H. unfold flash_flexspi_nor_erase, bind, get_ahb_address.
  destruct (u32 offset mod SPI_NOR_SECTOR_SIZE bc =? 0) eqn:Eo; [|reflexivity].
  destruct (size mod SPI_NOR_SECTOR_SIZE bc =? 0) eqn:Es; [|reflexivity].
  apply Z.eqb_eq in Eo, Es. destruct H; contradiction.
Qed.

(** An aligned request returns 0; its trace is the work's trace with
    calls off the bus before and after. *)
Lemma flash_flexspi_nor_erase_inv fuel offset size (w w' : world S) r tr :
  u32 offset mod SPI_NOR_SECTOR_SIZE bc = 0 ->
  size mod SPI_NOR_SECTOR_SIZE bc = 0 ->
  flash_flexspi_nor_erase bc dev fuel offset size w = Some (r, w', tr) ->
  r = 0
  /\ exists pre work post w1 w2,
       tr = pre ++ work ++ post
       /\ forallb off_bus pre = true /\ forallb off_bus post = true
       /\ erase_work bc dev fuel offset size w1 = Some (tt, w2, work).
Proof.
  intros Ho Hs. unfold flash_flexspi_nor_erase. intros H.
  apply bind_inv in H. destruct H as (dst & w0 & t0 & t1 & H0 & H & ->).
  unfold get_ahb_address in H0. injection H0 as <- <- <-.
  rewrite Ho, Hs in H. cbn [Z.eqb negb] in H.
  apply bind_inv in H. destruct H as (xip & w1 & t2 & t3 & H1 & H & ->).
  unfold is_running_xip in H1. injection H1 as <- <- <-.
  apply bind_inv in H. destruct H as (key & w2 & pre & t4 & H2 & H & ->).
  apply bind_inv in H. destruct H as ([] & w3 & work & t5 & H3 & H & ->).
  apply bind_inv in H. destruct H as (xip' & w4 & t6 & t7 & H4 & H & ->).
  unfold is_running_xip in H4. injection H4 as <- <- <-.
  apply bind_inv in H. destruct H as (u1 & w5 & t8 & t9 & H5 & H & ->).
  apply bind_inv in H. destruct H as (u2 & w6 & t10 & t11 & H6 & H & ->).
  apply Ret_inv in H. destruct H as (-> & -> & ->).
  split; [reflexivity|].
  exists pre, work, (t8 ++ t10), w2, w3.
  split; [cbn [app]; rewrite app_nil_r; reflexivity|].
  split; [|split; [|exact H3]].
  - destruct (memc_flexspi_is_running_xip (hw w)).
    + unfold do_irq_lock in H2. destruct (irq_lock (hw w)) as [k s].
      injection H2 as <- <- <-. reflexivity.
    + apply Ret_inv in H2. destruct H2 as (_ & _ & ->). reflexivity.
  - rewrite forallb_app. apply andb_true_intro. split.
    + destruct (memc_flexspi_is_running_xip (hw w3)).
      * unfold do_irq_unlock in H5. inversion H5. reflexivity.
      * apply Ret_inv in H5. destruct H5 as (_ & _ & ->). reflexivity.
    + destruct (CONFIG_HAS_MCUX_CACHE bc).
      * unfold dcache_invalidate in H6. inversion H6. reflexivity.
      * apply Ret_inv in H6. destruct H6 as (_ & _ & ->). reflexivity.
Qed.

End Erase.

(** * Quad mode and initialisation *)

Section QuadMode.

Context {S : Type} {plat : Platform S}.
Variable dev : flash_flexspi_nor_data.

Lemma wait_bus_busy_polls fuel (w w' : world S) r tr :
  flash_flexspi_nor_wait_bus_busy dev fuel w = Some (r, w', tr) ->
  forallb is_poll tr = true /\ tr <> [].
Proof.
  intros H. apply wait_bus_busy_loop_polls in H. destruct H as (Hp & n & Hn).
  split; [exact Hp|]. intros ->. discriminate Hn.
Qed.

Lemma flash_flexspi_nor_enable_quad_mode_inv fuel (w w' : world S) q tr :
  flash_flexspi_nor_enable_quad_mode dev fuel w = Some (q, w', tr) ->
  quad_trace q tr.
Proof.
  unfold flash_flexspi_nor_enable_quad_mode. intros H.
  apply bind_inv in H. destruct H as (r1 & w1 & t1 & t2 & H1 & H & ->).
  apply wrapper_inv in H1. destruct H1 as (rd1 & -> & _).
  apply bind_inv in H. destruct H as (r2 & w2 & t3 & t4 & H2 & H & ->).
  unfold flash_flexspi_nor_write_status in H2. cbn [Z.ltb Z.compare Pos.compare Pos.compare_cont] in H2.
  apply wrapper_inv in H2. destruct H2 as (rd2 & -> & _).
  destruct (r2 =? 0) eqn:Er; cbn [negb] in H.
  - apply Z.eqb_eq in Er.
    apply bind_inv in H. destruct H as (r3 & w3 & polls & t5 & H3 & H & ->).
    apply wait_bus_busy_polls in H3. destruct H3 as (Hp & Hne).
    apply bind_inv in H. destruct H as (p & w4 & t6 & t7 & H4 & H & ->).
    apply transfer_inv in H4. destruct H4 as (-> & _).
    destruct (2 =? snd p) eqn:Ep; cbn [negb] in H.
    + apply Z.eqb_eq in Ep.
      apply bind_inv in H.
      destruct H as (r5 & w5 & polls' & t8 & H5 & H & ->).
      apply wait_bus_busy_polls in H5. destruct H5 as (Hp' & Hne').
      apply bind_inv in H. destruct H as (u & w6 & t9 & t10 & H6 & H & ->).
      apply reset_inv in H6. destruct H6 as (-> & _).
      apply Ret_inv in H. destruct H as (Hq & _ & ->).
      do 6 eexists. split; [|split]; cycle 2.
      * right. split; [exact Er|].
        exists polls. do 3 eexists. split; [exact Hp|]. split; [exact Hne|].
        split; cycle 1.
        -- right. split; [symmetry; exact Ep|]. split; [exact Hq|].
           exists polls'. split; [exact Hp'|]. split; [exact Hne'|].
           reflexivity.
        -- reflexivity.
      * reflexivity.
      * reflexivity.
    + apply Z.eqb_neq in Ep.
      apply Ret_inv in H. destruct H as (Hq & _ & ->).
      do 6 eexists. split; [|split]; cycle 2.
      * right. split; [exact Er|].
        exists polls. do 3 eexists. split; [exact Hp|]. split; [exact Hne|].
        split; cycle 1.
        -- left. split; [intros E; apply Ep; symmetry; exact E|].
           split; [exact Hq|]. reflexivity.
        -- reflexivity.
      * reflexivity.
      * reflexivity.
  - apply Z.eqb_neq in Er.
    apply Ret_inv in H. destruct H as (Hq & _ & ->).
    do 6 eexists. split; [|split]; cycle 2.
    + left. split; [exact Er|]. split; [exact Hq|]. reflexivity.
    + reflexivity.
    + reflexivity.
Qed.

(** The handshake returns whenever every busy wait does. *)
Lemma flash_flexspi_nor_enable_quad_mode_returns fuel (w : world S) :
  (forall v : world S, flash_flexspi_nor_wait_bus_busy dev fuel v <> None) ->
  flash_flexspi_nor_enable_quad_mode dev fuel w <> None.
Proof.
  intros Hidle. unfold flash_flexspi_nor_enable_quad_mode.
  apply bind_not_None; [apply wrapper_not_None|].
  intros ? w1 ? _. apply bind_not_None; [apply wrapper_not_None|].
  intros r w2 ? _. destruct (negb (r =? 0)); [discriminate|].
  apply bind_not_None; [apply Hidle|].
  intros ? w3 ? _. apply bind_not_None; [apply transfer_not_None|].
  intros p w4 ? _. destruct (negb (2 =? snd p)); [discriminate|].
  apply bind_not_None; [apply Hidle|].
  intros ? w5 ? _. apply bind_not_None; [discriminate|].
  intros; discriminate.
Qed.

End QuadMode.

Lemma polls_seq (l : list call) t ret rd :
  forallb is_poll l = true -> In (Transfer t ret rd) l ->
  seqIndex t = READ_STATUS_REG1.
Proof.
  intros H Hin. rewrite forallb_forall in H. specialize (H _ Hin).
  apply lut_seq_eqb_eq in H. exact H.
Qed.

Lemma no_probe_in (l : list call) t ret rd :
  existsb is_probe l = false -> In (Transfer t ret rd) l ->
  seqIndex t <> READ_STATUS_REG2.
Proof.
  intros H Hin Hq.
  assert (E : existsb is_probe l = true).
  { apply existsb_exists. exists (Transfer t ret rd). split; [exact Hin|].
    unfold is_probe. rewrite Hq. reflexivity. }
  congruence.
Qed.

Lemma no_probe_polls (l : list call) :
  forallb is_poll l = true -> existsb is_probe l = false.
Proof.
  induction l as [|c l IH]; intros H; [reflexivity|].
  cbn [forallb] in H. apply andb_prop in H. destruct H as [Hc Hl].
  cbn [existsb]. rewrite (IH Hl), orb_false_r.
  apply is_poll_seq in Hc. destruct Hc as (t & r & rd & -> & Hq).
  unfold is_probe. rewrite Hq. reflexivity.
Qed.

(** A probe that did not read [0x02] is the last call of the handshake,
    and the handshake's result is [-EIO]. *)
Lemma quad_trace_probe_failed q tr t ret rd :
  quad_trace q tr ->
  In (Transfer t ret rd) tr -> seqIndex t = READ_STATUS_REG2 -> rd <> 0x02 ->
  q = - EIO /\ exists tr0, tr = tr0 ++ [Transfer t ret rd].
Proof.
  intros (we & r1 & rd1 & ws & r2 & rd2 & Hwe & Hws & Hcases) Hin Hq Hrd.
  assert (Hnwe : Transfer t ret rd <> Transfer we r1 rd1)
    by (intros E; injection E as -> _ _; congruence).
  assert (Hnws : Transfer t ret rd <> Transfer ws r2 rd2)
    by (intros E; injection E as -> _ _; congruence).
  destruct Hcases as [(_ & _ & ->) | (_ & polls & probe & r3 & rd3 & Hp & _ & Hpq & Hc)].
  - destruct Hin as [E|[E|[]]]; symmetry in E; contradiction.
  - assert (Hnp : ~ In (Transfer t ret rd) polls)
      by (intros Hi; pose proof (@polls_seq polls t ret rd Hp Hi); congruence).
    destruct Hc as [(Hne & -> & ->) | (-> & _ & polls' & Hp' & _ & ->)].
    + split; [reflexivity|].
      destruct Hin as [E|[E|Hin]]; try (symmetry in E; contradiction).
      apply in_app_or in Hin. destruct Hin as [Hin|[E|[]]]; [contradiction|].
      rewrite <- E.
      exists (Transfer we r1 rd1 :: Transfer ws r2 rd2 :: polls). reflexivity.
    + exfalso.
      destruct Hin as [E|[E|Hin]]; try (symmetry in E; contradiction).
      apply in_app_or in Hin. destruct Hin as [Hin|[E|Hin]]; [contradiction| |].
      * injection E as _ _ E. congruence.
      * apply in_app_or in Hin. destruct Hin as [Hin|[E|[]]]; [|discriminate E].
        pose proof (@polls_seq polls' t ret rd Hp' Hin). congruence.
Qed.

Section Init.

Context {S : Type} {plat : Platform S}.
Variable dev : flash_flexspi_nor_data.

(** The runs of the initialisation: it stops before the handshake, with no
    probe on the bus; or it goes through the handshake, fails with [-EIO]
    right after it when the handshake failed, and otherwise waits, resets
    and returns 0. *)
Lemma flash_flexspi_nor_init_inv fuel (w w' : world S) r tr :
  flash_flexspi_nor_init dev fuel w = Some (r, w', tr) ->
  (existsb is_probe tr = false /\ r <> 0)
  \/ exists pre qtr post q,
       tr = pre ++ qtr ++ post
       /\ existsb is_probe pre = false
       /\ quad_trace q qtr
       /\ ((q <> 0 /\ r = - EIO /\ post = [])
           \/ (q = 0 /\ r = 0 /\ existsb is_probe post = false)).
Proof.
  unfold flash_flexspi_nor_init. intros H.
  apply bind_inv in H. destruct H as (ready & w0 & t0 & t1 & H0 & H & ->).
  unfold is_ready in H0. injection H0 as <- <- <-.
  destruct (device_is_ready (hw w)); cbn [negb] in H.
  2:{ apply Ret_inv in H. destruct H as (-> & _ & ->).
      left. split; [reflexivity | discriminate]. }
  apply bind_inv in H. destruct H as (xip & w1 & t2 & t3 & H1 & H & ->).
  unfold is_running_xip in H1. injection H1 as <- <- <-.
  apply bind_inv in H. destruct H as (u1 & w2 & t4 & t5 & H2 & H & ->).
  assert (Ht4 : existsb is_probe t4 = false).
  { destruct (memc_flexspi_is_running_xip (hw w)).
    - unfold wait_bus_idle in H2. inversion H2. reflexivity.
    - apply Ret_inv in H2. destruct H2 as (_ & _ & ->). reflexivity. }
  apply bind_inv in H. destruct H as (c & w3 & t6 & t7 & H3 & H & ->).
  assert (Ht6 : existsb is_probe t6 = false).
  { unfold set_device_config in H3.
    destruct (memc_flexspi_set_device_config (hw w2)) as [c' s'].
    inversion H3. reflexivity. }
  destruct (c =? 0); cbn [negb] in H.
  2:{ apply Ret_inv in H. destruct H as (-> & _ & ->).
      left. split; [|discriminate].
      cbn [app]. rewrite !existsb_app, Ht4, Ht6. reflexivity. }
  apply bind_inv in H. destruct H as (r1 & w4 & polls & t8 & H4 & H & ->).
  apply wait_bus_busy_polls in H4. destruct H4 as (Hp & _).
  apply no_probe_polls in Hp.
  apply bind_inv in H. destruct H as (u2 & w5 & t9 & t10 & H5 & H & ->).
  apply reset_inv in H5. destruct H5 as (-> & _).
  apply bind_inv in H. destruct H as (v & w6 & t11 & t12 & H6 & H & ->).
  assert (Ht11 : existsb is_probe t11 = false).
  { unfold flash_flexspi_nor_get_vendor_id in H6.
    apply bind_inv in H6. destruct H6 as (p & w7 & t13 & t14 & H6 & H7 & ->).
    apply transfer_inv in H6. destruct H6 as (-> & _).
    destruct p as [ret buffer]. apply Ret_inv in H7.
    destruct H7 as (_ & _ & ->). reflexivity. }
  assert (Hpre : existsb is_probe (t4 ++ t6 ++ polls ++ [Reset] ++ t11) = false).
  { rewrite !existsb_app, Ht4, Ht6, Hp, Ht11. reflexivity. }
  destruct (fst v =? 0); cbn [negb] in H.
  2:{ apply Ret_inv in H. destruct H as (-> & _ & ->).
      left. split; [|discriminate].
      cbn [app]. rewrite app_nil_r. exact Hpre. }
  apply bind_inv in H. destruct H as (q & w8 & qtr & t15 & H8 & H & ->).
  apply flash_flexspi_nor_enable_quad_mode_inv in H8.
  right. exists (t4 ++ t6 ++ polls ++ [Reset] ++ t11), qtr, t15, q.
  split; [cbn [app]; rewrite <- !app_assoc; reflexivity|].
  split; [exact Hpre|]. split; [exact H8|].
  destruct (q =? 0) eqn:Eq; cbn [negb] in H.
  - apply Z.eqb_eq in Eq. right.
    apply bind_inv in H. destruct H as (r2 & w9 & polls' & t16 & H9 & H & ->).
    apply wait_bus_busy_polls in H9. destruct H9 as (Hp' & _).
    apply no_probe_polls in Hp'.
    apply bind_inv in H. destruct H as (u3 & w10 & t17 & t18 & H10 & H & ->).
    apply reset_inv in H10. destruct H10 as (-> & _).
    apply Ret_inv in H. destruct H as (-> & _ & ->).
    split; [exact Eq|]. split; [reflexivity|].
    rewrite !existsb_app, Hp'. reflexivity.
  - apply Z.eqb_neq in Eq. left.
    apply Ret_inv in H. destruct H as (-> & _ & ->). auto.
Qed.

End Init.

(** * The entry points and the bus *)

Section EntryPoints.

Context {S : Type} {plat : Platform S}.
Variable bc : build_config.
Variable dev : flash_flexspi_nor_data.

Lemma flash_flexspi_nor_write_settle_each fuel offset buffer len
    (w w' : world S) r tr :
  flash_flexspi_nor_write bc dev fuel offset buffer len w = Some (r, w', tr) ->
  settle_each tr = true.
Proof.
  intros H. apply flash_flexspi_nor_write_inv in H.
  destruct H as (_ & pre & loop & post & w1 & w2 & -> & Hpre & Hpost & Hloop).
  rewrite (settle_each_off_bus pre _ Hpre).
  apply settle_each_app.
  - eapply write_loop_settle_each. exact Hloop.
  - rewrite <- (app_nil_r post), (settle_each_off_bus post [] Hpost).
    reflexivity.
Qed.

Lemma erase_work_settle_each fuel offset size (w w' : world S) u tr :
  erase_work bc dev fuel offset size w = Some (u, w', tr) ->
  settle_each tr = true.
Proof.
  unfold erase_work. intros H.
  destruct ((offset =? 0) && (size =? u32 (flashSize (config dev) * KB 1))).
  - apply erase_chip_trace in H. tauto.
  - destruct ((0 =? u32 offset mod SPI_NOR_BLOCK_SIZE bc)
              && (0 =? size mod SPI_NOR_BLOCK_SIZE bc)).
    + apply erase_block_loop_trace in H. tauto.
    + apply erase_sector_loop_trace in H. tauto.
Qed.

Lemma flash_flexspi_nor_erase_cases fuel offset size (w w' : world S) r tr :
  flash_flexspi_nor_erase bc dev fuel offset size w = Some (r, w', tr) ->
  (r = - EINVAL /\ tr = [] /\ w' = w
   /\ (u32 offset mod SPI_NOR_SECTOR_SIZE bc =? 0)
      && (size mod SPI_NOR_SECTOR_SIZE bc =? 0) = false)
  \/ (r = 0 /\ settle_each tr = true
      /\ (u32 offset mod SPI_NOR_SECTOR_SIZE bc =? 0)
         && (size mod SPI_NOR_SECTOR_SIZE bc =? 0) = true).
Proof.
  intros H.
  destruct (u32 offset mod SPI_NOR_SECTOR_SIZE bc =? 0) eqn:Eo.
  - destruct (size mod SPI_NOR_SECTOR_SIZE bc =? 0) eqn:Es.
    + right. apply Z.eqb_eq in Eo, Es.
      apply flash_flexspi_nor_erase_inv in H; [|exact Eo|exact Es].
      destruct H as (-> & pre & work & post & w1 & w2 & -> & Hpre & Hpost & Hw).
      split; [reflexivity|]. split; [|reflexivity].
      rewrite (settle_each_off_bus pre _ Hpre).
      apply settle_each_app.
      * eapply erase_work_settle_each. exact Hw.
      * rewrite <- (app_nil_r post), (settle_each_off_bus post [] Hpost).
        reflexivity.
    + left. apply Z.eqb_neq in Es.
      rewrite flash_flexspi_nor_erase_misaligned in H by (right; exact Es).
      inversion H. auto.
  - left. apply Z.eqb_neq in Eo.
    rewrite flash_flexspi_nor_erase_misaligned in H by (left; exact Eo).
    inversion H. auto.
Qed.

Lemma write_loop_zero fuel n offset src :
  write_loop (S := S) bc dev fuel n offset src 0 = Ret tt.
Proof. destruct n; reflexivity. Qed.

Lemma erase_block_loop_returns fuel count : forall offset (w : world S),
  (forall v : world S, flash_flexspi_nor_wait_bus_busy dev fuel v <> None) ->
  erase_block_loop bc dev fuel count offset w <> None.
Proof.
  induction count as [|count IH]; intros offset w Hidle; [discriminate|].
  cbn [erase_block_loop].
  apply bind_not_None; [apply wrapper_not_None|].
  intros ? w1 ? _. apply bind_not_None; [apply wrapper_not_None|].
  intros ? w2 ? _. apply bind_not_None; [apply Hidle|].
  intros ? w3 ? _. apply bind_not_None; [discriminate|].
  intros ? w4 ? _. apply IH. exact Hidle.
Qed.

Lemma erase_sector_loop_returns fuel count : forall offset (w : world S),
  (forall v : world S, flash_flexspi_nor_wait_bus_busy dev fuel v <> None) ->
  erase_sector_loop bc dev fuel count offset w <> None.
Proof.
  induction count as [|count IH]; intros offset w Hidle; [discriminate|].
  cbn [erase_sector_loop].
  apply bind_not_None; [apply wrapper_not_None|].
  intros ? w1 ? _. apply bind_not_None; [apply wrapper_not_None|].
  intros ? w2 ? _. apply bind_not_None; [apply Hidle|].
  intros ? w3 ? _. apply bind_not_None; [discriminate|].
  intros ? w4 ? _. apply IH. exact Hidle.
Qed.

(** The erase entry point returns whenever every busy wait does. *)
Lemma flash_flexspi_nor_erase_returns fuel offset size (w : world S) :
  (forall v : world S, flash_flexspi_nor_wait_bus_busy dev fuel v <> None) ->
  flash_flexspi_nor_erase bc dev fuel offset size w <> None.
Proof.
  intros Hidle. unfold flash_flexspi_nor_erase.
  apply bind_not_None; [discriminate|].
  intros dst w1 ? _.
  destruct (negb (u32 offset mod SPI_NOR_SECTOR_SIZE bc =? 0)); [discriminate|].
  destruct (negb (size mod SPI_NOR_SECTOR_SIZE bc =? 0)); [discriminate|].
  apply bind_not_None; [discriminate|].
  intros xip w2 ? _. apply bind_not_None.
  { destruct xip; [|discriminate].
    unfold do_irq_lock. destruct (irq_lock (hw w2)). discriminate. }
  intros key w3 ? _. apply bind_not_None.
  { destruct ((offset =? 0) && (size =? u32 (flashSize (config dev) * KB 1))).
    - apply bind_not_None; [apply wrapper_not_None|].
      intros ? w4 ? _. apply bind_not_None; [apply wrapper_not_None|].
      intros ? w5 ? _. apply bind_not_None; [apply Hidle|].
      intros; discriminate.
    - destruct ((0 =? u32 offset mod SPI_NOR_BLOCK_SIZE bc)
                && (0 =? size mod SPI_NOR_BLOCK_SIZE bc)).
      + apply erase_block_loop_returns. exact Hidle.
      + apply erase_sector_loop_returns. exact Hidle. }
  intros ? w4 ? _. apply bind_not_None; [discriminate|].
  intros xip' w5 ? _. apply bind_not_None; [destruct xip'; discriminate|].
  intros ? w6 ? _. apply bind_not_None;
    [destruct (CONFIG_HAS_MCUX_CACHE bc); discriminate|].
  intros; discriminate.
Qed.

End EntryPoints.


(** * The properties of the driver *)

(** C1. No page program of a write crosses a page boundary: every one
    carries at least one byte, and its first and last byte lie in the same
    page.  As long as the write does not run past the 32-bit address
    space, the page programs are the chunks of the specification, each
    [min (page_size - offset mod page_size) remaining] long.  The write
    returns whenever each of its busy waits does. *)
Theorem write_never_crosses_page
    (S : Type) (plat : Platform S) (bc : build_config)
    (dev : flash_flexspi_nor_data) (fuel : nat) (offset : Z)
    (buffer : list byte) (len : Z) (w : world S) :
  0 < SPI_NOR_PAGE_SIZE bc ->
  0 <= len < 2 ^ 32 ->
  ((forall v : world S, flash_flexspi_nor_wait_bus_busy dev fuel v <> None) ->
   flash_flexspi_nor_write bc dev fuel offset buffer len w <> None)
  /\ forall (r : Z) (w' : world S) (tr : list call),
       flash_flexspi_nor_write bc dev fuel offset buffer len w
       = Some (r, w', tr) ->
       forallb (in_one_page (SPI_NOR_PAGE_SIZE bc)) tr = true
       /\ (0 <= offset -> offset + len <= 2 ^ 32 ->
           program_cmds tr
           = spec_page_chunks (Z.to_nat len) (SPI_NOR_PAGE_SIZE bc) offset len).
Proof.
  intros HP Hl. split.
  { intros Hidle. apply flash_flexspi_nor_write_returns; assumption. }
  intros r w' tr H. apply flash_flexspi_nor_write_inv in H.
  destruct H as (_ & pre & loop & post & w1 & w2 & -> & Hpre & Hpost & Hloop).
  split.
  - rewrite !forallb_app.
    assert (Hin : forall l, forallb off_bus l = true ->
                  forallb (in_one_page (SPI_NOR_PAGE_SIZE bc)) l = true).
    { intros l. apply forallb_off_bus. apply in_one_page_off_bus. }
    rewrite (Hin pre Hpre), (Hin post Hpost).
    assert (Hlp : forallb (in_one_page (SPI_NOR_PAGE_SIZE bc)) loop = true)
      by (eapply write_loop_in_one_page; eassumption).
    rewrite Hlp. reflexivity.
  - intros Ho Hend.
    rewrite !program_cmds_app.
    rewrite (program_cmds_off_bus pre Hpre), (program_cmds_off_bus post Hpost).
    rewrite app_nil_r. cbn [app].
    eapply write_loop_program_cmds; [exact HP | exact Hl | exact Ho | exact Hend
                                     | | apply Nat.le_refl | exact Hloop].
    intros Hne. apply u32_id. lia.
Qed.

Lemma write_never_crosses_page_witness :
  exists tr,
    flash_flexspi_nor_write w25q128jv_h w25q128jv 1 250 (repeat x00 300) 300
      (boot idle_flash) = Some (0, boot idle_flash, tr)
    /\ forallb (in_one_page 256) tr = true
    /\ program_cmds tr = [(250, 6); (256, 256); (512, 38)].
Proof.
  eexists. split; [vm_compute; reflexivity|].
  assert (HP : 0 < SPI_NOR_PAGE_SIZE w25q128jv_h) by reflexivity.
  assert (Hl : 0 <= 300 < 2 ^ 32) by (split; [discriminate | reflexivity]).
  destruct (@write_never_crosses_page sim sim_platform w25q128jv_h w25q128jv
              1 250 (repeat x00 300) 300 (boot idle_flash) HP Hl) as [_ H].
  destruct (H 0 (boot idle_flash) _ ltac:(vm_compute; reflexivity))
    as [Hpage Hchunks].
  split; [exact Hpage|].
  rewrite Hchunks; [reflexivity | discriminate | discriminate].
Defined.

(** C2. For a sector-aligned request the erase commands on the bus are:
    one chip erase when the offset is 0 and the size is the whole device;
    otherwise, when offset and size are multiples of the block size,
    [size / block_size] block erases at addresses one block apart from the
    offset; otherwise [size / sector_size] sector erases at addresses one
    sector apart from the offset.  The erase returns whenever each of its
    busy waits does. *)
Theorem erase_granularity
    (S : Type) (plat : Platform S) (bc : build_config)
    (dev : flash_flexspi_nor_data) (fuel : nat) (offset size : Z)
    (w : world S) :
  u32 offset mod SPI_NOR_SECTOR_SIZE bc = 0 ->
  size mod SPI_NOR_SECTOR_SIZE bc = 0 ->
  ((forall v : world S, flash_flexspi_nor_wait_bus_busy dev fuel v <> None) ->
   flash_flexspi_nor_erase bc dev fuel offset size w <> None)
  /\ forall (r : Z) (w' : world S) (tr : list call),
       flash_flexspi_nor_erase bc dev fuel offset size w = Some (r, w', tr) ->
       erase_cmds tr
       = if (offset =? 0) && (size =? u32 (flashSize (config dev) * KB 1))
         then [(ERASE_CHIP, 0)]
         else if (u32 offset mod SPI_NOR_BLOCK_SIZE bc =? 0)
                 && (size mod SPI_NOR_BLOCK_SIZE bc =? 0)
         then map (fun k => (ERASE_BLOCK,
                             u32 (offset + Z.of_nat k * SPI_NOR_BLOCK_SIZE bc)))
                (seq 0 (Z.to_nat (size / SPI_NOR_BLOCK_SIZE bc)))
         else map (fun k => (ERASE_SECTOR,
                             u32 (offset + Z.of_nat k * SPI_NOR_SECTOR_SIZE bc)))
                (seq 0 (Z.to_nat (size / SPI_NOR_SECTOR_SIZE bc))).
Proof.
  intros Ho Hs. split.
  { intros Hidle. apply flash_flexspi_nor_erase_returns. exact Hidle. }
  intros r w' tr H.
  apply flash_flexspi_nor_erase_inv in H; [|exact Ho|exact Hs].
  destruct H as (_ & pre & work & post & w1 & w2 & -> & Hpre & Hpost & Hw).
  rewrite !erase_cmds_app.
  rewrite (erase_cmds_off_bus pre Hpre), (erase_cmds_off_bus post Hpost).
  rewrite app_nil_r. cbn [app].
  unfold erase_work in Hw.
  rewrite (Z.eqb_sym (u32 offset mod SPI_NOR_BLOCK_SIZE bc) 0).
  rewrite (Z.eqb_sym (size mod SPI_NOR_BLOCK_SIZE bc) 0).
  destruct ((offset =? 0) && (size =? u32 (flashSize (config dev) * KB 1))).
  - apply erase_chip_trace in Hw. tauto.
  - destruct ((0 =? u32 offset mod SPI_NOR_BLOCK_SIZE bc)
              && (0 =? size mod SPI_NOR_BLOCK_SIZE bc)).
    + apply erase_block_loop_trace in Hw. tauto.
    + apply erase_sector_loop_trace in Hw. tauto.
Qed.

Lemma erase_granularity_witness :
  exists tr,
    flash_flexspi_nor_erase w25q128jv_h w25q128jv 1 0x10000 0x20000
      (boot idle_flash) = Some (0, boot idle_flash, tr)
    /\ erase_cmds tr = [(ERASE_BLOCK, 0x10000); (ERASE_BLOCK, 0x20000)].
Proof.
  eexists. split; [vm_compute; reflexivity|].
  destruct (@erase_granularity sim sim_platform w25q128jv_h w25q128jv
              1 0x10000 0x20000 (boot idle_flash) eq_refl eq_refl) as [_ H].
  rewrite (H 0 (boot idle_flash) _ ltac:(vm_compute; reflexivity)).
  reflexivity.
Defined.

(** C3. An erase whose offset or size is not a multiple of the sector
    size returns [-EINVAL]; it makes no call on the controller and leaves
    the state as it was. *)
Theorem erase_misaligned_rejected
    (S : Type) (plat : Platform S) (bc : build_config)
    (dev : flash_flexspi_nor_data) (fuel : nat) (offset size : Z)
    (w : world S) :
  u32 offset mod SPI_NOR_SECTOR_SIZE bc <> 0
  \/ size mod SPI_NOR_SECTOR_SIZE bc <> 0 ->
  flash_flexspi_nor_erase bc dev fuel offset size w = Some (- EINVAL, w, []).
Proof. apply flash_flexspi_nor_erase_misaligned. Qed.

Lemma erase_misaligned_rejected_witness :
  flash_flexspi_nor_erase w25q128jv_h w25q128jv 0 0x1000 0x1234
    (boot idle_flash) = Some (- EINVAL, boot idle_flash, []).
Proof.
  apply (@erase_misaligned_rejected sim sim_platform w25q128jv_h w25q128jv
           0 0x1000 0x1234 (boot idle_flash)).
  right. vm_compute. discriminate.
Defined.

(** C4. When the read of status register 2 in the quad-mode handshake
    gives anything but [0x02], the handshake returns [-EIO] and makes no
    further call; [flash_flexspi_nor_init] then returns [-EIO] as well,
    with that read as its last call. *)
Theorem quad_probe_mismatch_fails_init :
  (forall (S : Type) (plat : Platform S) (dev : flash_flexspi_nor_data)
          (fuel : nat) (w w' : world S) (q : Z) (tr : list call)
          (t : flexspi_transfer_t) (ret rd : Z),
      flash_flexspi_nor_enable_quad_mode dev fuel w = Some (q, w', tr) ->
      In (Transfer t ret rd) tr -> seqIndex t = READ_STATUS_REG2 ->
      rd <> 0x02 ->
      q = - EIO /\ exists tr0, tr = tr0 ++ [Transfer t ret rd])
  /\ (forall (S : Type) (plat : Platform S) (dev : flash_flexspi_nor_data)
             (fuel : nat) (w w' : world S) (r : Z) (tr : list call)
             (t : flexspi_transfer_t) (ret rd : Z),
        flash_flexspi_nor_init dev fuel w = Some (r, w', tr) ->
        In (Transfer t ret rd) tr -> seqIndex t = READ_STATUS_REG2 ->
        rd <> 0x02 ->
        r = - EIO /\ exists tr0, tr = tr0 ++ [Transfer t ret rd]).
Proof.
  split.
  - intros S plat dev fuel w w' q tr t ret rd H Hin Hq Hrd.
    apply flash_flexspi_nor_enable_quad_mode_inv in H.
    exact (@quad_trace_probe_failed q tr t ret rd H Hin Hq Hrd).
  - intros S plat dev fuel w w' r tr t ret rd H Hin Hq Hrd.
    apply flash_flexspi_nor_init_inv in H.
    destruct H as [(Hno & _) | (pre & qtr & post & q & -> & Hpre & Hqt & Hc)].
    + exfalso. exact (@no_probe_in _ t ret rd Hno Hin Hq).
    + apply in_app_or in Hin. destruct Hin as [Hin|Hin];
        [exfalso; exact (@no_probe_in _ t ret rd Hpre Hin Hq)|].
      apply in_app_or in Hin. destruct Hin as [Hin|Hin].
      * destruct (@quad_trace_probe_failed q qtr t ret rd Hqt Hin Hq Hrd)
          as (-> & tr0 & ->).
        destruct Hc as [(_ & -> & ->) | (E & _)]; [|discriminate E].
        split; [reflexivity|]. exists (pre ++ tr0).
        rewrite app_nil_r, app_assoc. reflexivity.
      * exfalso. destruct Hc as [(_ & _ & ->) | (_ & _ & Hpost)];
          [destruct Hin | exact (@no_probe_in _ t ret rd Hpost Hin Hq)].
Qed.

Lemma quad_probe_mismatch_fails_init_witness :
  exists w' tr0,
    flash_flexspi_nor_init w25q128jv 1 (boot no_quad_flash)
    = Some (- EIO, w',
            tr0 ++ [Transfer {| deviceAddress := 0; port := 0;
                                cmdType := kFLEXSPI_Read; SeqNumber := 1;
                                seqIndex := READ_STATUS_REG2;
                                data := word_buf [0]; dataSize := 1 |} 0 0]).
Proof.
  destruct (flash_flexspi_nor_init w25q128jv 1 (boot no_quad_flash))
    as [[[r w'] tr]|] eqn:E; [|vm_compute in E; discriminate E].
  destruct (proj2 quad_probe_mismatch_fails_init sim sim_platform w25q128jv
              1%nat (boot no_quad_flash) w' r tr
              {| deviceAddress := 0; port := 0;
                 cmdType := kFLEXSPI_Read; SeqNumber := 1;
                 seqIndex := READ_STATUS_REG2;
                 data := word_buf [0]; dataSize := 1 |} 0 0 E)
    as (-> & tr0 & ->).
  - vm_compute in E. injection E as _ _ <-.
    do 7 right. left. reflexivity.
  - reflexivity.
  - discriminate.
  - exists w', tr0. reflexivity.
Defined.

(** C5, as the code has it.  The result of a write or an erase does not
    depend on what the transfers returned: a write returns whenever each
    of its busy waits does, and then returns 0; so does an erase, which
    returns [-EINVAL] when offset or size is not a multiple of the sector
    size and 0 otherwise. *)
Theorem write_erase_result_ignores_transfers :
  (forall (S : Type) (plat : Platform S) (bc : build_config)
          (dev : flash_flexspi_nor_data) (fuel : nat) (offset : Z)
          (buffer : list byte) (len : Z) (w : world S),
      ((forall v : world S,
           flash_flexspi_nor_wait_bus_busy dev fuel v <> None) ->
       0 < SPI_NOR_PAGE_SIZE bc -> 0 <= len < 2 ^ 32 ->
       flash_flexspi_nor_write bc dev fuel offset buffer len w <> None)
      /\ forall (r : Z) (w' : world S) (tr : list call),
           flash_flexspi_nor_write bc dev fuel offset buffer len w
           = Some (r, w', tr) ->
           r = 0)
  /\ (forall (S : Type) (plat : Platform S) (bc : build_config)
             (dev : flash_flexspi_nor_data) (fuel : nat) (offset size : Z)
             (w : world S),
        ((forall v : world S,
             flash_flexspi_nor_wait_bus_busy dev fuel v <> None) ->
         flash_flexspi_nor_erase bc dev fuel offset size w <> None)
        /\ forall (r : Z) (w' : world S) (tr : list call),
             flash_flexspi_nor_erase bc dev fuel offset size w
             = Some (r, w', tr) ->
             r = if (u32 offset mod SPI_NOR_SECTOR_SIZE bc =? 0)
                    && (size mod SPI_NOR_SECTOR_SIZE bc =? 0)
                 then 0 else - EINVAL).
Proof.
  split.
  - intros S plat bc dev fuel offset buffer len w. split.
    + intros Hidle HP Hl. apply flash_flexspi_nor_write_returns; assumption.
    + intros r w' tr H. apply flash_flexspi_nor_write_inv in H. tauto.
  - intros S plat bc dev fuel offset size w. split.
    + intros Hidle. apply flash_flexspi_nor_erase_returns. exact Hidle.
    + intros r w' tr H. apply flash_flexspi_nor_erase_cases in H.
      destruct H as [(-> & _ & _ & ->) | (-> & _ & ->)]; reflexivity.
Qed.

Lemma write_erase_result_ignores_transfers_witness :
  exists w' tr,
    flash_flexspi_nor_erase w25q128jv_h w25q128jv 1 0 0x1000 (boot dead_bus)
    = Some (0, w', tr)
    /\ existsb failed_transfer tr = true.
Proof.
  destruct (flash_flexspi_nor_erase w25q128jv_h w25q128jv 1 0 0x1000
              (boot dead_bus)) as [[[r w'] tr]|] eqn:E;
    [|vm_compute in E; discriminate E].
  pose proof (proj2 (proj2 write_erase_result_ignores_transfers sim
                       sim_platform w25q128jv_h w25q128jv 1%nat 0 0x1000
                       (boot dead_bus)) r w' tr E) as Hr.
  exists w', tr. split.
  - rewrite Hr. reflexivity.
  - vm_compute in E. injection E as _ _ <-. reflexivity.
Defined.

(** The claim C5 fails: on a bus where every transfer fails with [-EIO],
    a one-byte write makes its three transfers, all failed, and returns 0. *)
Lemma write_swallows_transfer_errors :
  exists w' tr,
    flash_flexspi_nor_write w25q128jv_h w25q128jv 1 0 [x2a] 1 (boot dead_bus)
    = Some (0, w', tr)
    /\ bus_ops tr
       = [Cmd WRITE_ENABLE 0 0; Cmd PAGE_PROGRAM_QUAD_INPUT 0 1; poll; Rst]
    /\ map failed_transfer tr = [true; true; true; false].
Proof. do 2 eexists. split; [vm_compute; reflexivity|]. split; reflexivity. Qed.

(** C6. With 256-byte pages, a write of 300 bytes at offset 250 puts on
    the bus, in this order and nothing else: write enable, page program of
    6 bytes at 250, the status reads of a busy wait, reset; write enable,
    page program of 256 bytes at 256, status reads, reset; write enable,
    page program of 38 bytes at 512, status reads, reset.  The write
    returns whenever each of its busy waits does. *)
Theorem write_250_300_three_chunks
    (S : Type) (plat : Platform S) (bc : build_config)
    (dev : flash_flexspi_nor_data) (fuel : nat) (buffer : list byte)
    (w : world S) :
  SPI_NOR_PAGE_SIZE bc = 256 ->
  SPI_NOR_SECTOR_SIZE bc = 4096 ->
  length buffer = 300%nat ->
  ((forall v : world S, flash_flexspi_nor_wait_bus_busy dev fuel v <> None) ->
   flash_flexspi_nor_write bc dev fuel 250 buffer 300 w <> None)
  /\ forall (r : Z) (w' : world S) (tr : list call),
       flash_flexspi_nor_write bc dev fuel 250 buffer 300 w
       = Some (r, w', tr) ->
       exists n1 n2 n3,
         bus_ops tr
         = [Cmd WRITE_ENABLE 0 0; Cmd PAGE_PROGRAM_QUAD_INPUT 250 6]
           ++ repeat poll (Datatypes.S n1)
           ++ [Rst; Cmd WRITE_ENABLE 0 0; Cmd PAGE_PROGRAM_QUAD_INPUT 256 256]
           ++ repeat poll (Datatypes.S n2)
           ++ [Rst; Cmd WRITE_ENABLE 0 0; Cmd PAGE_PROGRAM_QUAD_INPUT 512 38]
           ++ repeat poll (Datatypes.S n3)
           ++ [Rst].
Proof.
  intros HP _ _. split.
  { intros Hidle. apply flash_flexspi_nor_write_returns;
      [rewrite HP; reflexivity | split; [discriminate | reflexivity]
       | exact Hidle]. }
  intros r w' tr H. apply flash_flexspi_nor_write_inv in H.
  destruct H as (_ & pre & loop & post & w1 & w2 & -> & Hpre & Hpost & Hloop).
  rewrite !bus_ops_app, (bus_ops_off_bus pre Hpre), (bus_ops_off_bus post Hpost).
  rewrite app_nil_r. cbn [app].
  apply write_loop_turn_bus_ops in Hloop; [|discriminate].
  rewrite HP in Hloop.
  destruct Hloop as (f1 & n1 & rest1 & v1 & _ & -> & Hloop).
  change (s32 (Z.min (256 - u32 250 mod 256) 300)) with 6 in Hloop |- *.
  change (s32 (250 + 6)) with 256 in Hloop.
  change (u32 (300 - 6)) with 294 in Hloop.
  apply write_loop_turn_bus_ops in Hloop; [|discriminate].
  rewrite HP in Hloop.
  destruct Hloop as (f2 & n2 & rest2 & v2 & _ & -> & Hloop).
  change (s32 (Z.min (256 - u32 256 mod 256) 294)) with 256 in Hloop |- *.
  change (s32 (256 + 256)) with 512 in Hloop.
  change (u32 (294 - 256)) with 38 in Hloop.
  apply write_loop_turn_bus_ops in Hloop; [|discriminate].
  rewrite HP in Hloop.
  destruct Hloop as (f3 & n3 & rest3 & v3 & _ & -> & Hloop).
  change (s32 (Z.min (256 - u32 512 mod 256) 38)) with 38 in Hloop |- *.
  change (u32 (38 - 38)) with 0 in Hloop.
  apply write_loop_done in Hloop. destruct Hloop as [-> _].
  exists n1, n2, n3.
  change (u32 250) with 250. change (u32 256) with 256.
  change (u32 512) with 512. change (u32 6) with 6. change (u32 38) with 38.
  reflexivity.
Qed.

Lemma write_250_300_three_chunks_witness :
  exists tr,
    flash_flexspi_nor_write w25q128jv_h w25q128jv 1 250 (repeat x00 300) 300
      (boot idle_flash) = Some (0, boot idle_flash, tr)
    /\ bus_ops tr
       = [Cmd WRITE_ENABLE 0 0; Cmd PAGE_PROGRAM_QUAD_INPUT 250 6; poll; Rst;
          Cmd WRITE_ENABLE 0 0; Cmd PAGE_PROGRAM_QUAD_INPUT 256 256; poll; Rst;
          Cmd WRITE_ENABLE 0 0; Cmd PAGE_PROGRAM_QUAD_INPUT 512 38; poll; Rst].
Proof.
  eexists. split; [vm_compute; reflexivity|].
  destruct (@write_250_300_three_chunks sim sim_platform w25q128jv_h w25q128jv
              1 (repeat x00 300) (boot idle_flash) eq_refl eq_refl eq_refl)
    as [_ H].
  destruct (H 0 (boot idle_flash) _ ltac:(vm_compute; reflexivity))
    as (n1 & n2 & n3 & _).
  vm_compute. reflexivity.
Defined.

(** C7. The busy wait only issues reads of status register 1, one after
    the other: reads that succeed with bit 0 set make it read again, a read
    that succeeds with bit 0 clear ends it with 0, and a read that fails
    ends it at once with that read's code.  The outcome does not depend on
    how many reads the model allows once it allows enough, and there is no
    cap: a device busy for [n] reads is read [n + 1] times. *)
Theorem wait_bus_busy_polls_until_idle :
  (forall (S : Type) (plat : Platform S) (dev : flash_flexspi_nor_data)
          (fuel : nat) (w w' : world S) (r : Z) (tr : list call),
      flash_flexspi_nor_wait_bus_busy dev fuel w = Some (r, w', tr) ->
      wait_trace r tr
      /\ forall fuel', (fuel <= fuel')%nat ->
           flash_flexspi_nor_wait_bus_busy dev fuel' w = Some (r, w', tr))
  /\ (forall (dev : flash_flexspi_nor_data) (n : nat),
        (exists tr,
            flash_flexspi_nor_wait_bus_busy dev (Datatypes.S n)
              (boot (busy_flash n)) = Some (0, boot (busy_flash 0), tr)
            /\ length tr = Datatypes.S n)
        /\ forall fuel, (fuel <= n)%nat ->
             flash_flexspi_nor_wait_bus_busy dev fuel (boot (busy_flash n))
             = None).
Proof.
  split.
  - intros S plat dev fuel w w' r tr H. split.
    + eapply wait_bus_busy_loop_trace. exact H.
    + intros fuel' Hle.
      eapply wait_bus_busy_loop_mono; [exact H | exact Hle].
  - intros dev n. split.
    + apply busy_flash_settles.
    + intros fuel Hle. apply busy_flash_spins. exact Hle.
Qed.

Lemma wait_bus_busy_polls_until_idle_witness :
  wait_trace 0
    [Transfer {| deviceAddress := 0; port := 0;
                 cmdType := kFLEXSPI_Read; SeqNumber := 1;
                 seqIndex := READ_STATUS_REG1;
                 data := word_buf [0]; dataSize := 1 |} 0 1;
     Transfer {| deviceAddress := 0; port := 0;
                 cmdType := kFLEXSPI_Read; SeqNumber := 1;
                 seqIndex := READ_STATUS_REG1;
                 data := word_buf [1]; dataSize := 1 |} 0 0].
Proof.
  apply (proj1 wait_bus_busy_polls_until_idle sim sim_platform w25q128jv
           2%nat (boot (busy_flash 1)) (boot (busy_flash 0)) 0).
  reflexivity.
Defined.

(** C8, as the code has it.  In a write and in an erase every mutating
    command (page program, sector, block or chip erase) is followed by at
    least one read of status register 1, then by such reads only, then by
    the controller reset.  The status write of the quad-mode handshake is
    not: when it succeeds it is followed by the status reads of a wait and
    then by the read of status register 2, and the reset comes only after
    that read gave [0x02] and a second wait; see [quad_trace]. *)
Theorem mutating_commands_settle :
  (forall (S : Type) (plat : Platform S) (bc : build_config)
          (dev : flash_flexspi_nor_data) (fuel : nat) (offset : Z)
          (buffer : list byte) (len : Z) (w w' : world S) (r : Z)
          (tr : list call),
      flash_flexspi_nor_write bc dev fuel offset buffer len w
      = Some (r, w', tr) ->
      settle_each tr = true)
  /\ (forall (S : Type) (plat : Platform S) (bc : build_config)
             (dev : flash_flexspi_nor_data) (fuel : nat) (offset size : Z)
             (w w' : world S) (r : Z) (tr : list call),
        flash_flexspi_nor_erase bc dev fuel offset size w = Some (r, w', tr) ->
        settle_each tr = true)
  /\ (forall (S : Type) (plat : Platform S) (dev : flash_flexspi_nor_data)
             (fuel : nat) (w w' : world S) (q : Z) (tr : list call),
        flash_flexspi_nor_enable_quad_mode dev fuel w = Some (q, w', tr) ->
        quad_trace q tr).
Proof.
  split; [|split].
  - intros S plat bc dev fuel offset buffer len w w' r tr H.
    eapply flash_flexspi_nor_write_settle_each. exact H.
  - intros S plat bc dev fuel offset size w w' r tr H.
    apply flash_flexspi_nor_erase_cases in H.
    destruct H as [(_ & -> & _) | (_ & H & _)]; [reflexivity | exact H].
  - intros S plat dev fuel w w' q tr H.
    eapply flash_flexspi_nor_enable_quad_mode_inv. exact H.
Qed.

Lemma mutating_commands_settle_witness :
  exists w' tr,
    flash_flexspi_nor_erase w25q128jv_h w25q128jv 3 0x1000 0x2000
      (boot (busy_flash 2)) = Some (0, w', tr)
    /\ bus_ops tr
       = [Cmd WRITE_ENABLE 0 0; Cmd ERASE_SECTOR 0x1000 0; poll; poll; poll; Rst;
          Cmd WRITE_ENABLE 0 0; Cmd ERASE_SECTOR 0x2000 0; poll; Rst]
    /\ settle_each tr = true.
Proof.
  destruct (flash_flexspi_nor_erase w25q128jv_h w25q128jv 3 0x1000 0x2000
              (boot (busy_flash 2))) as [[[r w'] tr]|] eqn:E;
    [|vm_compute in E; discriminate E].
  pose proof (proj1 (proj2 mutating_commands_settle) sim sim_platform
                w25q128jv_h w25q128jv 3%nat 0x1000 0x2000
                (boot (busy_flash 2)) w' r tr E) as Hs.
  exists w', tr. split; [|split; [|exact Hs]].
  - vm_compute in E. injection E as <- _ _. reflexivity.
  - vm_compute in E. injection E as _ _ <-. reflexivity.
Defined.

(** The claim C8 fails for the status write: on a device that answers at
    once, the handshake puts the read of status register 2 between the
    wait after the status write and the reset. *)
Lemma quad_mode_probes_before_reset :
  exists w' tr,
    flash_flexspi_nor_enable_quad_mode w25q128jv 1 (boot idle_flash)
    = Some (0, w', tr)
    /\ bus_ops tr
       = [Cmd WRITE_ENABLE 0 0; Cmd WRITE_STATUS_REG 0 2; poll;
          Cmd READ_STATUS_REG2 0 1; poll; Rst]
    /\ settle_each tr = false.
Proof. do 2 eexists. split; [vm_compute; reflexivity|]. split; reflexivity. Qed.

(** C9. A read makes no call on the controller and changes nothing: it
    returns 0 and the [len] bytes found in the memory-mapped window from
    the address the controller gives for the offset. *)
Theorem read_is_memory_copy
    (S : Type) (plat : Platform S) (dev : flash_flexspi_nor_data)
    (offset len : Z) (w : world S) :
  exists bytes,
    flash_flexspi_nor_read dev offset len w = Some ((0, bytes), w, [])
    /\ length bytes = Z.to_nat len
    /\ forall k, (k < Z.to_nat len)%nat ->
         nth_error bytes k
         = Some (ahb_load (hw w)
                   (memc_flexspi_get_ahb_address (data_port dev) offset (hw w)
                    + Z.of_nat k)).
Proof.
  eexists. split; [reflexivity|]. unfold memcpy_from. split.
  - rewrite length_map, length_seq. reflexivity.
  - intros k Hk. rewrite nth_error_map, nth_error_seq.
    destruct (Nat.ltb_spec k (Z.to_nat len)) as [_|Hge]; [reflexivity|lia].
Qed.

(** C10. A write of no bytes puts nothing on the bus (no write enable, no
    page program, no status read, no reset) and returns 0, whatever the
    offset, the buffer and the number of loop turns allowed. *)
Theorem write_zero_length
    (S : Type) (plat : Platform S) (bc : build_config)
    (dev : flash_flexspi_nor_data) (fuel : nat) (offset : Z)
    (buffer : list byte) (w : world S) :
  exists w' tr,
    flash_flexspi_nor_write bc dev fuel offset buffer 0 w = Some (0, w', tr)
    /\ bus_ops tr = []
    /\ forallb off_bus tr = true
    /\ nor_write_buf w' = nor_write_buf w.
Proof.
  unfold flash_flexspi_nor_write, bind, get_ahb_address, is_running_xip.
  rewrite write_loop_zero. unfold Ret, do_irq_lock, do_irq_unlock,
    dcache_invalidate.
  destruct (memc_flexspi_is_running_xip (hw w)) eqn:Ex.
  - destruct (irq_lock (hw w)) as [key s]. cbn [hw nor_write_buf].
    destruct (memc_flexspi_is_running_xip s);
      destruct (CONFIG_HAS_MCUX_CACHE bc);
      do 2 eexists; (split; [reflexivity|]); repeat split.
  - rewrite Ex.
    destruct (CONFIG_HAS_MCUX_CACHE bc);
      do 2 eexists; (split; [reflexivity|]); repeat split.
Qed.

(** * More of the driver: how a write and an erase are framed *)

Lemma lut_seq_eqb_refl (a : lut_seq) : lut_seq_eqb a a = true.
Proof. destruct a; reflexivity. Qed.

Lemma lut_seq_eqb_neq (a b : lut_seq) : a <> b -> lut_seq_eqb a b = false.
Proof.
  intros H. destruct (lut_seq_eqb a b) eqn:E; [|reflexivity].
  apply lut_seq_eqb_eq in E. contradiction.
Qed.

Lemma count_cmd_app (q : lut_seq) (a b : list call) :
  count_cmd q (a ++ b) = (count_cmd q a + count_cmd q b)%nat.
Proof. unfold count_cmd. rewrite filter_app, length_app. reflexivity. Qed.

Lemma count_resets_app (a b : list call) :
  count_resets (a ++ b) = (count_resets a + count_resets b)%nat.
Proof. unfold count_resets. rewrite filter_app, length_app. reflexivity. Qed.

Lemma count_cmd_polls (q : lut_seq) (polls : list call) :
  q <> READ_STATUS_REG1 -> forallb is_poll polls = true ->
  count_cmd q polls = O.
Proof.
  intros Hq. induction polls as [|c polls IH]; intros H; [reflexivity|].
  cbn [forallb] in H. apply andb_prop in H. destruct H as [Hc Hp].
  apply is_poll_seq in Hc. destruct Hc as (t & r & rd & -> & Ht).
  unfold count_cmd in *. cbn [filter]. rewrite Ht.
  rewrite lut_seq_eqb_neq by congruence. exact (IH Hp).
Qed.

Lemma count_resets_polls (polls : list call) :
  forallb is_poll polls = true -> count_resets polls = O.
Proof.
  induction polls as [|c polls IH]; intros H; [reflexivity|].
  cbn [forallb] in H. apply andb_prop in H. destruct H as [Hc Hp].
  apply is_poll_seq in Hc. destruct Hc as (t & r & rd & -> & Ht).
  unfold count_resets in *. cbn [filter]. exact (IH Hp).
Qed.

Lemma count_cmd_off_bus (q : lut_seq) (l : list call) :
  forallb off_bus l = true -> count_cmd q l = O.
Proof.
  induction l as [|c l IH]; intros H; [reflexivity|].
  cbn [forallb] in H. apply andb_prop in H. destruct H as [Hc Hl].
  unfold count_cmd in *.
  destruct c; try discriminate Hc; cbn [filter]; exact (IH Hl).
Qed.

Lemma count_resets_off_bus (l : list call) :
  forallb off_bus l = true -> count_resets l = O.
Proof.
  induction l as [|c l IH]; intros H; [reflexivity|].
  cbn [forallb] in H. apply andb_prop in H. destruct H as [Hc Hl].
  unfold count_resets in *.
  destruct c; try discriminate Hc; cbn [filter]; exact (IH Hl).
Qed.

(** In a sequence of turns there are as many write enables as commands
    as resets. *)
Lemma turns_counts (cmd : lut_seq) (tr : list call) :
  cmd <> WRITE_ENABLE -> cmd <> READ_STATUS_REG1 ->
  turns cmd tr ->
  count_cmd WRITE_ENABLE tr = count_cmd cmd tr
  /\ count_resets tr = count_cmd cmd tr.
Proof.
  intros Hwe Hrs H. induction H as [|we r1 rd1 t body rest Hq Ht Hs _ IH];
    [split; reflexivity|].
  destruct IH as [IH1 IH2].
  destruct Hs as (r & rd & polls & n & -> & Hp & _).
  change (Transfer we r1 rd1 :: Transfer t r rd :: polls ++ Reset :: rest)
    with ([Transfer we r1 rd1; Transfer t r rd] ++ polls ++ [Reset] ++ rest).
  rewrite !count_cmd_app, !count_resets_app.
  rewrite (@count_cmd_polls WRITE_ENABLE polls ltac:(discriminate) Hp).
  rewrite (@count_cmd_polls cmd polls Hrs Hp).
  rewrite (@count_resets_polls polls Hp), IH1, IH2.
  unfold count_cmd, count_resets. cbn [filter]. rewrite Hq, Ht.
  rewrite !lut_seq_eqb_refl, (lut_seq_eqb_neq Hwe).
  assert (E : lut_seq_eqb WRITE_ENABLE cmd = false)
    by (apply lut_seq_eqb_neq; congruence).
  rewrite E. cbn [length app]. split; lia.
Qed.

Lemma turns_forallb (P : call -> bool) (cmd : lut_seq) (tr : list call) :
  (forall t r rd, seqIndex t = WRITE_ENABLE -> P (Transfer t r rd) = true) ->
  (forall t r rd, seqIndex t = cmd -> P (Transfer t r rd) = true) ->
  (forall c, is_poll c = true -> P c = true) ->
  P Reset = true ->
  turns cmd tr -> forallb P tr = true.
Proof.
  intros Hwe Hcmd Hpoll Hreset H.
  induction H as [|we r1 rd1 t body rest Hq Ht Hs _ IH]; [reflexivity|].
  cbn [forallb]. rewrite (Hwe we r1 rd1 Hq). cbn [andb].
  eapply settled_cmd_forallb; [exact Hpoll | exact Hreset | | exact Hs | exact IH].
  intros r rd. apply Hcmd. exact Ht.
Qed.

Lemma turns_on_bus (cmd : lut_seq) (tr : list call) :
  turns cmd tr -> forallb on_bus tr = true.
Proof.
  apply turns_forallb; try reflexivity.
  intros c Hc. apply is_poll_seq in Hc.
  destruct Hc as (t & r & rd & -> & _). reflexivity.
Qed.

Section Frames.

Context {S : Type} {plat : Platform S}.
Variable bc : build_config.
Variable dev : flash_flexspi_nor_data.

Lemma write_loop_turns fuel n : forall offset src len (w w' : world S) u tr,
  write_loop bc dev fuel n offset src len w = Some (u, w', tr) ->
  turns PAGE_PROGRAM_QUAD_INPUT tr.
Proof.
  induction n as [|n IH]; intros offset src len w w' u tr H;
    destruct (Z.eq_dec len 0) as [->|Hlen];
    try (apply write_loop_done in H; destruct H as [-> _]; constructor);
    (apply write_loop_turn in H; [|exact Hlen]);
    destruct H as (n' & we & r1 & rd1 & t & body & rest & w1
                   & Hn & -> & (Hwe & _) & Hs & (Hq & _) & Hk);
    [discriminate|].
  injection Hn as <-.
  econstructor; [exact Hwe | exact Hq | exact Hs | eapply IH; exact Hk].
Qed.

Lemma erase_block_loop_turns fuel count : forall offset (w w' : world S) u tr,
  erase_block_loop bc dev fuel count offset w = Some (u, w', tr) ->
  turns ERASE_BLOCK tr.
Proof.
  induction count as [|count IH]; intros offset w w' u tr H.
  - apply Ret_inv in H. destruct H as (_ & _ & ->). constructor.
  - apply erase_block_loop_turn in H.
    destruct H as (we & r1 & rd1 & t & body & rest & w1
                   & -> & Hwe & Hs & (Hq & _) & Hk).
    econstructor; [exact Hwe | exact Hq | exact Hs | eapply IH; exact Hk].
Qed.

Lemma erase_sector_loop_turns fuel count : forall offset (w w' : world S) u tr,
  erase_sector_loop bc dev fuel count offset w = Some (u, w', tr) ->
  turns ERASE_SECTOR tr.
Proof.
  induction count as [|count IH]; intros offset w w' u tr H.
  - apply Ret_inv in H. destruct H as (_ & _ & ->). constructor.
  - apply erase_sector_loop_turn in H.
    destruct H as (we & r1 & rd1 & t & body & rest & w1
                   & -> & Hwe & Hs & (Hq & _) & Hk).
    econstructor; [exact Hwe | exact Hq | exact Hs | eapply IH; exact Hk].
Qed.

Lemma erase_work_turns fuel offset size (w w' : world S) u tr :
  erase_work bc dev fuel offset size w = Some (u, w', tr) ->
  turns ERASE_CHIP tr \/ turns ERASE_BLOCK tr \/ turns ERASE_SECTOR tr.
Proof.
  unfold erase_work. intros H.
  destruct ((offset =? 0) && (size =? u32 (flashSize (config dev) * KB 1))).
  - left.
    apply bind_inv in H. destruct H as (r1 & w1 & t1 & t2 & H1 & H & ->).
    apply wrapper_inv in H1. destruct H1 as (rd1 & -> & _).
    apply settle_last_inv in H.
    eapply turns_cons; [reflexivity | | exact H | constructor]. reflexivity.
  - destruct ((0 =? u32 offset mod SPI_NOR_BLOCK_SIZE bc)
              && (0 =? size mod SPI_NOR_BLOCK_SIZE bc)).
    + right. left. eapply erase_block_loop_turns. exact H.
    + right. right. eapply erase_sector_loop_turns. exact H.
Qed.

(** The calls of a write around its loop, exactly. *)
Lemma flash_flexspi_nor_write_frame fuel offset buffer len (w w' : world S) r tr :
  flash_flexspi_nor_write bc dev fuel offset buffer len w = Some (r, w', tr) ->
  exists key loop w1 w2,
    write_loop bc dev fuel (Z.to_nat len) offset buffer len w1
    = Some (tt, w2, loop)
    /\ nor_write_buf w1 = nor_write_buf w
    /\ nor_write_buf w' = nor_write_buf w2
    /\ key = (if memc_flexspi_is_running_xip (hw w)
              then fst (irq_lock (hw w)) else 0)
    /\ tr = (if memc_flexspi_is_running_xip (hw w) then [IrqLock key] else [])
            ++ loop
            ++ (if memc_flexspi_is_running_xip (hw w2)
                then [IrqUnlock key] else [])
            ++ (if CONFIG_HAS_MCUX_CACHE bc
                then [DcacheInvalidate
                        (u32 (memc_flexspi_get_ahb_address (data_port dev)
                                offset (hw w))) len]
                else []).
Proof.
  unfold flash_flexspi_nor_write. intros H.
  apply bind_inv in H. destruct H as (dst & w0 & t0 & t1 & H0 & H & ->).
  unfold get_ahb_address in H0. injection H0 as <- <- <-.
  apply bind_inv in H. destruct H as (xip & w1 & t2 & t3 & H1 & H & ->).
  unfold is_running_xip in H1. injection H1 as <- <- <-.
  apply bind_inv in H. destruct H as (key & w2 & pre & t4 & H2 & H & ->).
  apply bind_inv in H. destruct H as ([] & w3 & loop & t5 & H3 & H & ->).
  apply bind_inv in H. destruct H as (xip' & w4 & t6 & t7 & H4 & H & ->).
  unfold is_running_xip in H4. injection H4 as <- <- <-.
  apply bind_inv in H. destruct H as (u1 & w5 & t8 & t9 & H5 & H & ->).
  apply bind_inv in H. destruct H as (u2 & w6 & t10 & t11 & H6 & H & ->).
  apply Ret_inv in H. destruct H as (_ & Hw' & ->).
  exists key, loop, w2, w3.
  split; [exact H3|].
  assert (Hpre : nor_write_buf w2 = nor_write_buf w
                 /\ key = (if memc_flexspi_is_running_xip (hw w)
                           then fst (irq_lock (hw w)) else 0)
                 /\ pre = (if memc_flexspi_is_running_xip (hw w)
                           then [IrqLock key] else [])).
  { destruct (memc_flexspi_is_running_xip (hw w)).
    - unfold do_irq_lock in H2. destruct (irq_lock (hw w)) as [k s].
      injection H2 as <- <- <-. auto.
    - apply Ret_inv in H2. destruct H2 as (-> & -> & ->). auto. }
  destruct Hpre as (Hb1 & Hkey & ->).
  assert (Hunl : nor_write_buf w5 = nor_write_buf w3
                 /\ t8 = (if memc_flexspi_is_running_xip (hw w3)
                          then [IrqUnlock key] else [])).
  { destruct (memc_flexspi_is_running_xip (hw w3)).
    - unfold do_irq_unlock in H5. inversion H5. auto.
    - apply Ret_inv in H5. destruct H5 as (_ & -> & ->). auto. }
  destruct Hunl as (Hb2 & ->).
  assert (Hc : nor_write_buf w6 = nor_write_buf w5
               /\ t10 = (if CONFIG_HAS_MCUX_CACHE bc
                         then [DcacheInvalidate
                                 (u32 (memc_flexspi_get_ahb_address
                                         (data_port dev) offset (hw w))) len]
                         else [])).
  { destruct (CONFIG_HAS_MCUX_CACHE bc).
    - unfold dcache_invalidate in H6. inversion H6. auto.
    - apply Ret_inv in H6. destruct H6 as (_ & -> & ->). auto. }
  destruct Hc as (Hb3 & ->).
  split; [exact Hb1|]. split; [congruence|]. split; [exact Hkey|].
  cbn [app]. rewrite !app_nil_r. reflexivity.
Qed.

(** The calls of an aligned erase around its work, exactly. *)
Lemma flash_flexspi_nor_erase_frame fuel offset size (w w' : world S) r tr :
  u32 offset mod SPI_NOR_SECTOR_SIZE bc = 0 ->
  size mod SPI_NOR_SECTOR_SIZE bc = 0 ->
  flash_flexspi_nor_erase bc dev fuel offset size w = Some (r, w', tr) ->
  exists key work w1 w2,
    erase_work bc dev fuel offset size w1 = Some (tt, w2, work)
    /\ nor_write_buf w1 = nor_write_buf w
    /\ nor_write_buf w' = nor_write_buf w2
    /\ key = (if memc_flexspi_is_running_xip (hw w)
              then fst (irq_lock (hw w)) else 0)
    /\ tr = (if memc_flexspi_is_running_xip (hw w) then [IrqLock key] else [])
            ++ work
            ++ (if memc_flexspi_is_running_xip (hw w2)
                then [IrqUnlock key] else [])
            ++ (if CONFIG_HAS_MCUX_CACHE bc
                then [DcacheInvalidate
                        (u32 (memc_flexspi_get_ahb_address (data_port dev)
                                offset (hw w))) size]
                else []).
Proof.
  intros Ho Hs. unfold flash_flexspi_nor_erase. intros H.
  apply bind_inv in H. destruct H as (dst & w0 & t0 & t1 & H0 & H & ->).
  unfold get_ahb_address in H0. injection H0 as <- <- <-.
  rewrite Ho, Hs in H. cbn [Z.eqb negb] in H.
  apply bind_inv in H. destruct H as (xip & w1 & t2 & t3 & H1 & H & ->).
  unfold is_running_xip in H1. injection H1 as <- <- <-.
  apply bind_inv in H. destruct H as (key & w2 & pre & t4 & H2 & H & ->).
  apply bind_inv in H. destruct H as ([] & w3 & work & t5 & H3 & H & ->).
  apply bind_inv in H. destruct H as (xip' & w4 & t6 & t7 & H4 & H & ->).
  unfold is_running_xip in H4. injection H4 as <- <- <-.
  apply bind_inv in H. destruct H as (u1 & w5 & t8 & t9 & H5 & H & ->).
  apply bind_inv in H. destruct H as (u2 & w6 & t10 & t11 & H6 & H & ->).
  apply Ret_inv in H. destruct H as (_ & Hw' & ->).
  exists key, work, w2, w3.
  split; [exact H3|].
  assert (Hpre : nor_write_buf w2 = nor_write_buf w
                 /\ key = (if memc_flexspi_is_running_xip (hw w)
                           then fst (irq_lock (hw w)) else 0)
                 /\ pre = (if memc_flexspi_is_running_xip (hw w)
                           then [IrqLock key] else [])).
  { destruct (memc_flexspi_is_running_xip (hw w)).
    - unfold do_irq_lock in H2. destruct (irq_lock (hw w)) as [k s].
      injection H2 as <- <- <-. auto.
    - apply Ret_inv in H2. destruct H2 as (-> & -> & ->). auto. }
  destruct Hpre as (Hb1 & Hkey & ->).
  assert (Hunl : nor_write_buf w5 = nor_write_buf w3
                 /\ t8 = (if memc_flexspi_is_running_xip (hw w3)
                          then [IrqUnlock key] else [])).
  { destruct (memc_flexspi_is_running_xip (hw w3)).
    - unfold do_irq_unlock in H5. inversion H5. auto.
    - apply Ret_inv in H5. destruct H5 as (_ & -> & ->). auto. }
  destruct Hunl as (Hb2 & ->).
  assert (Hc : nor_write_buf w6 = nor_write_buf w5
               /\ t10 = (if CONFIG_HAS_MCUX_CACHE bc
                         then [DcacheInvalidate
                                 (u32 (memc_flexspi_get_ahb_address
                                         (data_port dev) offset (hw w))) size]
                         else [])).
  { destruct (CONFIG_HAS_MCUX_CACHE bc).
    - unfold dcache_invalidate in H6. inversion H6. auto.
    - apply Ret_inv in H6. destruct H6 as (_ & -> & ->). auto. }
  destruct Hc as (Hb3 & ->).
  split; [exact Hb1|]. split; [congruence|]. split; [exact Hkey|].
  cbn [app]. rewrite !app_nil_r. reflexivity.
Qed.

End Frames.

Lemma forallb_weaken {A : Type} (P Q : A -> bool) (l : list A) :
  (forall a, P a = true -> Q a = true) ->
  forallb P l = true -> forallb Q l = true.
Proof.
  intros HPQ H. rewrite forallb_forall in *. intros a Ha. auto.
Qed.

Lemma turns_program_call (tr : list call) :
  turns PAGE_PROGRAM_QUAD_INPUT tr -> forallb program_call tr = true.
Proof.
  apply turns_forallb; try reflexivity.
  - intros t r rd Hq. unfold program_call. rewrite Hq. reflexivity.
  - intros t r rd Hq. unfold program_call. rewrite Hq. reflexivity.
  - intros c Hc. apply is_poll_seq in Hc.
    destruct Hc as (t & r & rd & -> & Hq).
    unfold program_call. rewrite Hq. reflexivity.
Qed.

Lemma turns_erase_call (q : lut_seq) (tr : list call) :
  q = ERASE_CHIP \/ q = ERASE_BLOCK \/ q = ERASE_SECTOR ->
  turns q tr -> forallb erase_call tr = true.
Proof.
  intros Hq. apply turns_forallb; try reflexivity.
  - intros t r rd Ht. unfold erase_call. rewrite Ht. reflexivity.
  - intros t r rd Ht. unfold erase_call. rewrite Ht.
    destruct Hq as [->|[->| ->]]; reflexivity.
  - intros c Hc. apply is_poll_seq in Hc.
    destruct Hc as (t & r & rd & -> & Ht).
    unfold erase_call. rewrite Ht. reflexivity.
Qed.

Lemma turns_no_erase (tr : list call) :
  turns PAGE_PROGRAM_QUAD_INPUT tr -> erase_cmds tr = [].
Proof.
  intros H. induction H as [|we r1 rd1 t body rest Hq Ht Hs _ IH];
    [reflexivity|].
  cbn [erase_cmds]. rewrite Hq, (settled_cmd_erase_cmds Hs), IH.
  cbn [erase_cmds]. rewrite Ht. reflexivity.
Qed.

Lemma program_cmds_polls (polls rest : list call) :
  forallb is_poll polls = true ->
  program_cmds (polls ++ rest) = program_cmds rest.
Proof.
  induction polls as [|c polls IH]; intros H; [reflexivity|].
  cbn [forallb] in H. apply andb_prop in H. destruct H as [Hc Hp].
  apply is_poll_seq in Hc. destruct Hc as (t & r & rd & -> & Hq).
  cbn [app program_cmds]. rewrite Hq. exact (IH Hp).
Qed.

Lemma turns_no_program (q : lut_seq) (tr : list call) :
  q = ERASE_CHIP \/ q = ERASE_BLOCK \/ q = ERASE_SECTOR ->
  turns q tr -> program_cmds tr = [].
Proof.
  intros Hq H. induction H as [|we r1 rd1 t body rest Hwe Ht Hs _ IH];
    [reflexivity|].
  destruct Hs as (r & rd & polls & n & -> & Hp & _).
  cbn [program_cmds]. rewrite Hwe, Ht.
  rewrite (program_cmds_polls polls (Reset :: rest) Hp). cbn [program_cmds].
  destruct Hq as [->|[->| ->]]; exact IH.
Qed.

Lemma turns_erase_count (q : lut_seq) (tr : list call) :
  q = ERASE_CHIP \/ q = ERASE_BLOCK \/ q = ERASE_SECTOR ->
  turns q tr -> length (erase_cmds tr) = count_cmd q tr.
Proof.
  intros Hq H. induction H as [|we r1 rd1 t body rest Hwe Ht Hs _ IH];
    [reflexivity|].
  cbn [erase_cmds]. rewrite Hwe, (settled_cmd_erase_cmds Hs).
  destruct Hs as (r & rd & polls & n & -> & Hp & _).
  change (Transfer we r1 rd1 :: Transfer t r rd :: polls ++ Reset :: rest)
    with ([Transfer we r1 rd1; Transfer t r rd] ++ polls ++ [Reset] ++ rest).
  rewrite !count_cmd_app.
  assert (Hrs : q <> READ_STATUS_REG1)
    by (destruct Hq as [->|[->| ->]]; discriminate).
  rewrite (@count_cmd_polls q polls Hrs Hp).
  rewrite length_app, IH. unfold count_cmd. cbn [filter erase_cmds].
  rewrite Hwe, Ht, lut_seq_eqb_refl.
  destruct Hq as [->|[->| ->]]; reflexivity.
Qed.

(** X1. A write puts on the bus only write enables, quad page programs,
    reads of status register 1 and resets: it never erases and never
    writes a status register.  It makes as many write enables, and as many
    resets, as page programs. *)
Theorem write_bus_calls
    (S : Type) (plat : Platform S) (bc : build_config)
    (dev : flash_flexspi_nor_data) (fuel : nat) (offset : Z)
    (buffer : list byte) (len : Z) (w w' : world S) (r : Z)
    (tr : list call) :
  flash_flexspi_nor_write bc dev fuel offset buffer len w = Some (r, w', tr) ->
  forallb (fun c => program_call c || off_bus c) tr = true
  /\ erase_cmds tr = []
  /\ count_cmd WRITE_ENABLE tr = count_cmd PAGE_PROGRAM_QUAD_INPUT tr
  /\ count_resets tr = count_cmd PAGE_PROGRAM_QUAD_INPUT tr.
Proof.
  intros H. apply flash_flexspi_nor_write_inv in H.
  destruct H as (_ & pre & loop & post & w1 & w2 & -> & Hpre & Hpost & Hloop).
  apply write_loop_turns in Hloop.
  assert (Hoff : forall l, forallb off_bus l = true ->
                 forallb (fun c => program_call c || off_bus c) l = true).
  { intros l. apply forallb_weaken. intros c ->. apply orb_true_r. }
  split; [|split].
  - rewrite !forallb_app, (Hoff pre Hpre), (Hoff post Hpost).
    rewrite (forallb_weaken program_call
               (fun c => program_call c || off_bus c) loop).
    + reflexivity.
    + intros c ->. reflexivity.
    + apply turns_program_call. exact Hloop.
  - rewrite !erase_cmds_app, (erase_cmds_off_bus pre Hpre).
    rewrite (erase_cmds_off_bus post Hpost), (turns_no_erase Hloop).
    reflexivity.
  - rewrite !count_cmd_app, !count_resets_app.
    rewrite !(count_cmd_off_bus _ pre Hpre), !(count_cmd_off_bus _ post Hpost).
    rewrite (count_resets_off_bus pre Hpre), (count_resets_off_bus post Hpost).
    destruct (@turns_counts PAGE_PROGRAM_QUAD_INPUT loop
                ltac:(discriminate) ltac:(discriminate) Hloop) as [H1 H2].
    rewrite H1, H2. split; reflexivity.
Qed.

Lemma write_bus_calls_witness :
  exists w' tr,
    flash_flexspi_nor_write w25q128jv_h w25q128jv 2 250 (repeat x2a 300) 300
      (boot (busy_flash 1)) = Some (0, w', tr)
    /\ count_cmd WRITE_ENABLE tr = 3%nat
    /\ count_cmd PAGE_PROGRAM_QUAD_INPUT tr = 3%nat
    /\ count_resets tr = 3%nat
    /\ count_cmd READ_STATUS_REG1 tr = 4%nat.
Proof.
  destruct (flash_flexspi_nor_write w25q128jv_h w25q128jv 2 250
              (repeat x2a 300) 300 (boot (busy_flash 1)))
    as [[[r w'] tr]|] eqn:E; [|vm_compute in E; discriminate E].
  destruct (@write_bus_calls sim sim_platform w25q128jv_h w25q128jv 2 250
              (repeat x2a 300) 300 (boot (busy_flash 1)) w' r tr E)
    as (_ & _ & Hwe & Hrst).
  assert (Hr : r = 0) by (vm_compute in E; injection E as <- _ _; reflexivity).
  assert (Hpp : count_cmd PAGE_PROGRAM_QUAD_INPUT tr = 3%nat
                /\ count_cmd READ_STATUS_REG1 tr = 4%nat)
    by (vm_compute in E; injection E as _ _ <-; split; reflexivity).
  destruct Hpp as [Hpp Hrs]. subst r.
  exists w', tr. rewrite Hwe, Hrst, Hpp. auto.
Defined.

(** X2. An erase puts on the bus only write enables, erase commands,
    reads of status register 1 and resets: it never programs and never
    writes a status register.  It makes as many write enables, and as many
    resets, as erase commands. *)
Theorem erase_bus_calls
    (S : Type) (plat : Platform S) (bc : build_config)
    (dev : flash_flexspi_nor_data) (fuel : nat) (offset size : Z)
    (w w' : world S) (r : Z) (tr : list call) :
  flash_flexspi_nor_erase bc dev fuel offset size w = Some (r, w', tr) ->
  forallb (fun c => erase_call c || off_bus c) tr = true
  /\ program_cmds tr = []
  /\ count_cmd WRITE_ENABLE tr = length (erase_cmds tr)
  /\ count_resets tr = length (erase_cmds tr).
Proof.
  intros H.
  destruct (Z.eq_dec (u32 offset mod SPI_NOR_SECTOR_SIZE bc) 0) as [Ho|Ho];
    [destruct (Z.eq_dec (size mod SPI_NOR_SECTOR_SIZE bc) 0) as [Hs|Hs]|].
  2:{ rewrite flash_flexspi_nor_erase_misaligned in H by (right; exact Hs).
      injection H as _ _ <-. repeat split. }
  2:{ rewrite flash_flexspi_nor_erase_misaligned in H by (left; exact Ho).
      injection H as _ _ <-. repeat split. }
  apply flash_flexspi_nor_erase_inv in H; [|exact Ho|exact Hs].
  destruct H as (_ & pre & work & post & w1 & w2 & -> & Hpre & Hpost & Hw).
  apply erase_work_turns in Hw.
  assert (Hq : exists q, (q = ERASE_CHIP \/ q = ERASE_BLOCK \/ q = ERASE_SECTOR)
                         /\ turns q work).
  { destruct Hw as [Hw|[Hw|Hw]]; eexists; (split; [|exact Hw]); auto. }
  destruct Hq as (q & Hq & Ht).
  assert (Hoff : forall l, forallb off_bus l = true ->
                 forallb (fun c => erase_call c || off_bus c) l = true).
  { intros l. apply forallb_weaken. intros c ->. apply orb_true_r. }
  assert (Hne1 : q <> WRITE_ENABLE)
    by (destruct Hq as [->|[->| ->]]; discriminate).
  assert (Hne2 : q <> READ_STATUS_REG1)
    by (destruct Hq as [->|[->| ->]]; discriminate).
  split; [|split].
  - rewrite !forallb_app, (Hoff pre Hpre), (Hoff post Hpost).
    rewrite (forallb_weaken erase_call
               (fun c => erase_call c || off_bus c) work).
    + reflexivity.
    + intros c ->. reflexivity.
    + eapply turns_erase_call; eassumption.
  - rewrite !program_cmds_app, (program_cmds_off_bus pre Hpre).
    rewrite (program_cmds_off_bus post Hpost), (turns_no_program Hq Ht).
    reflexivity.
  - rewrite !count_cmd_app, !count_resets_app, !erase_cmds_app.
    rewrite (count_cmd_off_bus _ pre Hpre), (count_cmd_off_bus _ post Hpost).
    rewrite (count_resets_off_bus pre Hpre), (count_resets_off_bus post Hpost).
    rewrite (erase_cmds_off_bus pre Hpre), (erase_cmds_off_bus post Hpost).
    destruct (turns_counts Hne1 Hne2 Ht) as [H1 H2].
    rewrite H1, H2, app_nil_r. cbn [app].
    rewrite (turns_erase_count Hq Ht). split; lia.
Qed.

Lemma erase_bus_calls_witness :
  exists w' tr,
    flash_flexspi_nor_erase w25q128jv_h w25q128jv 1 0x3000 0x3000
      (boot idle_flash) = Some (0, w', tr)
    /\ erase_cmds tr
       = [(ERASE_SECTOR, 0x3000); (ERASE_SECTOR, 0x4000); (ERASE_SECTOR, 0x5000)]
    /\ count_cmd WRITE_ENABLE tr = 3%nat
    /\ count_resets tr = 3%nat.
Proof.
  destruct (flash_flexspi_nor_erase w25q128jv_h w25q128jv 1 0x3000 0x3000
              (boot idle_flash))
    as [[[r w'] tr]|] eqn:E; [|vm_compute in E; discriminate E].
  destruct (@erase_bus_calls sim sim_platform w25q128jv_h w25q128jv 1 0x3000
              0x3000 (boot idle_flash) w' r tr E) as (_ & _ & Hwe & Hrst).
  assert (Hr : r = 0) by (vm_compute in E; injection E as <- _ _; reflexivity).
  assert (He : erase_cmds tr
               = [(ERASE_SECTOR, 0x3000); (ERASE_SECTOR, 0x4000);
                  (ERASE_SECTOR, 0x5000)])
    by (vm_compute in E; injection E as _ _ <-; reflexivity).
  subst r. exists w', tr. rewrite Hwe, Hrst, He. auto.
Defined.

Lemma on_bus_not_irq (l : list call) :
  forallb on_bus l = true -> forallb (fun c => negb (is_irq_call c)) l = true.
Proof. apply forallb_weaken. intros [] H; try discriminate H; reflexivity. Qed.

Lemma on_bus_not_cache (l : list call) :
  forallb on_bus l = true -> forallb (fun c => negb (is_cache_call c)) l = true.
Proof. apply forallb_weaken. intros [] H; try discriminate H; reflexivity. Qed.

Section Brackets.

Context {S : Type} {plat : Platform S}.
Variable bc : build_config.
Variable dev : flash_flexspi_nor_data.

(** What the frame of a write or an erase gives for the interrupt lock:
    [body] are the calls of the loop, [addr] and [n] the range handed to
    the cache. *)
Lemma frame_critical_section (key : Z) (body : list call) (w w2 : world S)
    (addr n : Z) (tr : list call) :
  forallb on_bus body = true ->
  key = (if memc_flexspi_is_running_xip (hw w)
         then fst (irq_lock (hw w)) else 0) ->
  tr = (if memc_flexspi_is_running_xip (hw w) then [IrqLock key] else [])
       ++ body
       ++ (if memc_flexspi_is_running_xip (hw w2) then [IrqUnlock key] else [])
       ++ (if CONFIG_HAS_MCUX_CACHE bc then [DcacheInvalidate addr n] else []) ->
  ((forall s : S, memc_flexspi_is_running_xip s = true) ->
   exists tail,
     tr = IrqLock (fst (irq_lock (hw w)))
          :: body ++ IrqUnlock (fst (irq_lock (hw w))) :: tail
     /\ forallb is_cache_call tail = true)
  /\ ((forall s : S, memc_flexspi_is_running_xip s = false) ->
      forallb (fun c => negb (is_irq_call c)) tr = true).
Proof.
  intros Hbody Hkey ->. split.
  - intros Hx. rewrite !Hx in *. subst key.
    eexists. split; [reflexivity|].
    destruct (CONFIG_HAS_MCUX_CACHE bc); reflexivity.
  - intros Hx. rewrite !Hx. cbn [app].
    rewrite forallb_app, (on_bus_not_irq body Hbody).
    destruct (CONFIG_HAS_MCUX_CACHE bc); reflexivity.
Qed.

(** The same for the cache. *)
Lemma frame_cache_invalidate (key : Z) (body : list call) (w w2 : world S)
    (addr n : Z) (tr : list call) :
  forallb on_bus body = true ->
  tr = (if memc_flexspi_is_running_xip (hw w) then [IrqLock key] else [])
       ++ body
       ++ (if memc_flexspi_is_running_xip (hw w2) then [IrqUnlock key] else [])
       ++ (if CONFIG_HAS_MCUX_CACHE bc then [DcacheInvalidate addr n] else []) ->
  (CONFIG_HAS_MCUX_CACHE bc = true ->
   exists tr0,
     tr = tr0 ++ [DcacheInvalidate addr n]
     /\ forallb (fun c => negb (is_cache_call c)) tr0 = true)
  /\ (CONFIG_HAS_MCUX_CACHE bc = false ->
      forallb (fun c => negb (is_cache_call c)) tr = true).
Proof.
  intros Hbody ->.
  assert (Hfront :
            forallb (fun c => negb (is_cache_call c))
              ((if memc_flexspi_is_running_xip (hw w)
                then [IrqLock key] else [])
               ++ body
               ++ (if memc_flexspi_is_running_xip (hw w2)
                   then [IrqUnlock key] else [])) = true).
  { rewrite !forallb_app, (on_bus_not_cache body Hbody).
    destruct (memc_flexspi_is_running_xip (hw w));
      destruct (memc_flexspi_is_running_xip (hw w2)); reflexivity. }
  split; intros Hc; rewrite Hc.
  - eexists. split; [|exact Hfront]. rewrite <- !app_assoc. reflexivity.
  - rewrite !app_nil_r. exact Hfront.
Qed.

End Brackets.

(** X3. While code executes in place from the flash, a write runs with
    interrupts locked: its first call takes the lock, every transfer and
    reset comes before the unlock, the unlock gets the key the lock gave,
    and only the cache invalidation may follow.  When code does not
    execute in place, a write never touches the interrupt lock. *)
Theorem write_xip_critical_section
    (S : Type) (plat : Platform S) (bc : build_config)
    (dev : flash_flexspi_nor_data) (fuel : nat) (offset : Z)
    (buffer : list byte) (len : Z) (w w' : world S) (r : Z)
    (tr : list call) :
  flash_flexspi_nor_write bc dev fuel offset buffer len w = Some (r, w', tr) ->
  ((forall s : S, memc_flexspi_is_running_xip s = true) ->
   exists body tail,
     tr = IrqLock (fst (irq_lock (hw w)))
          :: body ++ IrqUnlock (fst (irq_lock (hw w))) :: tail
     /\ forallb on_bus body = true
     /\ forallb is_cache_call tail = true)
  /\ ((forall s : S, memc_flexspi_is_running_xip s = false) ->
      forallb (fun c => negb (is_irq_call c)) tr = true).
Proof.
  intros H. apply flash_flexspi_nor_write_frame in H.
  destruct H as (key & loop & w1 & w2 & Hloop & _ & _ & Hkey & Htr).
  apply write_loop_turns, turns_on_bus in Hloop.
  destruct (@frame_critical_section S plat bc key loop w w2 _ _ tr
              Hloop Hkey Htr) as [Hx Hn].
  split; [|exact Hn].
  intros Hxip. destruct (Hx Hxip) as (tail & -> & Htail).
  exists loop, tail. auto.
Qed.

Lemma write_xip_critical_section_witness :
  exists w' body tail,
    @flash_flexspi_nor_write nat (fixed_platform true 0x2a) w25q128jv_cached_h
      w25q128jv 1 0xfe [x01; x02; x03] 3 (boot_nat 0)
    = Some (0, w', IrqLock 0x2a :: body ++ IrqUnlock 0x2a :: tail)
    /\ forallb on_bus body = true
    /\ forallb is_cache_call tail = true.
Proof.
  destruct (@flash_flexspi_nor_write nat (fixed_platform true 0x2a)
              w25q128jv_cached_h w25q128jv 1 0xfe [x01; x02; x03] 3
              (boot_nat 0))
    as [[[r w'] tr]|] eqn:E; [|vm_compute in E; discriminate E].
  destruct (proj1 (@write_xip_critical_section nat (fixed_platform true 0x2a)
              w25q128jv_cached_h w25q128jv 1 0xfe [x01; x02; x03] 3
              (boot_nat 0) w' r tr E) (fun _ => eq_refl))
    as (body & tail & -> & Hb & Ht).
  assert (Hr : r = 0) by (apply flash_flexspi_nor_write_inv in E; tauto).
  subst r. exists w', body, tail. split; [reflexivity|]. split; assumption.
Defined.

(** X4. While code executes in place from the flash, an aligned erase
    runs with interrupts locked in the same way: lock first, every
    transfer and reset before the unlock, the unlock with the key of the
    lock.  When code does not execute in place, an erase never touches the
    interrupt lock; a misaligned erase is refused before the lock is
    taken. *)
Theorem erase_xip_critical_section
    (S : Type) (plat : Platform S) (bc : build_config)
    (dev : flash_flexspi_nor_data) (fuel : nat) (offset size : Z)
    (w w' : world S) (r : Z) (tr : list call) :
  flash_flexspi_nor_erase bc dev fuel offset size w = Some (r, w', tr) ->
  ((forall s : S, memc_flexspi_is_running_xip s = true) ->
   u32 offset mod SPI_NOR_SECTOR_SIZE bc = 0 ->
   size mod SPI_NOR_SECTOR_SIZE bc = 0 ->
   exists body tail,
     tr = IrqLock (fst (irq_lock (hw w)))
          :: body ++ IrqUnlock (fst (irq_lock (hw w))) :: tail
     /\ forallb on_bus body = true
     /\ forallb is_cache_call tail = true)
  /\ ((forall s : S, memc_flexspi_is_running_xip s = false) ->
      forallb (fun c => negb (is_irq_call c)) tr = true)
  /\ (u32 offset mod SPI_NOR_SECTOR_SIZE bc <> 0
      \/ size mod SPI_NOR_SECTOR_SIZE bc <> 0 ->
      tr = []).
Proof.
  intros H.
  assert (Hmis : u32 offset mod SPI_NOR_SECTOR_SIZE bc <> 0
                 \/ size mod SPI_NOR_SECTOR_SIZE bc <> 0 -> tr = []).
  { intros Hm. rewrite flash_flexspi_nor_erase_misaligned in H by exact Hm.
    injection H as _ _ <-. reflexivity. }
  destruct (Z.eq_dec (u32 offset mod SPI_NOR_SECTOR_SIZE bc) 0) as [Ho|Ho];
    [destruct (Z.eq_dec (size mod SPI_NOR_SECTOR_SIZE bc) 0) as [Hs|Hs]|].
  2:{ rewrite (Hmis (or_intror Hs)). split; [intros; contradiction|].
      split; [reflexivity | auto]. }
  2:{ rewrite (Hmis (or_introl Ho)). split; [intros; contradiction|].
      split; [reflexivity | auto]. }
  apply flash_flexspi_nor_erase_frame in H; [|exact Ho|exact Hs].
  destruct H as (key & work & w1 & w2 & Hwork & _ & _ & Hkey & Htr).
  assert (Hbus : forallb on_bus work = true).
  { apply erase_work_turns in Hwork.
    destruct Hwork as [Ht|[Ht|Ht]]; eapply turns_on_bus; exact Ht. }
  destruct (@frame_critical_section S plat bc key work w w2 _ _ tr
              Hbus Hkey Htr) as [Hx Hn].
  split; [|split; [exact Hn | exact Hmis]].
  intros Hxip _ _. destruct (Hx Hxip) as (tail & -> & Htail).
  exists work, tail. auto.
Qed.

Lemma erase_xip_critical_section_witness :
  exists w' body tail,
    @flash_flexspi_nor_erase nat (fixed_platform true 0x2a) w25q128jv_cached_h
      w25q128jv 3 0x1000 0x1000 (boot_nat 2)
    = Some (0, w', IrqLock 0x2a :: body ++ IrqUnlock 0x2a :: tail)
    /\ forallb on_bus body = true
    /\ forallb is_cache_call tail = true.
Proof.
  destruct (@flash_flexspi_nor_erase nat (fixed_platform true 0x2a)
              w25q128jv_cached_h w25q128jv 3 0x1000 0x1000 (boot_nat 2))
    as [[[r w'] tr]|] eqn:E; [|vm_compute in E; discriminate E].
  destruct (proj1 (@erase_xip_critical_section nat (fixed_platform true 0x2a)
              w25q128jv_cached_h w25q128jv 3 0x1000 0x1000
              (boot_nat 2) w' r tr E) (fun _ => eq_refl) eq_refl eq_refl)
    as (body & tail & -> & Hb & Ht).
  assert (Hr : r = 0).
  { apply flash_flexspi_nor_erase_inv in E; [tauto | reflexivity | reflexivity]. }
  subst r. exists w', body, tail. split; [reflexivity|]. split; assumption.
Defined.

(** X5. With the data cache configured, the last call of a write
    invalidates the cache over the whole range written: from the mapped
    address of the offset the write was given, for the length it was
    given; no other call touches the cache.  Without the data cache a
    write never calls the cache. *)
Theorem write_invalidates_cache
    (S : Type) (plat : Platform S) (bc : build_config)
    (dev : flash_flexspi_nor_data) (fuel : nat) (offset : Z)
    (buffer : list byte) (len : Z) (w w' : world S) (r : Z)
    (tr : list call) :
  flash_flexspi_nor_write bc dev fuel offset buffer len w = Some (r, w', tr) ->
  (CONFIG_HAS_MCUX_CACHE bc = true ->
   exists tr0,
     tr = tr0 ++ [DcacheInvalidate
                    (u32 (memc_flexspi_get_ahb_address (data_port dev) offset
                            (hw w))) len]
     /\ forallb (fun c => negb (is_cache_call c)) tr0 = true)
  /\ (CONFIG_HAS_MCUX_CACHE bc = false ->
      forallb (fun c => negb (is_cache_call c)) tr = true).
Proof.
  intros H. apply flash_flexspi_nor_write_frame in H.
  destruct H as (key & loop & w1 & w2 & Hloop & _ & _ & _ & Htr).
  apply write_loop_turns, turns_on_bus in Hloop.
  exact (@frame_cache_invalidate S plat bc key loop w w2 _ _ tr Hloop Htr).
Qed.

Lemma write_invalidates_cache_witness :
  exists w' tr0,
    flash_flexspi_nor_write w25q128jv_cached_h w25q128jv 1 0x1fe
      [x01; x02; x03] 3 (boot idle_flash)
    = Some (0, w', tr0 ++ [DcacheInvalidate 0x600001fe 3])
    /\ forallb (fun c => negb (is_cache_call c)) tr0 = true.
Proof.
  destruct (flash_flexspi_nor_write w25q128jv_cached_h w25q128jv 1 0x1fe
              [x01; x02; x03] 3 (boot idle_flash))
    as [[[r w'] tr]|] eqn:E; [|vm_compute in E; discriminate E].
  destruct (proj1 (@write_invalidates_cache sim sim_platform
              w25q128jv_cached_h w25q128jv 1 0x1fe [x01; x02; x03] 3
              (boot idle_flash) w' r tr E) eq_refl) as (tr0 & -> & H0).
  assert (Hr : r = 0) by (apply flash_flexspi_nor_write_inv in E; tauto).
  subst r. exists w', tr0. split; [reflexivity | exact H0].
Defined.

(** X6. With the data cache configured, the last call of an aligned
    erase invalidates the cache over the whole range erased: from the
    mapped address of the offset, for the size it was given; no other call
    touches the cache.  Without the data cache an erase never calls the
    cache. *)
Theorem erase_invalidates_cache
    (S : Type) (plat : Platform S) (bc : build_config)
    (dev : flash_flexspi_nor_data) (fuel : nat) (offset size : Z)
    (w w' : world S) (r : Z) (tr : list call) :
  u32 offset mod SPI_NOR_SECTOR_SIZE bc = 0 ->
  size mod SPI_NOR_SECTOR_SIZE bc = 0 ->
  flash_flexspi_nor_erase bc dev fuel offset size w = Some (r, w', tr) ->
  (CONFIG_HAS_MCUX_CACHE bc = true ->
   exists tr0,
     tr = tr0 ++ [DcacheInvalidate
                    (u32 (memc_flexspi_get_ahb_address (data_port dev) offset
                            (hw w))) size]
     /\ forallb (fun c => negb (is_cache_call c)) tr0 = true)
  /\ (CONFIG_HAS_MCUX_CACHE bc = false ->
      forallb (fun c => negb (is_cache_call c)) tr = true).
Proof.
  intros Ho Hs H. apply flash_flexspi_nor_erase_frame in H; [|exact Ho|exact Hs].
  destruct H as (key & work & w1 & w2 & Hwork & _ & _ & _ & Htr).
  assert (Hbus : forallb on_bus work = true).
  { apply erase_work_turns in Hwork.
    destruct Hwork as [Ht|[Ht|Ht]]; eapply turns_on_bus; exact Ht. }
  exact (@frame_cache_invalidate S plat bc key work w w2 _ _ tr Hbus Htr).
Qed.

Lemma erase_invalidates_cache_witness :
  exists w' tr0,
    flash_flexspi_nor_erase w25q128jv_cached_h w25q128jv 1 0x2000 0x1000
      (boot idle_flash)
    = Some (0, w', tr0 ++ [DcacheInvalidate 0x60002000 0x1000])
    /\ forallb (fun c => negb (is_cache_call c)) tr0 = true.
Proof.
  destruct (flash_flexspi_nor_erase w25q128jv_cached_h w25q128jv 1 0x2000
              0x1000 (boot idle_flash))
    as [[[r w'] tr]|] eqn:E; [|vm_compute in E; discriminate E].
  destruct (proj1 (@erase_invalidates_cache sim sim_platform
              w25q128jv_cached_h w25q128jv 1 0x2000 0x1000
              (boot idle_flash) w' r tr eq_refl eq_refl E) eq_refl)
    as (tr0 & -> & H0).
  assert (Hr : r = 0).
  { apply flash_flexspi_nor_erase_inv in E; [tauto | reflexivity | reflexivity]. }
  subst r. exists w', tr0. split; [reflexivity | exact H0].
Defined.

(** * More of the driver: what a write sends *)

Lemma firstn_add_skipn {A : Type} (a b : nat) : forall l : list A,
  firstn a l ++ firstn b (skipn a l) = firstn (a + b) l.
Proof.
  induction a as [|a IH]; intros l; [reflexivity|].
  destruct l as [|x l]; [destruct b; reflexivity|].
  cbn [firstn skipn app Nat.add]. rewrite IH. reflexivity.
Qed.

Lemma firstn_staged {A : Type} (n : nat) (src old : list A) :
  (n <= length src)%nat ->
  firstn n (firstn n src ++ skipn n old) = firstn n src.
Proof.
  intros Hn. rewrite firstn_app, firstn_firstn, Nat.min_id.
  rewrite length_firstn, Nat.min_l by exact Hn.
  rewrite Nat.sub_diag. cbn [firstn]. apply app_nil_r.
Qed.

Lemma length_staged {A : Type} (n : nat) (src old : list A) :
  (n <= length src)%nat -> (n <= length old)%nat ->
  length (firstn n src ++ skipn n old) = length old.
Proof.
  intros Hs Ho. rewrite length_app, length_firstn, length_skipn. lia.
Qed.

Lemma programmed_bytes_app (a b : list call) :
  programmed_bytes (a ++ b) = programmed_bytes a ++ programmed_bytes b.
Proof.
  induction a as [|c a IH]; [reflexivity|].
  cbn [app programmed_bytes]. destruct c as [t r rd| | | | | |]; try exact IH.
  destruct (seqIndex t); rewrite ?IH, ?app_assoc; reflexivity.
Qed.

Lemma programmed_bytes_polls (polls : list call) :
  forallb is_poll polls = true -> programmed_bytes polls = [].
Proof.
  induction polls as [|c polls IH]; intros H; [reflexivity|].
  cbn [forallb] in H. apply andb_prop in H. destruct H as [Hc Hp].
  apply is_poll_seq in Hc. destruct Hc as (t & r & rd & -> & Hq).
  cbn [programmed_bytes]. rewrite Hq. exact (IH Hp).
Qed.

Lemma programmed_bytes_off_bus (l : list call) :
  forallb off_bus l = true -> programmed_bytes l = [].
Proof.
  induction l as [|c l IH]; intros H; [reflexivity|].
  cbn [forallb] in H. apply andb_prop in H. destruct H as [Hc Hl].
  destruct c; try discriminate Hc; cbn [programmed_bytes]; exact (IH Hl).
Qed.

(** The chunk when the page size fits an [int]. *)
Lemma chunk_int (P a len : Z) :
  0 < P < 2 ^ 31 -> 0 <= a -> 0 < len < 2 ^ 32 ->
  let m := Z.min (P - a mod P) len in
  s32 m = m /\ u32 m = m /\ 1 <= m <= len /\ m <= P.
Proof.
  intros HP Ha Hlen m.
  pose proof (Z.mod_pos_bound a P ltac:(lia)) as Hr.
  assert (Hm : 1 <= m <= len /\ m <= P) by (unfold m; lia).
  split; [|split; [apply u32_id; lia | exact Hm]].
  unfold s32. rewrite Z.mod_small by lia. lia.
Qed.

Section ProgramData.

Context {S : Type} {plat : Platform S}.
Variable bc : build_config.
Variable dev : flash_flexspi_nor_data.

(** One turn of the write loop, with the data handed to the page program
    and the staging buffer after it. *)
Lemma write_loop_turn_data fuel n offset src len (w w' : world S) u tr :
  len <> 0 ->
  write_loop bc dev fuel n offset src len w = Some (u, w', tr) ->
  let i := s32 (Z.min (SPI_NOR_PAGE_SIZE bc
                       - u32 offset mod SPI_NOR_PAGE_SIZE bc) len) in
  let staged_buf := firstn (Z.to_nat (u32 i)) src
                    ++ skipn (Z.to_nat (u32 i)) (nor_write_buf w) in
  exists n' we r1 rd1 t body rest w1,
    n = Datatypes.S n'
    /\ tr = Transfer we r1 rd1 :: body
    /\ seqIndex we = WRITE_ENABLE
    /\ settled_cmd t body rest
    /\ seqIndex t = PAGE_PROGRAM_QUAD_INPUT
    /\ dataSize t = u32 i
    /\ data t = byte_buf (if CONFIG_FLASH_MCUX_FLEXSPI_NOR_WRITE_BUFFER bc
                          then staged_buf else src)
    /\ nor_write_buf w1 = (if CONFIG_FLASH_MCUX_FLEXSPI_NOR_WRITE_BUFFER bc
                           then staged_buf else nor_write_buf w)
    /\ write_loop bc dev fuel n' (s32 (offset + i))
         (skipn (Z.to_nat i) src) (u32 (len - i)) w1 = Some (u, w', rest).
Proof.
  intros Hlen H i staged_buf.
  apply Z.eqb_neq in Hlen.
  destruct n as [|n']; cbn [write_loop] in H; rewrite Hlen in H;
    [discriminate|].
  fold i in H.
  apply bind_inv in H. destruct H as (u0 & w0 & t0 & t1 & H0 & H & ->).
  assert (Hst : t0 = []
                /\ nor_write_buf w0
                   = (if CONFIG_FLASH_MCUX_FLEXSPI_NOR_WRITE_BUFFER bc
                      then staged_buf else nor_write_buf w)).
  { destruct (CONFIG_FLASH_MCUX_FLEXSPI_NOR_WRITE_BUFFER bc).
    - unfold stage in H0. inversion H0. auto.
    - apply Ret_inv in H0. destruct H0 as (_ & -> & ->). auto. }
  destruct Hst as (-> & Hb0).
  apply bind_inv in H. destruct H as (r1 & w1 & t2 & t3 & H1 & H & ->).
  apply wrapper_inv in H1. destruct H1 as (rd1 & -> & Hb1).
  apply bind_inv in H. destruct H as (buf & w2 & t4 & t5 & H2 & H & ->).
  assert (Hbuf : t4 = [] /\ w2 = w1
                 /\ buf = (if CONFIG_FLASH_MCUX_FLEXSPI_NOR_WRITE_BUFFER bc
                           then nor_write_buf w1 else src)).
  { destruct (CONFIG_FLASH_MCUX_FLEXSPI_NOR_WRITE_BUFFER bc).
    - unfold staged in H2. inversion H2. auto.
    - apply Ret_inv in H2. destruct H2 as (-> & -> & ->). auto. }
  destruct Hbuf as (-> & -> & Hbuf).
  apply (settle_inv dev) in H. destruct H as (w3 & rest & Hs & Hb3 & Hk).
  do 8 eexists. split; [reflexivity|]. split; [reflexivity|].
  split; [reflexivity|]. split; [exact Hs|]. split; [reflexivity|].
  split; [reflexivity|]. split; [|split; [|exact Hk]].
  - cbn [data]. f_equal. rewrite Hbuf, Hb1, Hb0.
    destruct (CONFIG_FLASH_MCUX_FLEXSPI_NOR_WRITE_BUFFER bc); reflexivity.
  - rewrite Hb3, Hb1, Hb0. reflexivity.
Qed.

(** The page programs of the loop send the first [len] bytes of the
    source, in order, and the staging buffer keeps its size. *)
Lemma write_loop_bytes fuel n : forall offset src len (w w' : world S) u tr,
  0 < SPI_NOR_PAGE_SIZE bc < 2 ^ 31 -> 0 <= len < 2 ^ 32 ->
  (Z.to_nat len <= length src)%nat ->
  write_loop bc dev fuel n offset src len w = Some (u, w', tr) ->
  programmed_bytes tr = firstn (Z.to_nat len) src
  /\ (length (nor_write_buf w) = Z.to_nat (SPI_NOR_PAGE_SIZE bc) ->
      length (nor_write_buf w') = Z.to_nat (SPI_NOR_PAGE_SIZE bc)).
Proof.
  induction n as [|n IH]; intros offset src len w w' u tr HP Hl Hsrc H;
    destruct (Z.eq_dec len 0) as [->|Hlen];
    try (apply write_loop_done in H; destruct H as [-> ->]; split; auto);
    (apply write_loop_turn_data in H; [|exact Hlen]); cbv zeta in H;
    destruct H as (n' & we & r1 & rd1 & t & body & rest & w1
                   & Hn & -> & Hwe & Hs & Hq & Hsz & Hdata & Hbuf & Hk);
    [discriminate|].
  injection Hn as <-.
  pose proof (u32_range offset) as Hoff.
  assert (Ha' : 0 <= u32 offset) by lia.
  assert (Hl' : 0 < len < 2 ^ 32) by lia.
  pose proof (chunk_int HP Ha' Hl') as Hc. cbv zeta in Hc.
  set (c := Z.min (SPI_NOR_PAGE_SIZE bc
                   - u32 offset mod SPI_NOR_PAGE_SIZE bc) len) in *.
  destruct Hc as (Hs32 & Hu32 & Hc & HcP).
  rewrite Hs32 in *. rewrite Hu32 in *.
  replace (u32 (len - c)) with (len - c) in Hk by (symmetry; apply u32_id; lia).
  assert (Hcn : (Z.to_nat c <= length src)%nat) by lia.
  apply IH in Hk; [|exact HP|lia|rewrite length_skipn; lia].
  destruct Hk as (Hrest & Hlenbuf).
  split.
  - destruct Hs as (r & rd & polls & k & -> & Hp & _).
    cbn [programmed_bytes]. rewrite Hwe, Hq.
    rewrite programmed_bytes_app, (programmed_bytes_polls polls Hp).
    cbn [app programmed_bytes]. rewrite Hrest.
    assert (Hpay : payload t = firstn (Z.to_nat c) src).
    { unfold payload. rewrite Hdata, Hsz.
      destruct (CONFIG_FLASH_MCUX_FLEXSPI_NOR_WRITE_BUFFER bc);
        [apply firstn_staged; exact Hcn | reflexivity]. }
    rewrite Hpay, firstn_add_skipn. f_equal. lia.
  - intros Hw. apply Hlenbuf. rewrite Hbuf.
    destruct (CONFIG_FLASH_MCUX_FLEXSPI_NOR_WRITE_BUFFER bc); [|exact Hw].
    rewrite length_staged; [exact Hw | exact Hcn | lia].
Qed.

(** Without the staging option the loop leaves the staging buffer alone. *)
Lemma write_loop_unstaged fuel n : forall offset src len (w w' : world S) u tr,
  CONFIG_FLASH_MCUX_FLEXSPI_NOR_WRITE_BUFFER bc = false ->
  write_loop bc dev fuel n offset src len w = Some (u, w', tr) ->
  nor_write_buf w' = nor_write_buf w.
Proof.
  induction n as [|n IH]; intros offset src len w w' u tr Hwb H;
    destruct (Z.eq_dec len 0) as [->|Hlen];
    try (apply write_loop_done in H; destruct H as [_ ->]; reflexivity);
    (apply write_loop_turn_data in H; [|exact Hlen]); cbv zeta in H;
    destruct H as (n' & we & r1 & rd1 & t & body & rest & w1
                   & Hn & -> & Hwe & Hs & Hq & Hsz & Hdata & Hbuf & Hk);
    [discriminate|].
  injection Hn as <-. rewrite Hwb in Hbuf.
  apply IH in Hk; [|exact Hwb]. congruence.
Qed.

End ProgramData.

(** X7. The page programs of a write send, in order and without gap or
    overlap, the first [len] bytes of the buffer, with or without the
    staging buffer; the buffer must hold at least [len] bytes and the page
    size must fit an [int]. *)
Theorem write_sends_the_buffer
    (S : Type) (plat : Platform S) (bc : build_config)
    (dev : flash_flexspi_nor_data) (fuel : nat) (offset : Z)
    (buffer : list byte) (len : Z) (w w' : world S) (r : Z)
    (tr : list call) :
  0 < SPI_NOR_PAGE_SIZE bc < 2 ^ 31 ->
  0 <= len < 2 ^ 32 ->
  (Z.to_nat len <= length buffer)%nat ->
  flash_flexspi_nor_write bc dev fuel offset buffer len w = Some (r, w', tr) ->
  programmed_bytes tr = firstn (Z.to_nat len) buffer.
Proof.
  intros HP Hl Hb H. apply flash_flexspi_nor_write_inv in H.
  destruct H as (_ & pre & loop & post & w1 & w2 & -> & Hpre & Hpost & Hloop).
  rewrite !programmed_bytes_app.
  rewrite (programmed_bytes_off_bus pre Hpre).
  rewrite (programmed_bytes_off_bus post Hpost), app_nil_r. cbn [app].
  eapply write_loop_bytes; eassumption.
Qed.

Lemma write_sends_the_buffer_witness :
  exists w' tr,
    flash_flexspi_nor_write w25q128jv_cached_h w25q128jv 1 0xfd
      [x01; x02; x03; x04; x05] 5 (boot_with idle_flash (repeat xff 256))
    = Some (0, w', tr)
    /\ program_cmds tr = [(0xfd, 3); (0x100, 2)]
    /\ programmed_bytes tr = [x01; x02; x03; x04; x05].
Proof.
  destruct (flash_flexspi_nor_write w25q128jv_cached_h w25q128jv 1 0xfd
              [x01; x02; x03; x04; x05] 5
              (boot_with idle_flash (repeat xff 256)))
    as [[[r w'] tr]|] eqn:E; [|vm_compute in E; discriminate E].
  assert (HP : 0 < SPI_NOR_PAGE_SIZE w25q128jv_cached_h < 2 ^ 31)
    by (split; reflexivity).
  assert (Hl : 0 <= 5 < 2 ^ 32) by (split; [discriminate | reflexivity]).
  pose proof (@write_sends_the_buffer sim sim_platform w25q128jv_cached_h
                w25q128jv 1 0xfd [x01; x02; x03; x04; x05] 5
                (boot_with idle_flash (repeat xff 256)) w' r tr HP Hl
                (Nat.le_refl 5) E) as Hbytes.
  assert (Hr : r = 0) by (apply flash_flexspi_nor_write_inv in E; tauto).
  assert (Hp : program_cmds tr = [(0xfd, 3); (0x100, 2)])
    by (vm_compute in E; injection E as _ _ <-; reflexivity).
  subst r. exists w', tr. split; [reflexivity|]. split; [exact Hp|].
  exact Hbytes.
Defined.

(** X8. The staging buffer is never overrun and never touched without
    need: without the staging option a write leaves it as it was; with the
    option, a staging buffer of one page is still one page long after the
    write. *)
Theorem write_keeps_staging_buffer
    (S : Type) (plat : Platform S) (bc : build_config)
    (dev : flash_flexspi_nor_data) (fuel : nat) (offset : Z)
    (buffer : list byte) (len : Z) (w w' : world S) (r : Z)
    (tr : list call) :
  flash_flexspi_nor_write bc dev fuel offset buffer len w = Some (r, w', tr) ->
  (CONFIG_FLASH_MCUX_FLEXSPI_NOR_WRITE_BUFFER bc = false ->
   nor_write_buf w' = nor_write_buf w)
  /\ (0 < SPI_NOR_PAGE_SIZE bc < 2 ^ 31 -> 0 <= len < 2 ^ 32 ->
      (Z.to_nat len <= length buffer)%nat ->
      length (nor_write_buf w) = Z.to_nat (SPI_NOR_PAGE_SIZE bc) ->
      length (nor_write_buf w') = Z.to_nat (SPI_NOR_PAGE_SIZE bc)).
Proof.
  intros H. apply flash_flexspi_nor_write_frame in H.
  destruct H as (key & loop & w1 & w2 & Hloop & Hb1 & Hb2 & _ & _).
  split.
  - intros Hwb. rewrite Hb2, <- Hb1.
    eapply write_loop_unstaged; eassumption.
  - intros HP Hl Hb Hw. rewrite Hb2.
    eapply write_loop_bytes; [exact HP | exact Hl | exact Hb | exact Hloop|].
    rewrite Hb1. exact Hw.
Qed.

Lemma write_keeps_staging_buffer_witness :
  exists w' tr,
    flash_flexspi_nor_write w25q128jv_cached_h w25q128jv 1 0xfd
      [x01; x02; x03; x04; x05] 5 (boot_with idle_flash (repeat xff 256))
    = Some (0, w', tr)
    /\ length (nor_write_buf w') = 256%nat
    /\ firstn 3 (nor_write_buf w') = [x04; x05; x03].
Proof.
  destruct (flash_flexspi_nor_write w25q128jv_cached_h w25q128jv 1 0xfd
              [x01; x02; x03; x04; x05] 5
              (boot_with idle_flash (repeat xff 256)))
    as [[[r w'] tr]|] eqn:E; [|vm_compute in E; discriminate E].
  assert (HP : 0 < SPI_NOR_PAGE_SIZE w25q128jv_cached_h < 2 ^ 31)
    by (split; reflexivity).
  assert (Hl : 0 <= 5 < 2 ^ 32) by (split; [discriminate | reflexivity]).
  pose proof (proj2 (@write_keeps_staging_buffer sim sim_platform
                       w25q128jv_cached_h w25q128jv 1 0xfd
                       [x01; x02; x03; x04; x05] 5
                       (boot_with idle_flash (repeat xff 256)) w' r tr E)
                HP Hl (Nat.le_refl 5) eq_refl) as Hlen.
  assert (Hr : r = 0) by (apply flash_flexspi_nor_write_inv in E; tauto).
  assert (Hf : firstn 3 (nor_write_buf w') = [x04; x05; x03])
    by (vm_compute in E; injection E as _ <- _; reflexivity).
  subst r. exists w', tr. split; [reflexivity|]. split; [exact Hlen | exact Hf].
Defined.

(** * More of the driver: how many page programs *)

(** The chunks of a write that touches the pages from [a / P] to
    [(a + len - 1) / P]: one per page. *)
Lemma spec_page_chunks_count (P : Z) (n : nat) : forall a len,
  0 < P -> 0 <= a -> 0 < len -> (Z.to_nat len <= n)%nat ->
  Z.of_nat (length (spec_page_chunks n P a len))
  = (a + len - 1) / P - a / P + 1.
Proof.
  induction n as [|n IH]; intros a len HP Ha Hlen Hn; [lia|].
  cbn [spec_page_chunks].
  destruct (len <=? 0) eqn:E; [apply Z.leb_le in E; lia|].
  pose proof (Z.mod_pos_bound a P HP) as Hr.
  pose proof (Z.div_mod a P ltac:(lia)) as Hdm.
  cbv zeta. cbn [length].
  destruct (Z_le_gt_dec len (P - a mod P)) as [Hfit|Hmore].
  - rewrite Z.min_r by lia.
    replace (len - len) with 0 by lia.
    assert (Hnil : spec_page_chunks n P (a + len) 0 = [])
      by (destruct n; reflexivity).
    rewrite Hnil. cbn [length].
    assert (Hq : (a + len - 1) / P = a / P).
    { symmetry. apply Z.div_unique with (r := a mod P + len - 1); lia. }
    rewrite Hq. lia.
  - rewrite Z.min_l by lia.
    rewrite Nat2Z.inj_succ, IH by lia.
    assert (Hnext : a + (P - a mod P) = (a / P + 1) * P) by lia.
    assert (Hq1 : (a + (P - a mod P)) / P = a / P + 1)
      by (rewrite Hnext; apply Z.div_mul; lia).
    replace (a + (P - a mod P) + (len - (P - a mod P)) - 1)
      with (a + len - 1) by lia.
    rewrite Hq1. lia.
Qed.

(** X9. A write makes exactly one page program for each page it
    touches: for [len > 0] bytes from [offset], the pages [offset /
    page_size] to [(offset + len - 1) / page_size]. *)
Theorem write_one_program_per_page
    (S : Type) (plat : Platform S) (bc : build_config)
    (dev : flash_flexspi_nor_data) (fuel : nat) (offset : Z)
    (buffer : list byte) (len : Z) (w w' : world S) (r : Z)
    (tr : list call) :
  0 < SPI_NOR_PAGE_SIZE bc ->
  0 < len < 2 ^ 32 ->
  0 <= offset -> offset + len <= 2 ^ 32 ->
  flash_flexspi_nor_write bc dev fuel offset buffer len w = Some (r, w', tr) ->
  Z.of_nat (length (program_cmds tr))
  = (offset + len - 1) / SPI_NOR_PAGE_SIZE bc
    - offset / SPI_NOR_PAGE_SIZE bc + 1.
Proof.
  intros HP Hl Ho Hend H. apply flash_flexspi_nor_write_inv in H.
  destruct H as (_ & pre & loop & post & w1 & w2 & -> & Hpre & Hpost & Hloop).
  rewrite !program_cmds_app.
  rewrite (program_cmds_off_bus pre Hpre), (program_cmds_off_bus post Hpost).
  rewrite app_nil_r. cbn [app].
  assert (Hcmds : program_cmds loop
                  = spec_page_chunks (Z.to_nat len) (SPI_NOR_PAGE_SIZE bc)
                      offset len).
  { eapply write_loop_program_cmds;
      [exact HP | lia | exact Ho | exact Hend | | apply Nat.le_refl
       | exact Hloop].
    intros _. apply u32_id. lia. }
  rewrite Hcmds. apply spec_page_chunks_count; lia.
Qed.

Lemma write_one_program_per_page_witness :
  exists w' tr,
    flash_flexspi_nor_write w25q128jv_h w25q128jv 1 0xff (repeat x2a 258) 258
      (boot idle_flash) = Some (0, w', tr)
    /\ length (program_cmds tr) = 3%nat.
Proof.
  destruct (flash_flexspi_nor_write w25q128jv_h w25q128jv 1 0xff
              (repeat x2a 258) 258 (boot idle_flash))
    as [[[r w'] tr]|] eqn:E; [|vm_compute in E; discriminate E].
  assert (HP : 0 < SPI_NOR_PAGE_SIZE w25q128jv_h) by reflexivity.
  assert (Hl : 0 < 258 < 2 ^ 32) by (split; reflexivity).
  assert (Ho : 0 <= 0xff) by discriminate.
  assert (Hend : 0xff + 258 <= 2 ^ 32) by discriminate.
  pose proof (@write_one_program_per_page sim sim_platform w25q128jv_h
                w25q128jv 1 0xff (repeat x2a 258) 258 (boot idle_flash)
                w' r tr HP Hl Ho Hend E) as Hn.
  assert (Hr : r = 0) by (apply flash_flexspi_nor_write_inv in E; tauto).
  subst r. exists w', tr. split; [reflexivity|].
  apply Nat2Z.inj. rewrite Hn. reflexivity.
Defined.

(** * More of the driver: what an erase clears *)

Section EraseCommands.

Context {S : Type} {plat : Platform S}.
Variable bc : build_config.
Variable dev : flash_flexspi_nor_data.

(** The erase commands of an aligned erase, by the branch taken. *)
Lemma flash_flexspi_nor_erase_cmds fuel offset size (w w' : world S) r tr :
  u32 offset mod SPI_NOR_SECTOR_SIZE bc = 0 ->
  size mod SPI_NOR_SECTOR_SIZE bc = 0 ->
  flash_flexspi_nor_erase bc dev fuel offset size w = Some (r, w', tr) ->
  erase_cmds tr
  = if (offset =? 0) && (size =? u32 (flashSize (config dev) * KB 1))
    then [(ERASE_CHIP, 0)]
    else if (0 =? u32 offset mod SPI_NOR_BLOCK_SIZE bc)
            && (0 =? size mod SPI_NOR_BLOCK_SIZE bc)
    then map (fun k => (ERASE_BLOCK,
                        u32 (offset + Z.of_nat k * SPI_NOR_BLOCK_SIZE bc)))
           (seq 0 (Z.to_nat (size / SPI_NOR_BLOCK_SIZE bc)))
    else map (fun k => (ERASE_SECTOR,
                        u32 (offset + Z.of_nat k * SPI_NOR_SECTOR_SIZE bc)))
           (seq 0 (Z.to_nat (size / SPI_NOR_SECTOR_SIZE bc))).
Proof.
  intros Ho Hs H.
  apply flash_flexspi_nor_erase_inv in H; [|exact Ho|exact Hs].
  destruct H as (_ & pre & work & post & w1 & w2 & -> & Hpre & Hpost & Hw).
  rewrite !erase_cmds_app.
  rewrite (erase_cmds_off_bus pre Hpre), (erase_cmds_off_bus post Hpost).
  rewrite app_nil_r. cbn [app].
  unfold erase_work in Hw.
  destruct ((offset =? 0) && (size =? u32 (flashSize (config dev) * KB 1))).
  - apply erase_chip_trace in Hw. tauto.
  - destruct ((0 =? u32 offset mod SPI_NOR_BLOCK_SIZE bc)
              && (0 =? size mod SPI_NOR_BLOCK_SIZE bc)).
    + apply erase_block_loop_trace in Hw. tauto.
    + apply erase_sector_loop_trace in Hw. tauto.
Qed.

End EraseCommands.

(** [n] commands of one unit, one unit apart from an aligned [offset],
    clear [n] units inside any range that holds them. *)
Lemma erase_run_in_range (bc : build_config) (dev : flash_flexspi_nor_data)
    (q : lut_seq) (offset size : Z) (n : nat) :
  let unit := erase_unit bc dev q in
  0 < unit -> 0 <= offset -> offset + size <= 2 ^ 32 ->
  offset mod unit = 0 -> Z.of_nat n * unit <= size ->
  Forall (erase_in_range bc dev offset size)
    (map (fun k => (q, u32 (offset + Z.of_nat k * unit))) (seq 0 n))
  /\ erased_bytes bc dev
       (map (fun k => (q, u32 (offset + Z.of_nat k * unit))) (seq 0 n))
     = Z.of_nat n * unit.
Proof.
  intros unit Hu Ho Hend Hal Hn. split.
  - apply Forall_forall. intros c Hc.
    apply in_map_iff in Hc. destruct Hc as (k & <- & Hk).
    apply in_seq in Hk.
    assert (Hkn : (Z.of_nat k + 1) * unit <= Z.of_nat n * unit)
      by (apply Z.mul_le_mono_nonneg_r; lia).
    assert (Hk0 : 0 <= Z.of_nat k * unit) by (apply Z.mul_nonneg_nonneg; lia).
    unfold erase_in_range. cbn [fst snd]. fold unit.
    rewrite u32_id by lia.
    split; [|lia].
    rewrite Z_mod_plus_full. exact Hal.
  - unfold erased_bytes.
    generalize 0%nat as start.
    induction n as [|n IH]; intros start; [reflexivity|].
    cbn [seq map fold_right fst]. fold unit.
    rewrite Nat2Z.inj_succ.
    assert (Hn' : Z.of_nat n * unit <= size) by lia.
    rewrite (IH Hn' (Datatypes.S start)). lia.
Qed.

(** X10. An erase of [size > 0] bytes stays inside the range it was
    asked to clear and clears all of it: every erase command starts on a
    boundary of its own unit, lies within [offset, offset + size), and the
    units add up to [size] (a chip erase counting for the whole device). *)
Theorem erase_clears_exactly_the_range
    (S : Type) (plat : Platform S) (bc : build_config)
    (dev : flash_flexspi_nor_data) (fuel : nat) (offset size : Z)
    (w w' : world S) (r : Z) (tr : list call) :
  0 < SPI_NOR_SECTOR_SIZE bc -> 0 < SPI_NOR_BLOCK_SIZE bc ->
  0 <= offset -> 0 < size -> offset + size <= 2 ^ 32 ->
  offset mod SPI_NOR_SECTOR_SIZE bc = 0 ->
  size mod SPI_NOR_SECTOR_SIZE bc = 0 ->
  flash_flexspi_nor_erase bc dev fuel offset size w = Some (r, w', tr) ->
  Forall (erase_in_range bc dev offset size) (erase_cmds tr)
  /\ erased_bytes bc dev (erase_cmds tr) = size.
Proof.
  intros HS HB Ho Hsz Hend Hao Has H.
  assert (Hsz0 : 0 <= size) by lia.
  assert (Hlt : 0 <= offset < 2 ^ 32) by lia.
  assert (Hou : u32 offset = offset) by (apply u32_id; exact Hlt).
  assert (Hal : u32 offset mod SPI_NOR_SECTOR_SIZE bc = 0)
    by (rewrite Hou; exact Hao).
  rewrite (flash_flexspi_nor_erase_cmds bc dev _ _ _ w Hal Has H).
  rewrite Hou.
  destruct ((offset =? 0) && (size =? u32 (flashSize (config dev) * KB 1)))
    eqn:E.
  - apply andb_prop in E. destruct E as [E1 E2].
    apply Z.eqb_eq in E1, E2. subst offset.
    split.
    + constructor; [|constructor].
      unfold erase_in_range, erase_unit. cbn [fst snd].
      rewrite <- E2, Zmod_0_l. lia.
    + unfold erased_bytes, erase_unit. cbn [fold_right fst]. lia.
  - destruct ((0 =? offset mod SPI_NOR_BLOCK_SIZE bc)
              && (0 =? size mod SPI_NOR_BLOCK_SIZE bc)) eqn:Eb.
    + apply andb_prop in Eb. destruct Eb as [Eb1 Eb2].
      apply Z.eqb_eq in Eb1, Eb2.
      pose proof (Z.div_mod size (SPI_NOR_BLOCK_SIZE bc) ltac:(lia)) as Hdm.
      pose proof (Z.div_pos size (SPI_NOR_BLOCK_SIZE bc) Hsz0 HB) as Hq.
      assert (Hbound : Z.of_nat (Z.to_nat (size / SPI_NOR_BLOCK_SIZE bc))
                       * SPI_NOR_BLOCK_SIZE bc <= size)
        by (rewrite Z2Nat.id by exact Hq; lia).
      pose proof (@erase_run_in_range bc dev ERASE_BLOCK offset size
                    (Z.to_nat (size / SPI_NOR_BLOCK_SIZE bc))) as Hrun.
      cbv zeta in Hrun. cbn [erase_unit] in Hrun.
      destruct (Hrun HB Ho Hend (eq_sym Eb1) Hbound) as [Hin Hsum].
      split; [exact Hin|]. rewrite Hsum, Z2Nat.id by exact Hq. lia.
    + pose proof (Z.div_mod size (SPI_NOR_SECTOR_SIZE bc) ltac:(lia)) as Hdm.
      pose proof (Z.div_pos size (SPI_NOR_SECTOR_SIZE bc) Hsz0 HS) as Hq.
      assert (Hbound : Z.of_nat (Z.to_nat (size / SPI_NOR_SECTOR_SIZE bc))
                       * SPI_NOR_SECTOR_SIZE bc <= size)
        by (rewrite Z2Nat.id by exact Hq; lia).
      pose proof (@erase_run_in_range bc dev ERASE_SECTOR offset size
                    (Z.to_nat (size / SPI_NOR_SECTOR_SIZE bc))) as Hrun.
      cbv zeta in Hrun. cbn [erase_unit] in Hrun.
      destruct (Hrun HS Ho Hend Hao Hbound) as [Hin Hsum].
      split; [exact Hin|]. rewrite Hsum, Z2Nat.id by exact Hq. lia.
Qed.

Lemma erase_clears_exactly_the_range_witness :
  exists w' tr,
    flash_flexspi_nor_erase w25q128jv_h w25q128jv 1 0x1f000 0x2000
      (boot idle_flash) = Some (0, w', tr)
    /\ erase_cmds tr = [(ERASE_SECTOR, 0x1f000); (ERASE_SECTOR, 0x20000)]
    /\ erased_bytes w25q128jv_h w25q128jv (erase_cmds tr) = 0x2000.
Proof.
  destruct (flash_flexspi_nor_erase w25q128jv_h w25q128jv 1 0x1f000 0x2000
              (boot idle_flash))
    as [[[r w'] tr]|] eqn:E; [|vm_compute in E; discriminate E].
  assert (Hend : 0x1f000 + 0x2000 <= 2 ^ 32) by discriminate.
  assert (Ho : 0 <= 0x1f000) by discriminate.
  destruct (@erase_clears_exactly_the_range sim sim_platform w25q128jv_h
              w25q128jv 1 0x1f000 0x2000 (boot idle_flash) w' r tr
              eq_refl eq_refl Ho eq_refl Hend eq_refl eq_refl E)
    as [_ Hsum].
  assert (Hr : r = 0).
  { apply flash_flexspi_nor_erase_inv in E; [tauto | reflexivity | reflexivity]. }
  assert (Hc : erase_cmds tr
               = [(ERASE_SECTOR, 0x1f000); (ERASE_SECTOR, 0x20000)])
    by (vm_compute in E; injection E as _ _ <-; reflexivity).
  subst r. exists w', tr. split; [reflexivity|]. split; [exact Hc | exact Hsum].
Defined.

Section EraseEdges.

Context {S : Type} {plat : Platform S}.
Variable bc : build_config.
Variable dev : flash_flexspi_nor_data.

Lemma erase_work_nothing fuel offset (w : world S) :
  offset <> 0 \/ u32 (flashSize (config dev) * KB 1) <> 0 ->
  erase_work bc dev fuel offset 0 w = Some (tt, w, []).
Proof.
  intros H. unfold erase_work.
  assert (E : (offset =? 0) && (0 =? u32 (flashSize (config dev) * KB 1))
              = false).
  { destruct H as [H|H].
    - apply Z.eqb_neq in H. rewrite H. reflexivity.
    - rewrite (Z.eqb_sym 0), (proj2 (Z.eqb_neq _ _) H). apply andb_false_r. }
  rewrite E, !Zdiv_0_l. cbn [Z.to_nat].
  destruct ((0 =? u32 offset mod SPI_NOR_BLOCK_SIZE bc)
            && (0 =? 0 mod SPI_NOR_BLOCK_SIZE bc)); reflexivity.
Qed.

Lemma flash_flexspi_nor_erase_eq fuel offset size :
  flash_flexspi_nor_erase (S := S) bc dev fuel offset size
  = (dst <- get_ahb_address dev offset ;;
     if negb (u32 offset mod SPI_NOR_SECTOR_SIZE bc =? 0) then Ret (- EINVAL)
     else if negb (size mod SPI_NOR_SECTOR_SIZE bc =? 0) then Ret (- EINVAL)
     else
       xip <- is_running_xip ;;
       key <- (if xip then do_irq_lock else Ret 0) ;;
       erase_work bc dev fuel offset size ;;;
       xip <- is_running_xip ;;
       (if xip then do_irq_unlock key else Ret tt) ;;;
       (if CONFIG_HAS_MCUX_CACHE bc then dcache_invalidate (u32 dst) size
        else Ret tt) ;;;
       Ret 0).
Proof. reflexivity. Qed.

End EraseEdges.

(** X11. An erase of no bytes at a sector-aligned offset puts nothing on
    the bus and returns 0, whatever the number of loop turns allowed;
    unless the offset is 0 and the device size computed by the driver is 0
    too, in which case the request counts as the whole device. *)
Theorem erase_zero_size
    (S : Type) (plat : Platform S) (bc : build_config)
    (dev : flash_flexspi_nor_data) (fuel : nat) (offset : Z) (w : world S) :
  u32 offset mod SPI_NOR_SECTOR_SIZE bc = 0 ->
  offset <> 0 \/ u32 (flashSize (config dev) * KB 1) <> 0 ->
  exists w' tr,
    flash_flexspi_nor_erase bc dev fuel offset 0 w = Some (0, w', tr)
    /\ bus_ops tr = []
    /\ nor_write_buf w' = nor_write_buf w.
Proof.
  intros Ho Hne.
  rewrite flash_flexspi_nor_erase_eq.
  unfold bind, get_ahb_address, is_running_xip.
  rewrite Ho, Zmod_0_l. cbn [Z.eqb negb].
  unfold Ret, do_irq_lock, do_irq_unlock, dcache_invalidate.
  destruct (memc_flexspi_is_running_xip (hw w)) eqn:Ex.
  - destruct (irq_lock (hw w)) as [key s].
    rewrite erase_work_nothing by exact Hne. cbn [hw nor_write_buf].
    destruct (memc_flexspi_is_running_xip s);
      destruct (CONFIG_HAS_MCUX_CACHE bc);
      do 2 eexists; (split; [reflexivity|]); split; reflexivity.
  - rewrite erase_work_nothing by exact Hne. rewrite Ex.
    destruct (CONFIG_HAS_MCUX_CACHE bc);
      do 2 eexists; (split; [reflexivity|]); split; reflexivity.
Qed.

Lemma erase_zero_size_witness :
  exists w' tr,
    flash_flexspi_nor_erase w25q128jv_h w25q128jv 0 0 0 (boot idle_flash)
    = Some (0, w', tr)
    /\ bus_ops tr = []
    /\ nor_write_buf w' = [].
Proof.
  apply (@erase_zero_size sim sim_platform w25q128jv_h w25q128jv 0 0
           (boot idle_flash)).
  - reflexivity.
  - right. vm_compute. discriminate.
Defined.

(** X12. The page layout built for an instance covers the device, and
    erasing all of it is one chip erase: for a device of [size] bits whose
    byte size is a multiple of the sector size and of 1 KiB and fits 32
    bits, [pages_count * pages_size] is the byte size, and an erase of
    that many bytes at offset 0 issues the chip erase and no other erase
    command. *)
Theorem erase_whole_layout_is_chip_erase
    (S : Type) (plat : Platform S) (bc : build_config) (size reg : Z)
    (fuel : nat) (w w' : world S) (r : Z) (tr : list call) :
  let inst := FLASH_FLEXSPI_W25Q128JV bc size reg in
  let total := pages_count (layout inst) * pages_size (layout inst) in
  0 < SPI_NOR_SECTOR_SIZE bc ->
  0 <= size -> size / 8 < 2 ^ 32 ->
  (size / 8) mod SPI_NOR_SECTOR_SIZE bc = 0 ->
  (size / 8) mod KB 1 = 0 ->
  flash_flexspi_nor_erase bc (inst_data inst) fuel 0 total w
  = Some (r, w', tr) ->
  total = size / 8 /\ erase_cmds tr = [(ERASE_CHIP, 0)].
Proof.
  intros inst total HS Hsz Hfit Hsec Hkb H.
  assert (Hb : 0 <= size / 8) by (apply Z.div_pos; lia).
  assert (Hpc : 0 <= size / 8 / SPI_NOR_SECTOR_SIZE bc <= size / 8).
  { split; [apply Z.div_pos; lia|].
    apply Z.div_le_upper_bound; [lia|]. nia. }
  assert (Htotal : total = size / 8).
  { unfold total, inst. cbn [layout pages_count pages_size
                               FLASH_FLEXSPI_W25Q128JV].
    rewrite u32_id by lia.
    pose proof (Z.div_mod (size / 8) (SPI_NOR_SECTOR_SIZE bc) ltac:(lia)).
    lia. }
  split; [exact Htotal|].
  assert (Hkb1 : KB 1 = 1024) by reflexivity.
  assert (Hfs : u32 (flashSize (config (inst_data inst)) * KB 1) = size / 8).
  { unfold inst. cbn [inst_data config flashSize FLASH_FLEXSPI_W25Q128JV
                        FLASH_FLEXSPI_DEVICE_CONFIG].
    assert (Hq : 0 <= size / 8 / KB 1 <= size / 8).
    { rewrite Hkb1. split; [apply Z.div_pos; lia|].
      apply Z.div_le_upper_bound; lia. }
    rewrite (@u32_id (size / 8 / KB 1)) by lia.
    pose proof (Z.div_mod (size / 8) (KB 1) ltac:(rewrite Hkb1; lia)) as Hdm.
    rewrite Hkb in Hdm.
    replace (size / 8 / KB 1 * KB 1) with (size / 8) by lia.
    apply u32_id. lia. }
  rewrite Htotal in H.
  assert (H0 : u32 0 mod SPI_NOR_SECTOR_SIZE bc = 0) by apply Zmod_0_l.
  rewrite (flash_flexspi_nor_erase_cmds bc (inst_data inst) _ _ _ w
             H0 Hsec H).
  rewrite Hfs, !Z.eqb_refl. reflexivity.
Qed.

Lemma erase_whole_layout_is_chip_erase_witness :
  exists w' tr,
    flash_flexspi_nor_erase w25q128jv_h
      (inst_data (FLASH_FLEXSPI_W25Q128JV w25q128jv_h 0x8000000 0)) 1 0
      (4096 * 4096) (boot idle_flash) = Some (0, w', tr)
    /\ erase_cmds tr = [(ERASE_CHIP, 0)].
Proof.
  destruct (flash_flexspi_nor_erase w25q128jv_h
              (inst_data (FLASH_FLEXSPI_W25Q128JV w25q128jv_h 0x8000000 0))
              1 0 (4096 * 4096) (boot idle_flash))
    as [[[r w'] tr]|] eqn:E; [|vm_compute in E; discriminate E].
  assert (Hsz : 0 <= 0x8000000) by discriminate.
  destruct (@erase_whole_layout_is_chip_erase sim sim_platform w25q128jv_h
              0x8000000 0 1 (boot idle_flash) w' r tr
              eq_refl Hsz eq_refl eq_refl eq_refl E) as [_ Hc].
  assert (Hr : r = 0).
  { apply flash_flexspi_nor_erase_inv in E; [tauto | reflexivity | reflexivity]. }
  subst r. exists w', tr. split; [reflexivity | exact Hc].
Defined.

(** * More of the driver: bring-up *)

Section BringUp.

Context {S : Type} {plat : Platform S}.
Variable dev : flash_flexspi_nor_data.

Lemma wait_bus_busy_bus_ops fuel (w w' : world S) r tr :
  flash_flexspi_nor_wait_bus_busy dev fuel w = Some (r, w', tr) ->
  forallb is_poll tr = true /\ exists n, bus_ops tr = repeat poll (Datatypes.S n).
Proof. apply wait_bus_busy_loop_polls. Qed.

Lemma flash_flexspi_nor_enable_quad_mode_run fuel (w w' : world S) q tr :
  flash_flexspi_nor_enable_quad_mode dev fuel w = Some (q, w', tr) ->
  quad_run dev q tr.
Proof.
  unfold flash_flexspi_nor_enable_quad_mode. intros H.
  apply bind_inv in H. destruct H as (r1 & w1 & t1 & t2 & H1 & H & ->).
  apply wrapper_inv in H1. destruct H1 as (rd1 & -> & _).
  apply bind_inv in H. destruct H as (r2 & w2 & t3 & t4 & H2 & H & ->).
  unfold flash_flexspi_nor_write_status in H2.
  cbn [Z.ltb Z.compare Pos.compare Pos.compare_cont] in H2.
  apply wrapper_inv in H2. destruct H2 as (rd2 & -> & _).
  exists r1, rd1, r2, rd2.
  destruct (r2 =? 0) eqn:Er; cbn [negb] in H.
  - apply Z.eqb_eq in Er. right. split; [exact Er|].
    apply bind_inv in H. destruct H as (r3 & w3 & polls & t5 & H3 & H & ->).
    apply wait_bus_busy_bus_ops in H3. destruct H3 as (Hp & n & Hn).
    apply bind_inv in H. destruct H as (p & w4 & t6 & t7 & H4 & H & ->).
    apply transfer_inv in H4. destruct H4 as (-> & _).
    exists polls, n, (fst p), (snd p). split; [exact Hp|]. split; [exact Hn|].
    destruct (2 =? snd p) eqn:Ep; cbn [negb] in H.
    + apply Z.eqb_eq in Ep. right. split; [symmetry; exact Ep|].
      apply bind_inv in H.
      destruct H as (r5 & w5 & polls' & t8 & H5 & H & ->).
      apply wait_bus_busy_bus_ops in H5. destruct H5 as (Hp' & m & Hm).
      apply bind_inv in H. destruct H as (u & w6 & t9 & t10 & H6 & H & ->).
      apply reset_inv in H6. destruct H6 as (-> & _).
      apply Ret_inv in H. destruct H as (Hq & _ & ->).
      split; [exact Hq|]. exists polls', m. split; [exact Hp'|].
      split; [exact Hm|]. reflexivity.
    + apply Z.eqb_neq in Ep. left.
      apply Ret_inv in H. destruct H as (Hq & _ & ->).
      split; [intros E; apply Ep; symmetry; exact E|].
      split; [exact Hq|]. reflexivity.
  - apply Z.eqb_neq in Er. left.
    apply Ret_inv in H. destruct H as (Hq & _ & ->).
    split; [exact Er|]. split; [exact Hq|]. reflexivity.
Qed.

Lemma flash_flexspi_nor_init_run fuel (w w' : world S) r tr :
  flash_flexspi_nor_init dev fuel w = Some (r, w', tr) ->
  (device_is_ready (hw w) = false /\ r = - ENODEV /\ tr = [] /\ w' = w)
  \/ (device_is_ready (hw w) = true
      /\ exists idle,
           idle = (if memc_flexspi_is_running_xip (hw w)
                   then [WaitBusIdle] else [])
           /\ forallb is_idle_wait idle = true /\ init_run dev r idle tr).
Proof.
  unfold flash_flexspi_nor_init. intros H.
  apply bind_inv in H. destruct H as (ready & w0 & t0 & t1 & H0 & H & ->).
  unfold is_ready in H0. injection H0 as <- <- <-.
  destruct (device_is_ready (hw w)); cbn [negb] in H.
  2:{ apply Ret_inv in H. destruct H as (-> & -> & ->). left. auto. }
  right. split; [reflexivity|].
  apply bind_inv in H. destruct H as (xip & w1 & t2 & t3 & H1 & H & ->).
  unfold is_running_xip in H1. injection H1 as <- <- <-.
  apply bind_inv in H. destruct H as (u1 & w2 & idle & t5 & H2 & H & ->).
  assert (Hxip : idle = (if memc_flexspi_is_running_xip (hw w)
                         then [WaitBusIdle] else [])).
  { destruct (memc_flexspi_is_running_xip (hw w)).
    - unfold wait_bus_idle in H2. inversion H2. reflexivity.
    - apply Ret_inv in H2. destruct H2 as (_ & _ & ->). reflexivity. }
  assert (Hidle : forallb is_idle_wait idle = true).
  { rewrite Hxip. destruct (memc_flexspi_is_running_xip (hw w)); reflexivity. }
  exists idle. split; [exact Hxip|]. split; [exact Hidle|]. cbn [app].
  apply bind_inv in H. destruct H as (c & w3 & t6 & t7 & H3 & H & ->).
  assert (Ht6 : t6 = [SetDeviceConfig c]).
  { unfold set_device_config in H3.
    destruct (memc_flexspi_set_device_config (hw w2)) as [c' s'].
    inversion H3. reflexivity. }
  subst t6. exists c.
  destruct (c =? 0) eqn:Ec; cbn [negb] in H.
  2:{ apply Z.eqb_neq in Ec. apply Ret_inv in H. destruct H as (Hr & _ & ->).
      left. split; [exact Ec|]. split; [exact Hr|]. reflexivity. }
  apply Z.eqb_eq in Ec. right. split; [exact Ec|].
  apply bind_inv in H. destruct H as (r1 & w4 & polls & t8 & H4 & H & ->).
  apply wait_bus_busy_bus_ops in H4. destruct H4 as (Hp & n & Hn).
  apply bind_inv in H. destruct H as (u2 & w5 & t9 & t10 & H5 & H & ->).
  apply reset_inv in H5. destruct H5 as (-> & _).
  apply bind_inv in H. destruct H as (v & w6 & t11 & t12 & H6 & H & ->).
  assert (Hid : exists rd, t11 = [Transfer (xfer_read_id dev) (fst v) rd]).
  { unfold flash_flexspi_nor_get_vendor_id in H6.
    apply bind_inv in H6. destruct H6 as (p & w7 & t13 & t14 & H6 & H7 & ->).
    apply transfer_inv in H6. destruct H6 as (-> & _).
    destruct p as [ret buffer]. apply Ret_inv in H7.
    destruct H7 as (-> & _ & ->). exists buffer. reflexivity. }
  destruct Hid as (rd & ->).
  exists polls, n, (fst v), rd. split; [exact Hp|]. split; [exact Hn|].
  destruct (fst v =? 0) eqn:Ev; cbn [negb] in H.
  2:{ apply Z.eqb_neq in Ev. apply Ret_inv in H. destruct H as (Hr & _ & ->).
      left. split; [exact Ev|]. split; [exact Hr|].
      cbn [app]. reflexivity. }
  apply Z.eqb_eq in Ev. right. split; [exact Ev|].
  apply bind_inv in H. destruct H as (q & w8 & qtr & t15 & H8 & H & ->).
  apply flash_flexspi_nor_enable_quad_mode_run in H8.
  exists q, qtr, t15. split; [exact H8|].
  split; [cbn [app]; reflexivity|].
  destruct (q =? 0) eqn:Eq; cbn [negb] in H.
  - apply Z.eqb_eq in Eq. right.
    apply bind_inv in H. destruct H as (r2 & w9 & polls' & t16 & H9 & H & ->).
    apply wait_bus_busy_bus_ops in H9. destruct H9 as (Hp' & m & Hm).
    apply bind_inv in H. destruct H as (u3 & w10 & t17 & t18 & H10 & H & ->).
    apply reset_inv in H10. destruct H10 as (-> & _).
    apply Ret_inv in H. destruct H as (Hr & _ & ->).
    split; [exact Eq|]. split; [exact Hr|].
    exists polls', m. split; [exact Hp'|]. split; [exact Hm|].
    reflexivity.
  - apply Z.eqb_neq in Eq. left.
    apply Ret_inv in H. destruct H as (Hr & _ & ->). auto.
Qed.

End BringUp.

Lemma transfer_result_polls (q : lut_seq) (polls rest : list call) :
  q <> READ_STATUS_REG1 -> forallb is_poll polls = true ->
  transfer_result q (polls ++ rest) = transfer_result q rest.
Proof.
  intros Hq. induction polls as [|c polls IH]; intros H; [reflexivity|].
  cbn [forallb] in H. apply andb_prop in H. destruct H as [Hc Hp].
  apply is_poll_seq in Hc. destruct Hc as (t & r & rd & -> & Ht).
  cbn [app transfer_result]. rewrite Ht.
  rewrite lut_seq_eqb_neq by congruence. exact (IH Hp).
Qed.

Lemma transfer_result_idle (q : lut_seq) (idle rest : list call) :
  forallb is_idle_wait idle = true ->
  transfer_result q (idle ++ rest) = transfer_result q rest.
Proof.
  induction idle as [|c idle IH]; intros H; [reflexivity|].
  cbn [forallb] in H. apply andb_prop in H. destruct H as [Hc Hi].
  destruct c; try discriminate Hc. cbn [app transfer_result]. exact (IH Hi).
Qed.

Lemma config_result_idle (idle rest : list call) :
  forallb is_idle_wait idle = true ->
  config_result (idle ++ rest) = config_result rest.
Proof.
  induction idle as [|c idle IH]; intros H; [reflexivity|].
  cbn [forallb] in H. apply andb_prop in H. destruct H as [Hc Hi].
  destruct c; try discriminate Hc. cbn [app config_result]. exact (IH Hi).
Qed.

Lemma bus_ops_idle (idle : list call) :
  forallb is_idle_wait idle = true -> bus_ops idle = [].
Proof.
  induction idle as [|c idle IH]; intros H; [reflexivity|].
  cbn [forallb] in H. apply andb_prop in H. destruct H as [Hc Hi].
  destruct c; try discriminate Hc. cbn [bus_ops bus_op_of]. exact (IH Hi).
Qed.

(** The bus side of the three runs of the handshake. *)
Lemma quad_run_bus_ops (dev : flash_flexspi_nor_data) (q : Z) (tr : list call) :
  quad_run dev q tr ->
  (q = - EIO
   /\ (bus_ops tr = [Cmd WRITE_ENABLE 0 0; Cmd WRITE_STATUS_REG 0 2]
       \/ exists n,
            bus_ops tr
            = [Cmd WRITE_ENABLE 0 0; Cmd WRITE_STATUS_REG 0 2]
              ++ repeat poll (Datatypes.S n) ++ [Cmd READ_STATUS_REG2 0 1]))
  \/ (q = 0
      /\ exists n m,
           bus_ops tr
           = [Cmd WRITE_ENABLE 0 0; Cmd WRITE_STATUS_REG 0 2]
             ++ repeat poll (Datatypes.S n) ++ [Cmd READ_STATUS_REG2 0 1]
             ++ repeat poll (Datatypes.S m) ++ [Rst]).
Proof.
  intros (r1 & rd1 & r2 & rd2 & [(_ & -> & ->) | (_ & polls & n & r3 & rd3 & Hp & Hn & Hc)]).
  - left. split; [reflexivity|]. left. reflexivity.
  - destruct Hc as [(_ & -> & ->) | (_ & -> & polls' & m & Hp' & Hm & ->)].
    + left. split; [reflexivity|]. right. exists n.
      cbn [bus_ops bus_op_of]. rewrite bus_ops_app, Hn. reflexivity.
    + right. split; [reflexivity|]. exists n, m.
      cbn [bus_ops bus_op_of]. rewrite bus_ops_app, Hn.
      cbn [bus_ops bus_op_of]. rewrite bus_ops_app, Hm. reflexivity.
Qed.

(** X13. The quad-mode handshake has three runs on the bus and no
    other.  It returns [-EIO] after the write enable and the status write
    alone, or after these, the status reads of one wait and the read of
    status register 2; it returns 0 after all of that followed by the
    status reads of a second wait and the reset.  It returns nothing
    else. *)
Theorem quad_mode_bus_sequences
    (S : Type) (plat : Platform S) (dev : flash_flexspi_nor_data)
    (fuel : nat) (w w' : world S) (q : Z) (tr : list call) :
  flash_flexspi_nor_enable_quad_mode dev fuel w = Some (q, w', tr) ->
  (q = - EIO
   /\ (bus_ops tr = [Cmd WRITE_ENABLE 0 0; Cmd WRITE_STATUS_REG 0 2]
       \/ exists n,
            bus_ops tr
            = [Cmd WRITE_ENABLE 0 0; Cmd WRITE_STATUS_REG 0 2]
              ++ repeat poll (Datatypes.S n) ++ [Cmd READ_STATUS_REG2 0 1]))
  \/ (q = 0
      /\ exists n m,
           bus_ops tr
           = [Cmd WRITE_ENABLE 0 0; Cmd WRITE_STATUS_REG 0 2]
             ++ repeat poll (Datatypes.S n) ++ [Cmd READ_STATUS_REG2 0 1]
             ++ repeat poll (Datatypes.S m) ++ [Rst]).
Proof.
  intros H. apply flash_flexspi_nor_enable_quad_mode_run in H.
  apply quad_run_bus_ops with (dev := dev). exact H.
Qed.

Lemma quad_mode_bus_sequences_witness :
  exists w' tr,
    flash_flexspi_nor_enable_quad_mode w25q128jv 3 (boot (busy_flash 2))
    = Some (0, w', tr)
    /\ bus_ops tr
       = [Cmd WRITE_ENABLE 0 0; Cmd WRITE_STATUS_REG 0 2; poll; poll; poll;
          Cmd READ_STATUS_REG2 0 1; poll; Rst].
Proof.
  destruct (flash_flexspi_nor_enable_quad_mode w25q128jv 3
              (boot (busy_flash 2)))
    as [[[q w'] tr]|] eqn:E; [|vm_compute in E; discriminate E].
  pose proof (@quad_mode_bus_sequences sim sim_platform w25q128jv 3
                (boot (busy_flash 2)) w' q tr E) as Hcases.
  vm_compute in E. injection E as <- <- <-.
  do 2 eexists. split; reflexivity.
Defined.

(** X14. A status write that fails ends the handshake at once: it
    returns [-EIO] with the write enable and the status write as its only
    calls, with no wait, no read of status register 2 and no reset. *)
Theorem quad_status_write_failure
    (S : Type) (plat : Platform S) (dev : flash_flexspi_nor_data)
    (fuel : nat) (w w' : world S) (q : Z) (tr : list call) (ret rd : Z) :
  flash_flexspi_nor_enable_quad_mode dev fuel w = Some (q, w', tr) ->
  transfer_result WRITE_STATUS_REG tr = Some (ret, rd) ->
  ret <> 0 ->
  q = - EIO
  /\ length tr = 2%nat
  /\ bus_ops tr = [Cmd WRITE_ENABLE 0 0; Cmd WRITE_STATUS_REG 0 2].
Proof.
  intros H Hres Hret. apply flash_flexspi_nor_enable_quad_mode_run in H.
  destruct H as (r1 & rd1 & r2 & rd2 & [(_ & -> & ->) | (Hr2 & polls & n & r3 & rd3 & Hp & Hn & Hc)]).
  - repeat split.
  - exfalso.
    assert (E : transfer_result WRITE_STATUS_REG tr = Some (r2, rd2))
      by (destruct Hc as [(_ & _ & ->) | (_ & _ & polls' & m & _ & _ & ->)];
          reflexivity).
    rewrite E in Hres. injection Hres as <- _. contradiction.
Qed.

Lemma quad_status_write_failure_witness :
  exists w' tr,
    flash_flexspi_nor_enable_quad_mode w25q128jv 1 (boot dead_bus)
    = Some (- EIO, w', tr)
    /\ bus_ops tr = [Cmd WRITE_ENABLE 0 0; Cmd WRITE_STATUS_REG 0 2].
Proof.
  destruct (flash_flexspi_nor_enable_quad_mode w25q128jv 1 (boot dead_bus))
    as [[[q w'] tr]|] eqn:E; [|vm_compute in E; discriminate E].
  assert (Hres : transfer_result WRITE_STATUS_REG tr = Some (- EIO, 0))
    by (vm_compute in E; injection E as _ _ <-; reflexivity).
  destruct (@quad_status_write_failure sim sim_platform w25q128jv 1
              (boot dead_bus) w' q tr (- EIO) 0 E Hres ltac:(discriminate))
    as (-> & _ & Hb).
  exists w', tr. split; [reflexivity | exact Hb].
Defined.

(** ** The initialisation *)

Lemma quad_run_forallb (P : call -> bool) (dev : flash_flexspi_nor_data)
    (q : Z) (tr : list call) :
  (forall r rd, P (Transfer (xfer_write_enable dev) r rd) = true) ->
  (forall r rd,
     P (Transfer (xfer_write_status dev [0x00; 0x02] 2) r rd) = true) ->
  (forall r rd, P (Transfer (xfer_read_status2 dev 0) r rd) = true) ->
  (forall c, is_poll c = true -> P c = true) ->
  P Reset = true ->
  quad_run dev q tr -> forallb P tr = true.
Proof.
  intros Hwe Hws Hrs Hpoll Hrst
    (r1 & rd1 & r2 & rd2
     & [(_ & _ & ->) | (_ & polls & n & r3 & rd3 & Hp & _ & Hc)]).
  - cbn [forallb]. rewrite Hwe, Hws. reflexivity.
  - pose proof (forallb_polls_weaken P polls Hpoll Hp) as HP.
    destruct Hc as [(_ & _ & ->) | (_ & _ & polls' & m & Hp' & _ & ->)].
    + cbn [forallb]. rewrite forallb_app. cbn [forallb].
      rewrite Hwe, Hws, HP, Hrs. reflexivity.
    + pose proof (forallb_polls_weaken P polls' Hpoll Hp') as HP'.
      cbn [forallb]. rewrite forallb_app. cbn [forallb].
      rewrite forallb_app. cbn [forallb].
      rewrite Hwe, Hws, HP, Hrs, HP', Hrst. reflexivity.
Qed.

Lemma is_poll_on_bus (c : call) : is_poll c = true -> on_bus c = true.
Proof. destruct c; try discriminate; reflexivity. Qed.

Lemma is_poll_bring_up (c : call) : is_poll c = true -> bring_up_call c = true.
Proof.
  intros H. apply is_poll_seq in H. destruct H as (t & r & rd & -> & Hq).
  unfold bring_up_call. rewrite Hq. reflexivity.
Qed.

(** The device configuration comes right after the optional wait, and
    only transfers and resets follow it. *)
Lemma init_run_shape (dev : flash_flexspi_nor_data) (r : Z)
    (idle tr : list call) :
  init_run dev r idle tr ->
  exists c rest,
    tr = idle ++ SetDeviceConfig c :: rest
    /\ forallb on_bus rest = true
    /\ (c <> 0 -> r = - EINVAL /\ rest = []).
Proof.
  intros (c & [(Hc & -> & ->) | (-> & polls & n & ret & rd & Hp & _ & H)]).
  - exists c, []. split; [reflexivity|]. split; [reflexivity|]. auto.
  - pose proof (forallb_polls_weaken on_bus polls is_poll_on_bus Hp) as HP.
    destruct H as [(_ & _ & ->)
                  | (_ & q & qtr & post & Hq & -> & Hpost)].
    + exists 0, (polls ++ [Reset; Transfer (xfer_read_id dev) ret rd]).
      split; [reflexivity|]. split; [|intros Hc; contradiction Hc; reflexivity].
      rewrite forallb_app, HP. reflexivity.
    + exists 0, (polls ++ Reset :: Transfer (xfer_read_id dev) ret rd
                   :: qtr ++ post).
      split; [reflexivity|]. split; [|intros Hc; contradiction Hc; reflexivity].
      rewrite forallb_app, HP. cbn [forallb andb on_bus].
      rewrite forallb_app.
      rewrite (@quad_run_forallb on_bus dev q qtr) by
        (try exact Hq; try exact is_poll_on_bus; reflexivity).
      destruct Hpost as [(_ & _ & ->) | (_ & _ & polls' & m & Hp' & _ & ->)];
        [reflexivity|].
      rewrite forallb_app,
        (forallb_polls_weaken on_bus polls' is_poll_on_bus Hp').
      reflexivity.
Qed.

Lemma init_run_bring_up (dev : flash_flexspi_nor_data) (r : Z)
    (idle tr : list call) :
  forallb is_idle_wait idle = true ->
  init_run dev r idle tr ->
  forallb bring_up_call tr = true
  /\ (r = 0 \/ r = - EINVAL \/ r = - EIO).
Proof.
  intros Hidle.
  assert (HI : forallb bring_up_call idle = true).
  { apply forallb_weaken with (P := is_idle_wait); [|exact Hidle].
    intros c Hc. destruct c; try discriminate Hc. reflexivity. }
  intros (c & [(Hc & -> & ->) | (-> & polls & n & ret & rd & Hp & _ & H)]).
  - split; [|auto]. rewrite forallb_app, HI. reflexivity.
  - pose proof (forallb_polls_weaken bring_up_call polls is_poll_bring_up Hp)
      as HP.
    destruct H as [(_ & -> & ->)
                  | (_ & q & qtr & post & Hq & -> & Hpost)].
    + split; [|auto]. rewrite forallb_app, HI. cbn [forallb].
      rewrite forallb_app, HP. reflexivity.
    + assert (HQ : forallb bring_up_call qtr = true)
        by (apply (@quad_run_forallb bring_up_call dev q qtr);
            try exact Hq; try exact is_poll_bring_up; reflexivity).
      destruct Hpost as [(_ & -> & ->) | (_ & -> & polls' & m & Hp' & _ & ->)].
      * split; [|auto]. rewrite forallb_app, HI. cbn [forallb].
        rewrite forallb_app, HP. cbn [forallb]. rewrite forallb_app, HQ.
        reflexivity.
      * split; [|auto]. rewrite forallb_app, HI. cbn [forallb].
        rewrite forallb_app, HP. cbn [forallb]. rewrite forallb_app, HQ.
        rewrite forallb_app,
          (forallb_polls_weaken bring_up_call polls' is_poll_bring_up Hp').
        reflexivity.
Qed.

Lemma bring_up_no_data (tr : list call) :
  forallb bring_up_call tr = true ->
  erase_cmds tr = [] /\ program_cmds tr = [] /\ existsb off_bus tr = false.
Proof.
  induction tr as [|c tr IH]; intros H; [auto|].
  cbn [forallb] in H. apply andb_prop in H. destruct H as [Hc Ht].
  destruct (IH Ht) as (He & Hp & Ho).
  destruct c as [t r rd| | | | | |]; try discriminate Hc;
    cbn [erase_cmds program_cmds existsb off_bus orb]; auto.
  unfold bring_up_call in Hc.
  destruct (seqIndex t); try discriminate Hc; auto.
Qed.

(** Where the handshake reads status register 2, and what follows from
    the value the read leaves. *)
Lemma quad_run_probe (dev : flash_flexspi_nor_data) (q : Z)
    (qtr rest : list call) :
  quad_run dev q qtr ->
  (q = 0
   /\ exists r3,
        transfer_result READ_STATUS_REG2 (qtr ++ rest) = Some (r3, 0x02))
  \/ (q = - EIO
      /\ (transfer_result READ_STATUS_REG2 (qtr ++ rest)
          = transfer_result READ_STATUS_REG2 rest
          \/ exists r3 rd3,
               rd3 <> 0x02
               /\ transfer_result READ_STATUS_REG2 (qtr ++ rest)
                  = Some (r3, rd3))).
Proof.
  intros (r1 & rd1 & r2 & rd2
          & [(_ & -> & ->) | (_ & polls & n & r3 & rd3 & Hp & _ & Hc)]).
  - right. split; [reflexivity|]. left. reflexivity.
  - assert (E : forall tl,
               transfer_result READ_STATUS_REG2
                 ((Transfer (xfer_write_enable dev) r1 rd1
                   :: Transfer (xfer_write_status dev [0x00; 0x02] 2) r2 rd2
                   :: polls
                   ++ Transfer (xfer_read_status2 dev 0) r3 rd3 :: tl)
                  ++ rest)
               = Some (r3, rd3)).
    { intros tl. cbn [app transfer_result xfer_write_enable xfer_write_status
                        seqIndex lut_seq_eqb lut_index Nat.eqb].
      rewrite <- app_assoc.
      rewrite transfer_result_polls by (discriminate || exact Hp).
      reflexivity. }
    destruct Hc as [(Hrd & -> & ->) | (-> & -> & polls' & m & _ & _ & ->)].
    + right. split; [reflexivity|]. right. exists r3, rd3.
      split; [exact Hrd|]. apply E.
    + left. split; [reflexivity|]. exists r3. apply E.
Qed.

(** X15. The two ways the initialisation ends before anything goes on
    the bus.  On a controller that is not ready it returns [-ENODEV]
    without a single call and leaves the state as it was.  When the
    controller refuses the device configuration it returns [-EINVAL] and
    no transfer and no reset has been made. *)
Theorem init_stops_before_the_bus
    (S : Type) (plat : Platform S) (dev : flash_flexspi_nor_data)
    (fuel : nat) (w w' : world S) (r : Z) (tr : list call) :
  flash_flexspi_nor_init dev fuel w = Some (r, w', tr) ->
  (device_is_ready (hw w) = false -> r = - ENODEV /\ tr = [] /\ w' = w)
  /\ (forall c, config_result tr = Some c -> c <> 0 ->
        r = - EINVAL /\ bus_ops tr = []).
Proof.
  intros H. apply flash_flexspi_nor_init_run in H.
  destruct H as [(Hready & -> & -> & ->) | (Hready & idle & _ & Hidle & Hrun)].
  - split; [auto|]. intros c Hc. discriminate Hc.
  - split; [intros Hn; rewrite Hready in Hn; discriminate Hn|].
    intros c Hc Hne. apply init_run_shape in Hrun.
    destruct Hrun as (c0 & rest & -> & _ & Hrej).
    rewrite config_result_idle in Hc by exact Hidle.
    cbn [config_result] in Hc. injection Hc as ->.
    destruct (Hrej Hne) as (-> & ->). split; [reflexivity|].
    rewrite bus_ops_app, bus_ops_idle by exact Hidle. reflexivity.
Qed.

Lemma init_stops_before_the_bus_witness :
  exists w',
    @flash_flexspi_nor_init nat (board true 5 true) w25q128jv 1 (boot_nat 0)
    = Some (- EINVAL, w', [WaitBusIdle; SetDeviceConfig 5]).
Proof.
  destruct (@flash_flexspi_nor_init nat (board true 5 true) w25q128jv 1
              (boot_nat 0))
    as [[[r w'] tr]|] eqn:E; [|vm_compute in E; discriminate E].
  assert (Htr : tr = [WaitBusIdle; SetDeviceConfig 5])
    by (vm_compute in E; injection E as _ _ <-; reflexivity).
  destruct (proj2 (@init_stops_before_the_bus nat (board true 5 true)
                     w25q128jv 1 (boot_nat 0) w' r tr E) 5)
    as (-> & _); [rewrite Htr; reflexivity | discriminate |].
  exists w'. rewrite Htr. reflexivity.
Defined.

(** X16. When the read of the identifier fails, the initialisation
    returns [-EIO] right after it: the bus has seen the status reads of
    one wait, a reset and the identifier read, and the quad-mode handshake
    has not been started. *)
Theorem init_identifier_unreadable
    (S : Type) (plat : Platform S) (dev : flash_flexspi_nor_data)
    (fuel : nat) (w w' : world S) (r : Z) (tr : list call) (ret rd : Z) :
  flash_flexspi_nor_init dev fuel w = Some (r, w', tr) ->
  transfer_result READ_ID tr = Some (ret, rd) ->
  ret <> 0 ->
  r = - EIO
  /\ (exists tr0, tr = tr0 ++ [Transfer (xfer_read_id dev) ret rd])
  /\ exists n, bus_ops tr = repeat poll (Datatypes.S n) ++ [Rst; Cmd READ_ID 0 1].
Proof.
  intros H Hres Hret. apply flash_flexspi_nor_init_run in H.
  destruct H as [(_ & _ & -> & _) | (_ & idle & _ & Hidle & Hrun)];
    [discriminate Hres|].
  destruct Hrun as (c & [(_ & _ & ->)
                        | (-> & polls & n & ret' & rd' & Hp & Hn & Hc)]).
  - rewrite transfer_result_idle in Hres by exact Hidle. discriminate Hres.
  - assert (E : forall tl,
               transfer_result READ_ID
                 (idle ++ SetDeviceConfig 0 :: polls
                  ++ Reset :: Transfer (xfer_read_id dev) ret' rd' :: tl)
               = Some (ret', rd')).
    { intros tl. rewrite transfer_result_idle by exact Hidle.
      cbn [transfer_result].
      rewrite transfer_result_polls by (discriminate || exact Hp).
      reflexivity. }
    destruct Hc as [(_ & -> & ->) | (-> & q & qtr & post & _ & -> & _)].
    + rewrite E in Hres. injection Hres as <- <-.
      split; [reflexivity|]. split.
      * exists (idle ++ SetDeviceConfig 0 :: polls ++ [Reset]).
        rewrite <- !app_assoc. cbn [app]. rewrite <- !app_assoc. reflexivity.
      * exists n. rewrite bus_ops_app, bus_ops_idle by exact Hidle.
        cbn [app bus_ops bus_op_of]. rewrite bus_ops_app, Hn. reflexivity.
    + rewrite E in Hres. injection Hres as <- _. contradiction Hret.
      reflexivity.
Qed.

Lemma init_identifier_unreadable_witness :
  exists w' tr,
    flash_flexspi_nor_init w25q128jv 1 (boot dead_bus) = Some (- EIO, w', tr)
    /\ bus_ops tr = [poll; Rst; Cmd READ_ID 0 1].
Proof.
  destruct (flash_flexspi_nor_init w25q128jv 1 (boot dead_bus))
    as [[[r w'] tr]|] eqn:E; [|vm_compute in E; discriminate E].
  assert (Hres : transfer_result READ_ID tr = Some (- EIO, 0))
    by (vm_compute in E; injection E as _ _ <-; reflexivity).
  destruct (@init_identifier_unreadable sim sim_platform w25q128jv 1
              (boot dead_bus) w' r tr (- EIO) 0 E Hres ltac:(discriminate))
    as (-> & _ & _).
  exists w', tr. split; [reflexivity|].
  vm_compute in E. injection E as _ <-. reflexivity.
Defined.

(** X17. An initialisation that returns 0 has put exactly this on the
    bus: the status reads of a wait, a reset, the identifier read, the
    write enable, the two-byte status write, the status reads of a wait,
    the read of status register 2, the status reads of a wait, a reset,
    the status reads of a last wait and a last reset. *)
Theorem init_success_sequence
    (S : Type) (plat : Platform S) (dev : flash_flexspi_nor_data)
    (fuel : nat) (w w' : world S) (tr : list call) :
  flash_flexspi_nor_init dev fuel w = Some (0, w', tr) ->
  exists n1 n2 n3 n4,
    bus_ops tr
    = repeat poll (Datatypes.S n1)
      ++ [Rst; Cmd READ_ID 0 1; Cmd WRITE_ENABLE 0 0; Cmd WRITE_STATUS_REG 0 2]
      ++ repeat poll (Datatypes.S n2) ++ [Cmd READ_STATUS_REG2 0 1]
      ++ repeat poll (Datatypes.S n3) ++ [Rst]
      ++ repeat poll (Datatypes.S n4) ++ [Rst].
Proof.
  intros H. apply flash_flexspi_nor_init_run in H.
  destruct H as [(_ & Hr & _) | (_ & idle & _ & Hidle & Hrun)];
    [discriminate Hr|].
  destruct Hrun as (c & [(_ & Hr & _)
                        | (-> & polls & n1 & ret & rd & Hp & Hn1 & Hc)]);
    [discriminate Hr|].
  destruct Hc as [(_ & Hr & _) | (-> & q & qtr & post & Hq & -> & Hpost)];
    [discriminate Hr|].
  destruct Hpost as [(_ & Hr & _) | (-> & _ & polls' & n4 & Hp' & Hn4 & ->)];
    [discriminate Hr|].
  apply quad_run_bus_ops in Hq.
  destruct Hq as [(Hq & _) | (_ & n2 & n3 & Hq)]; [discriminate Hq|].
  exists n1, n2, n3, n4.
  rewrite bus_ops_app, bus_ops_idle by exact Hidle.
  cbn [app bus_ops bus_op_of]. rewrite bus_ops_app, Hn1.
  cbn [bus_ops bus_op_of]. rewrite bus_ops_app, Hq.
  rewrite bus_ops_app, Hn4. cbn [bus_ops bus_op_of xfer_read_id seqIndex
                                   deviceAddress dataSize].
  rewrite <- ?app_assoc. cbn [app]. rewrite <- ?app_assoc. reflexivity.
Qed.

Lemma init_success_sequence_witness :
  exists w' tr,
    flash_flexspi_nor_init w25q128jv 2 (boot (busy_flash 1)) = Some (0, w', tr)
    /\ bus_ops tr
       = [poll; poll; Rst; Cmd READ_ID 0 1; Cmd WRITE_ENABLE 0 0;
          Cmd WRITE_STATUS_REG 0 2; poll; Cmd READ_STATUS_REG2 0 1; poll; Rst;
          poll; Rst].
Proof.
  destruct (flash_flexspi_nor_init w25q128jv 2 (boot (busy_flash 1)))
    as [[[r w'] tr]|] eqn:E; [|vm_compute in E; discriminate E].
  assert (Hr : r = 0) by (vm_compute in E; injection E as <- _ _; reflexivity).
  subst r.
  pose proof (@init_success_sequence sim sim_platform w25q128jv 2
                (boot (busy_flash 1)) w' tr E) as Hseq.
  exists w', tr. split; [reflexivity|].
  vm_compute in E. injection E as _ <-. reflexivity.
Defined.

(** X18. Whatever happens, the initialisation returns 0, [-ENODEV],
    [-EINVAL] or [-EIO], and its calls are status reads, the identifier
    read, the write enable, the status write, the read of status
    register 2, resets, the wait for the idle bus and the device
    configuration: it never erases, never programs, never takes the
    interrupt lock and never invalidates the cache. *)
Theorem init_calls_and_codes
    (S : Type) (plat : Platform S) (dev : flash_flexspi_nor_data)
    (fuel : nat) (w w' : world S) (r : Z) (tr : list call) :
  flash_flexspi_nor_init dev fuel w = Some (r, w', tr) ->
  (r = 0 \/ r = - ENODEV \/ r = - EINVAL \/ r = - EIO)
  /\ forallb bring_up_call tr = true
  /\ erase_cmds tr = [] /\ program_cmds tr = []
  /\ existsb off_bus tr = false.
Proof.
  intros H. apply flash_flexspi_nor_init_run in H.
  destruct H as [(_ & -> & -> & _) | (_ & idle & _ & Hidle & Hrun)].
  - repeat split; auto.
  - destruct (init_run_bring_up Hidle Hrun) as (Hall & Hr).
    split; [tauto|]. split; [exact Hall|]. apply bring_up_no_data. exact Hall.
Qed.

Lemma init_calls_and_codes_witness :
  exists w' tr,
    flash_flexspi_nor_init w25q128jv 1 (boot no_quad_flash)
    = Some (- EIO, w', tr)
    /\ erase_cmds tr = [] /\ program_cmds tr = [].
Proof.
  destruct (flash_flexspi_nor_init w25q128jv 1 (boot no_quad_flash))
    as [[[r w'] tr]|] eqn:E; [|vm_compute in E; discriminate E].
  destruct (@init_calls_and_codes sim sim_platform w25q128jv 1
              (boot no_quad_flash) w' r tr E) as (_ & _ & He & Hp & _).
  assert (Hr : r = - EIO)
    by (vm_compute in E; injection E as <- _ _; reflexivity).
  subst r. exists w', tr. auto.
Defined.

(** X19. The initialisation returns 0 exactly when the read of status
    register 2 was made and left the value 0x02.  Neither the code that
    read returned nor the identifier the device reported plays a part. *)
Theorem init_succeeds_iff_quad_bit_read
    (S : Type) (plat : Platform S) (dev : flash_flexspi_nor_data)
    (fuel : nat) (w w' : world S) (r : Z) (tr : list call) :
  flash_flexspi_nor_init dev fuel w = Some (r, w', tr) ->
  r = 0 <-> exists ret, transfer_result READ_STATUS_REG2 tr = Some (ret, 0x02).
Proof.
  intros H. apply flash_flexspi_nor_init_run in H.
  destruct H as [(_ & -> & -> & _) | (_ & idle & _ & Hidle & Hrun)].
  { split; [discriminate | intros (ret & Hx); discriminate Hx]. }
  destruct Hrun as (c & [(_ & -> & ->)
                        | (-> & polls & n & ret & rd & Hp & _ & Hc)]).
  { split; [discriminate|]. intros (ret & Hx).
    rewrite transfer_result_idle in Hx by exact Hidle. discriminate Hx. }
  assert (E : forall tl,
             transfer_result READ_STATUS_REG2
               (idle ++ SetDeviceConfig 0 :: polls
                ++ Reset :: Transfer (xfer_read_id dev) ret rd :: tl)
             = transfer_result READ_STATUS_REG2 tl).
  { intros tl. rewrite transfer_result_idle by exact Hidle.
    cbn [transfer_result].
    rewrite transfer_result_polls by (discriminate || exact Hp).
    reflexivity. }
  destruct Hc as [(_ & -> & ->) | (_ & q & qtr & post & Hq & -> & Hpost)].
  { split; [discriminate|]. intros (ret0 & Hx).
    rewrite (E []) in Hx. discriminate Hx. }
  rewrite E.
  destruct (quad_run_probe post Hq)
    as [(-> & r3 & Hx) | (-> & [Hx | (r3 & rd3 & Hrd & Hx)])].
  - destruct Hpost as [(Hne & _) | (_ & -> & _)];
      [contradiction Hne; reflexivity|].
    split; [intros _; exists r3; exact Hx | reflexivity].
  - destruct Hpost as [(_ & -> & ->) | (Hq0 & _)]; [|discriminate Hq0].
    split; [discriminate|]. intros (ret0 & Hy).
    rewrite Hx in Hy. discriminate Hy.
  - destruct Hpost as [(_ & -> & ->) | (Hq0 & _)]; [|discriminate Hq0].
    split; [discriminate|]. intros (ret0 & Hy).
    rewrite Hx in Hy. injection Hy as _ Hy. contradiction.
Qed.

Lemma init_succeeds_iff_quad_bit_read_witness :
  exists w' tr,
    flash_flexspi_nor_init w25q128jv 1 (boot idle_flash) = Some (0, w', tr)
    /\ transfer_result READ_STATUS_REG2 tr = Some (0, 0x02).
Proof.
  destruct (flash_flexspi_nor_init w25q128jv 1 (boot idle_flash))
    as [[[r w'] tr]|] eqn:E; [|vm_compute in E; discriminate E].
  assert (Hres : transfer_result READ_STATUS_REG2 tr = Some (0, 0x02))
    by (vm_compute in E; injection E as _ _ <-; reflexivity).
  pose proof (proj2 (@init_succeeds_iff_quad_bit_read sim sim_platform
                       w25q128jv 1 (boot idle_flash) w' r tr E)
                (ex_intro _ 0 Hres)) as Hr.
  subst r. exists w', tr. split; [reflexivity | exact Hres].
Defined.

(** X20. On a ready controller the device configuration is the first
    thing the initialisation does, preceded only by the wait for the idle
    bus, which is made exactly when code executes in place from the
    flash; every call after the configuration is a transfer or a reset. *)
Theorem init_configures_first
    (S : Type) (plat : Platform S) (dev : flash_flexspi_nor_data)
    (fuel : nat) (w w' : world S) (r : Z) (tr : list call) :
  flash_flexspi_nor_init dev fuel w = Some (r, w', tr) ->
  device_is_ready (hw w) = true ->
  exists c rest,
    tr = (if memc_flexspi_is_running_xip (hw w) then [WaitBusIdle] else [])
         ++ SetDeviceConfig c :: rest
    /\ forallb on_bus rest = true.
Proof.
  intros H Hready. apply flash_flexspi_nor_init_run in H.
  destruct H as [(Hn & _) | (_ & idle & Hxip & _ & Hrun)];
    [rewrite Hready in Hn; discriminate Hn|].
  apply init_run_shape in Hrun. destruct Hrun as (c & rest & -> & Hrest & _).
  exists c, rest. rewrite Hxip. split; [reflexivity | exact Hrest].
Qed.

Lemma init_configures_first_witness :
  exists w' r rest,
    @flash_flexspi_nor_init nat (board true 0 true) w25q128jv 2 (boot_nat 1)
    = Some (r, w', WaitBusIdle :: SetDeviceConfig 0 :: rest)
    /\ forallb on_bus rest = true.
Proof.
  destruct (@flash_flexspi_nor_init nat (board true 0 true) w25q128jv 2
              (boot_nat 1))
    as [[[r w'] tr]|] eqn:E; [|vm_compute in E; discriminate E].
  destruct (@init_configures_first nat (board true 0 true) w25q128jv 2
              (boot_nat 1) w' r tr E eq_refl)
    as (c & rest & -> & Hrest).
  assert (Hc : c = 0) by (vm_compute in E; injection E as _ _ <- _; reflexivity).
  subst c. exists w', r, rest. split; [reflexivity | exact Hrest].
Defined.

(** * More of the driver: writes in pieces *)

(** The chunks do not depend on the bound once it covers the bytes. *)
Lemma spec_page_chunks_fuel (P : Z) (n : nat) : forall m a len,
  0 < P -> (Z.to_nat len <= n)%nat -> (Z.to_nat len <= m)%nat ->
  spec_page_chunks n P a len = spec_page_chunks m P a len.
Proof.
  induction n as [|n IH]; intros m a len HP Hn Hm.
  - assert (E : (len <=? 0) = true) by (apply Z.leb_le; lia).
    destruct m; cbn [spec_page_chunks]; rewrite ?E; reflexivity.
  - destruct (len <=? 0) eqn:E.
    + destruct m; cbn [spec_page_chunks]; rewrite E; reflexivity.
    + apply Z.leb_gt in E. destruct m as [|m]; [lia|].
      cbn [spec_page_chunks].
      assert (E' : (len <=? 0) = false) by (apply Z.leb_gt; exact E).
      rewrite E'. cbv zeta.
      pose proof (Z.mod_pos_bound a P HP) as Hr.
      f_equal. apply IH; lia.
Qed.

(** Chunks up to a page boundary, then chunks from it. *)
Lemma spec_page_chunks_split (P l2 : Z) (n2 : nat) (n1 : nat) :
  forall n a l1,
  0 < P -> 0 <= l1 -> 0 <= l2 -> (a + l1) mod P = 0 ->
  (Z.to_nat l1 <= n1)%nat -> (Z.to_nat l2 <= n2)%nat ->
  (Z.to_nat (l1 + l2) <= n)%nat ->
  spec_page_chunks n P a (l1 + l2)
  = spec_page_chunks n1 P a l1 ++ spec_page_chunks n2 P (a + l1) l2.
Proof.
  induction n1 as [|n1 IH]; intros n a l1 HP Hl1 Hl2 Hal Hn1 Hn2 Hn.
  - assert (l1 = 0) by lia. subst l1.
    rewrite Z.add_0_r, Z.add_0_l. cbn [spec_page_chunks Z.leb Z.compare app].
    apply spec_page_chunks_fuel; assumption.
  - destruct (Z.eq_dec l1 0) as [->|Hne].
    + rewrite Z.add_0_r, Z.add_0_l. cbn [spec_page_chunks Z.leb Z.compare app].
      apply spec_page_chunks_fuel; assumption.
    + destruct n as [|n]; [lia|].
      cbn [spec_page_chunks].
      assert (E1 : (l1 <=? 0) = false) by (apply Z.leb_gt; lia).
      assert (E : (l1 + l2 <=? 0) = false) by (apply Z.leb_gt; lia).
      rewrite E1, E. cbv zeta.
      pose proof (Z.mod_pos_bound a P HP) as Hr.
      assert (Hc : P - a mod P <= l1).
      { pose proof (Z.div_mod a P ltac:(lia)) as Ha.
        pose proof (Z.div_mod (a + l1) P ltac:(lia)) as Hs.
        rewrite Hal in Hs.
        assert (a / P < (a + l1) / P) by nia. nia. }
      rewrite !Z.min_l by lia. cbn [app]. f_equal.
      replace (l1 + l2 - (P - a mod P)) with ((l1 - (P - a mod P)) + l2) by lia.
      rewrite (IH n (a + (P - a mod P)) (l1 - (P - a mod P))); try lia.
      * replace (a + (P - a mod P) + (l1 - (P - a mod P))) with (a + l1) by lia.
        reflexivity.
      * replace (a + (P - a mod P) + (l1 - (P - a mod P))) with (a + l1) by lia.
        exact Hal.
Qed.

Section Pieces.

Context {S : Type} {plat : Platform S}.
Variable bc : build_config.
Variable dev : flash_flexspi_nor_data.

Lemma flash_flexspi_nor_write_chunks fuel offset buffer len
    (w w' : world S) r tr :
  0 < SPI_NOR_PAGE_SIZE bc -> 0 <= len < 2 ^ 32 ->
  0 <= offset -> offset + len <= 2 ^ 32 ->
  flash_flexspi_nor_write bc dev fuel offset buffer len w = Some (r, w', tr) ->
  program_cmds tr
  = spec_page_chunks (Z.to_nat len) (SPI_NOR_PAGE_SIZE bc) offset len.
Proof.
  intros HP Hl Ho Hend H. apply flash_flexspi_nor_write_inv in H.
  destruct H as (_ & pre & loop & post & w1 & w2 & -> & Hpre & Hpost & Hloop).
  rewrite !program_cmds_app.
  rewrite (program_cmds_off_bus pre Hpre), (program_cmds_off_bus post Hpost).
  rewrite app_nil_r. cbn [app].
  eapply write_loop_program_cmds;
    [exact HP | exact Hl | exact Ho | exact Hend | | apply Nat.le_refl
     | exact Hloop].
  intros Hne. apply u32_id. lia.
Qed.

Lemma flash_flexspi_nor_write_bytes fuel offset buffer len
    (w w' : world S) r tr :
  0 < SPI_NOR_PAGE_SIZE bc < 2 ^ 31 -> 0 <= len < 2 ^ 32 ->
  (Z.to_nat len <= length buffer)%nat ->
  flash_flexspi_nor_write bc dev fuel offset buffer len w = Some (r, w', tr) ->
  programmed_bytes tr = firstn (Z.to_nat len) buffer.
Proof.
  intros HP Hl Hb H. apply flash_flexspi_nor_write_inv in H.
  destruct H as (_ & pre & loop & post & w1 & w2 & -> & Hpre & Hpost & Hloop).
  rewrite !programmed_bytes_app.
  rewrite (programmed_bytes_off_bus pre Hpre).
  rewrite (programmed_bytes_off_bus post Hpost), app_nil_r. cbn [app].
  eapply write_loop_bytes; eassumption.
Qed.

End Pieces.

(** X21. Splitting a write at a page boundary changes nothing on the
    flash: a write of [len1 + len2] bytes whose first [len1] bytes end on a
    page boundary makes the page programs of a write of the first [len1]
    bytes followed by those of a write of the remaining [len2] bytes at
    [offset + len1], and sends the same bytes, whatever state each of the
    three writes starts in. *)
Theorem write_split_at_page_boundary
    (S : Type) (plat : Platform S) (bc : build_config)
    (dev : flash_flexspi_nor_data) (fuel : nat) (offset len1 len2 : Z)
    (buffer : list byte) (w wa wb w' wa' wb' : world S) (r ra rb : Z)
    (tr tra trb : list call) :
  0 < SPI_NOR_PAGE_SIZE bc < 2 ^ 31 ->
  0 <= offset -> 0 <= len1 -> 0 <= len2 ->
  len1 + len2 < 2 ^ 32 -> offset + len1 + len2 <= 2 ^ 32 ->
  (offset + len1) mod SPI_NOR_PAGE_SIZE bc = 0 ->
  (Z.to_nat (len1 + len2) <= length buffer)%nat ->
  flash_flexspi_nor_write bc dev fuel offset buffer (len1 + len2) w
  = Some (r, w', tr) ->
  flash_flexspi_nor_write bc dev fuel offset buffer len1 wa
  = Some (ra, wa', tra) ->
  flash_flexspi_nor_write bc dev fuel (offset + len1)
    (skipn (Z.to_nat len1) buffer) len2 wb
  = Some (rb, wb', trb) ->
  program_cmds tr = program_cmds tra ++ program_cmds trb
  /\ programmed_bytes tr = programmed_bytes tra ++ programmed_bytes trb.
Proof.
  intros HP Ho Hl1 Hl2 Hl Hend Hal Hb H Ha Hb'. split.
  - rewrite (@flash_flexspi_nor_write_chunks S plat bc dev fuel offset buffer
               (len1 + len2) w w' r tr); [|lia|lia|lia|lia|exact H].
    rewrite (@flash_flexspi_nor_write_chunks S plat bc dev fuel offset buffer
               len1 wa wa' ra tra); [|lia|lia|lia|lia|exact Ha].
    rewrite (@flash_flexspi_nor_write_chunks S plat bc dev fuel
               (offset + len1) (skipn (Z.to_nat len1) buffer) len2 wb wb' rb
               trb); [|lia|lia|lia|lia|exact Hb'].
    apply spec_page_chunks_split; lia.
  - rewrite (@flash_flexspi_nor_write_bytes S plat bc dev fuel offset buffer
               (len1 + len2) w w' r tr); [|exact HP|lia|exact Hb|exact H].
    rewrite (@flash_flexspi_nor_write_bytes S plat bc dev fuel offset buffer
               len1 wa wa' ra tra); [|exact HP|lia|lia|exact Ha].
    rewrite (@flash_flexspi_nor_write_bytes S plat bc dev fuel
               (offset + len1) (skipn (Z.to_nat len1) buffer) len2 wb wb' rb
               trb);
      [|exact HP|lia|rewrite length_skipn; lia|exact Hb'].
    rewrite firstn_add_skipn, Z2Nat.inj_add by lia. reflexivity.
Qed.

Lemma write_split_at_page_boundary_witness :
  exists w' tr wa' tra wb' trb,
    flash_flexspi_nor_write w25q128jv_h w25q128jv 1 0xfe
      [x01; x02; x03; x04; x05] 5 (boot idle_flash) = Some (0, w', tr)
    /\ flash_flexspi_nor_write w25q128jv_h w25q128jv 1 0xfe
         [x01; x02; x03; x04; x05] 2 (boot idle_flash) = Some (0, wa', tra)
    /\ flash_flexspi_nor_write w25q128jv_h w25q128jv 1 0x100
         [x03; x04; x05] 3 wa' = Some (0, wb', trb)
    /\ program_cmds tr = program_cmds tra ++ program_cmds trb
    /\ programmed_bytes tr = programmed_bytes tra ++ programmed_bytes trb.
Proof.
  destruct (flash_flexspi_nor_write w25q128jv_h w25q128jv 1 0xfe
              [x01; x02; x03; x04; x05] 5 (boot idle_flash))
    as [[[r w'] tr]|] eqn:E; [|vm_compute in E; discriminate E].
  destruct (flash_flexspi_nor_write w25q128jv_h w25q128jv 1 0xfe
              [x01; x02; x03; x04; x05] 2 (boot idle_flash))
    as [[[ra wa'] tra]|] eqn:Ea; [|vm_compute in Ea; discriminate Ea].
  destruct (flash_flexspi_nor_write w25q128jv_h w25q128jv 1 0x100
              [x03; x04; x05] 3 wa')
    as [[[rb wb'] trb]|] eqn:Eb.
  2:{ vm_compute in Ea. injection Ea as _ <- _. vm_compute in Eb.
      discriminate Eb. }
  assert (HP : 0 < SPI_NOR_PAGE_SIZE w25q128jv_h < 2 ^ 31)
    by (split; reflexivity).
  destruct (@write_split_at_page_boundary sim sim_platform w25q128jv_h
              w25q128jv 1 0xfe 2 3 [x01; x02; x03; x04; x05]
              (boot idle_flash) (boot idle_flash) wa' w' wa' wb' r ra rb
              tr tra trb HP ltac:(discriminate) ltac:(discriminate)
              ltac:(discriminate) ltac:(reflexivity) ltac:(discriminate)
              ltac:(reflexivity) (Nat.le_refl 5) E Ea Eb)
    as (Hp & Hbytes).
  assert (Hr : r = 0) by (apply flash_flexspi_nor_write_inv in E; tauto).
  assert (Hra : ra = 0) by (apply flash_flexspi_nor_write_inv in Ea; tauto).
  assert (Hrb : rb = 0) by (apply flash_flexspi_nor_write_inv in Eb; tauto).
  subst r ra rb. exists w', tr, wa', tra, wb', trb. auto.
Defined.

(** * More of the driver: write enable before every change *)

Lemma enabled_before_quiet (l rest : list call) : forall armed,
  forallb quiet l = true ->
  enabled_before armed (l ++ rest)
  = enabled_before (match l with [] => armed | _ => false end) rest.
Proof.
  induction l as [|c l IH]; intros armed H; [reflexivity|].
  cbn [forallb] in H. apply andb_prop in H. destruct H as [Hc Hl].
  unfold quiet in Hc. apply andb_prop in Hc. destruct Hc as [Hm Hw].
  apply negb_true_iff in Hw. cbn [app enabled_before].
  rewrite Hm, Hw, orb_true_r, (IH false Hl). cbn [andb].
  destruct l; reflexivity.
Qed.

Lemma is_poll_quiet (c : call) : is_poll c = true -> quiet c = true.
Proof.
  intros H. apply is_poll_seq in H. destruct H as (t & r & rd & -> & Hq).
  unfold quiet, is_mutating, is_write_enable. rewrite Hq. reflexivity.
Qed.

Lemma off_bus_quiet (c : call) : off_bus c = true -> quiet c = true.
Proof. destruct c; try discriminate; reflexivity. Qed.

Lemma is_idle_wait_quiet (c : call) : is_idle_wait c = true -> quiet c = true.
Proof. destruct c; try discriminate; reflexivity. Qed.

(** Status reads and a reset leave nothing armed. *)
Lemma enabled_before_settle (polls rest : list call) (armed : bool) :
  forallb is_poll polls = true ->
  enabled_before armed (polls ++ Reset :: rest) = enabled_before false rest.
Proof.
  intros Hp.
  change (polls ++ Reset :: rest) with (polls ++ [Reset] ++ rest).
  rewrite app_assoc, enabled_before_quiet.
  - destruct polls; reflexivity.
  - rewrite forallb_app, (forallb_polls_weaken quiet polls is_poll_quiet Hp).
    reflexivity.
Qed.

Lemma turns_enabled (q : lut_seq) (tr post : list call) :
  turns q tr ->
  enabled_before false (tr ++ post) = enabled_before false post.
Proof.
  intros H. induction H as [|we r1 rd1 t body rest Hwe Ht Hs _ IH];
    [reflexivity|].
  destruct Hs as (r & rd & polls & n & -> & Hp & _).
  cbn [app enabled_before]. unfold is_mutating at 1, is_write_enable at 1.
  rewrite Hwe. cbn [lut_seq_eqb lut_index Nat.eqb negb orb andb].
  rewrite <- app_assoc. cbn [app].
  rewrite enabled_before_settle by exact Hp. exact IH.
Qed.

Lemma enabled_before_off_bus (l : list call) :
  forallb off_bus l = true -> enabled_before false l = true.
Proof.
  intros H. rewrite <- (app_nil_r l), enabled_before_quiet.
  - destruct l; reflexivity.
  - apply forallb_weaken with (P := off_bus); [exact off_bus_quiet | exact H].
Qed.

(** A loop of turns between calls that do not touch the bus. *)
Lemma framed_turns_enabled (q : lut_seq) (pre loop post : list call) :
  forallb off_bus pre = true -> forallb off_bus post = true ->
  turns q loop ->
  write_enabled_each (pre ++ loop ++ post) = true.
Proof.
  intros Hpre Hpost Hl. unfold write_enabled_each.
  rewrite enabled_before_quiet
    by (apply forallb_weaken with (P := off_bus);
        [exact off_bus_quiet | exact Hpre]).
  replace (match pre with [] => false | _ => false end) with false
    by (destruct pre; reflexivity).
  rewrite (turns_enabled post Hl). apply enabled_before_off_bus. exact Hpost.
Qed.

(** X22. Every page program of a write comes directly after a write
    enable: no other call of the driver stands between the two. *)
Theorem write_enables_each_program
    (S : Type) (plat : Platform S) (bc : build_config)
    (dev : flash_flexspi_nor_data) (fuel : nat) (offset : Z)
    (buffer : list byte) (len : Z) (w w' : world S) (r : Z)
    (tr : list call) :
  flash_flexspi_nor_write bc dev fuel offset buffer len w = Some (r, w', tr) ->
  write_enabled_each tr = true.
Proof.
  intros H. apply flash_flexspi_nor_write_inv in H.
  destruct H as (_ & pre & loop & post & w1 & w2 & -> & Hpre & Hpost & Hloop).
  apply write_loop_turns in Hloop.
  eapply framed_turns_enabled; eassumption.
Qed.

Lemma write_enables_each_program_witness :
  exists w' tr,
    flash_flexspi_nor_write w25q128jv_cached_h w25q128jv 2 0xff
      [x01; x02; x03] 3 (boot_with (busy_flash 1) (repeat xff 256))
    = Some (0, w', tr)
    /\ write_enabled_each tr = true
    /\ length (program_cmds tr) = 2%nat.
Proof.
  destruct (flash_flexspi_nor_write w25q128jv_cached_h w25q128jv 2 0xff
              [x01; x02; x03] 3 (boot_with (busy_flash 1) (repeat xff 256)))
    as [[[r w'] tr]|] eqn:E; [|vm_compute in E; discriminate E].
  pose proof (@write_enables_each_program sim sim_platform w25q128jv_cached_h
                w25q128jv 2 0xff [x01; x02; x03] 3
                (boot_with (busy_flash 1) (repeat xff 256)) w' r tr E) as He.
  assert (Hr : r = 0) by (apply flash_flexspi_nor_write_inv in E; tauto).
  assert (Hn : length (program_cmds tr) = 2%nat)
    by (vm_compute in E; injection E as _ _ <-; reflexivity).
  subst r. exists w', tr. auto.
Defined.



(** The status write of the handshake comes directly after its write
    enable, and nothing else in the handshake changes the flash. *)
Lemma quad_run_enabled (dev : flash_flexspi_nor_data) (q : Z)
    (qtr post : list call) :
  quad_run dev q qtr ->
  enabled_before false (qtr ++ post) = enabled_before false post.
Proof.
  intros (r1 & rd1 & r2 & rd2
          & [(_ & _ & ->) | (_ & polls & n & r3 & rd3 & Hp & _ & Hc)]).
  - reflexivity.
  - assert (E : forall tl,
               forallb quiet tl = true ->
               enabled_before false
                 ((Transfer (xfer_write_enable dev) r1 rd1
                   :: Transfer (xfer_write_status dev [0x00; 0x02] 2) r2 rd2
                   :: polls
                   ++ Transfer (xfer_read_status2 dev 0) r3 rd3 :: tl)
                  ++ post)
               = enabled_before false post).
    { intros tl Htl. cbn [app enabled_before].
      change (is_mutating (Transfer (xfer_write_enable dev) r1 rd1))
        with false.
      change (is_write_enable (Transfer (xfer_write_enable dev) r1 rd1))
        with true.
      change (is_write_enable
                (Transfer (xfer_write_status dev [0x00; 0x02] 2) r2 rd2))
        with false.
      cbn [negb orb andb].
      change (polls ++ Transfer (xfer_read_status2 dev 0) r3 rd3 :: tl)
        with (polls ++ [Transfer (xfer_read_status2 dev 0) r3 rd3] ++ tl).
      rewrite !app_assoc, enabled_before_quiet.
      - destruct polls; reflexivity.
      - rewrite !forallb_app,
          (forallb_polls_weaken quiet polls is_poll_quiet Hp), Htl.
        reflexivity. }
    destruct Hc as [(_ & _ & ->) | (_ & _ & polls' & m & Hp' & _ & ->)].
    + apply (E [] eq_refl).
    + apply E.
      rewrite forallb_app,
        (forallb_polls_weaken quiet polls' is_poll_quiet Hp').
      reflexivity.
Qed.

(** X24. In the initialisation the status write that sets the
    quad-enable bit comes directly after a write enable, and it is the
    only call of the initialisation that changes the flash. *)
Theorem init_enables_status_write
    (S : Type) (plat : Platform S) (dev : flash_flexspi_nor_data)
    (fuel : nat) (w w' : world S) (r : Z) (tr : list call) :
  flash_flexspi_nor_init dev fuel w = Some (r, w', tr) ->
  write_enabled_each tr = true
  /\ (count_cmd WRITE_STATUS_REG tr <= 1)%nat
  /\ forall c, In c tr -> is_mutating c = true ->
       exists ret rd,
         c = Transfer (xfer_write_status dev [0x00; 0x02] 2) ret rd.
Proof.
  intros H. apply flash_flexspi_nor_init_run in H.
  destruct H as [(_ & _ & -> & _) | (_ & idle & _ & Hidle & Hrun)].
  { split; [reflexivity|]. split; [apply Nat.le_0_l|]. intros c []. }
  assert (HI : forallb quiet idle = true)
    by (apply forallb_weaken with (P := is_idle_wait);
        [exact is_idle_wait_quiet | exact Hidle]).
  assert (Hin_quiet : forall l c, forallb quiet l = true -> In c l ->
                      is_mutating c = true -> False).
  { intros l c Hl Hc Hm. rewrite forallb_forall in Hl.
    specialize (Hl c Hc). unfold quiet in Hl. rewrite Hm in Hl.
    discriminate Hl. }
  assert (Hcount_quiet : forall l, forallb quiet l = true ->
                         count_cmd WRITE_STATUS_REG l = 0%nat).
  { induction l as [|c l IHl]; intros Hl; [reflexivity|].
    cbn [forallb] in Hl. apply andb_prop in Hl. destruct Hl as [Hc Hl].
    specialize (IHl Hl). unfold count_cmd in *. cbn [filter].
    destruct c as [t ret rd| | | | | |]; try exact IHl.
    unfold quiet, is_mutating in Hc.
    destruct (seqIndex t); try discriminate Hc; exact IHl. }
  assert (Hquad : forall q qtr, quad_run dev q qtr ->
            (count_cmd WRITE_STATUS_REG qtr <= 1)%nat
            /\ forall c, In c qtr -> is_mutating c = true ->
                 exists ret rd,
                   c = Transfer (xfer_write_status dev [0x00; 0x02] 2) ret rd).
  { intros q qtr (r1 & rd1 & r2 & rd2
          & [(_ & _ & ->) | (_ & polls & n & r3 & rd3 & Hp & _ & Hc)]).
    - split; [apply Nat.le_refl|].
      intros c [<-|[<-|[]]] Hm; [discriminate Hm | eauto].
    - pose proof (forallb_polls_weaken quiet polls is_poll_quiet Hp) as HP.
      assert (Hshape : exists tl, forallb quiet tl = true
                /\ qtr = Transfer (xfer_write_enable dev) r1 rd1
                         :: Transfer (xfer_write_status dev [0x00; 0x02] 2)
                              r2 rd2
                         :: polls ++ tl).
      { destruct Hc as [(_ & _ & ->) | (_ & _ & polls' & m & Hp' & _ & ->)].
        - eexists. split; [|reflexivity]. reflexivity.
        - eexists. split; [|reflexivity]. cbn [forallb].
          rewrite forallb_app,
            (forallb_polls_weaken quiet polls' is_poll_quiet Hp').
          reflexivity. }
      destruct Hshape as (tl & Htl & ->).
      assert (Hq : forallb quiet (polls ++ tl) = true)
        by (rewrite forallb_app, HP, Htl; reflexivity).
      split.
      + change (count_cmd WRITE_STATUS_REG
                  (Transfer (xfer_write_enable dev) r1 rd1
                   :: Transfer (xfer_write_status dev [0x00; 0x02] 2) r2 rd2
                   :: polls ++ tl))
          with (Datatypes.S (count_cmd WRITE_STATUS_REG (polls ++ tl))).
        rewrite (Hcount_quiet _ Hq). apply Nat.le_refl.
      + intros c [<-|[<-|Hc']] Hm; [discriminate Hm | eauto |].
        exfalso. exact (Hin_quiet _ c Hq Hc' Hm). }
  destruct Hrun as (c & [(_ & _ & ->)
                        | (-> & polls & n & ret & rd & Hp & _ & Hc)]).
  { assert (Hq : forallb quiet (idle ++ [SetDeviceConfig c]) = true)
      by (rewrite forallb_app, HI; reflexivity).
    split; [|split].
    - unfold write_enabled_each. rewrite <- (app_nil_r (idle ++ _)).
      rewrite enabled_before_quiet by exact Hq.
      destruct (idle ++ [SetDeviceConfig c]); reflexivity.
    - rewrite (Hcount_quiet _ Hq). apply Nat.le_0_l.
    - intros c0 Hc0 Hm. exfalso. exact (Hin_quiet _ c0 Hq Hc0 Hm). }
  pose proof (forallb_polls_weaken quiet polls is_poll_quiet Hp) as HP.
  assert (Hhead : forallb quiet
                    (idle ++ SetDeviceConfig 0 :: polls
                     ++ [Reset; Transfer (xfer_read_id dev) ret rd]) = true).
  { rewrite forallb_app, HI. cbn [forallb].
    rewrite forallb_app, HP. reflexivity. }
  destruct Hc as [(_ & _ & ->) | (_ & q & qtr & post & Hq & -> & Hpost)].
  { split; [|split].
    - unfold write_enabled_each. rewrite <- (app_nil_r (idle ++ _)).
      rewrite enabled_before_quiet by exact Hhead.
      destruct (idle ++ _); reflexivity.
    - rewrite (Hcount_quiet _ Hhead). apply Nat.le_0_l.
    - intros c0 Hc0 Hm. exfalso. exact (Hin_quiet _ c0 Hhead Hc0 Hm). }
  assert (Hpq : forallb quiet post = true).
  { destruct Hpost as [(_ & _ & ->) | (_ & _ & polls' & m & Hp' & _ & ->)];
      [reflexivity|].
    rewrite forallb_app,
      (forallb_polls_weaken quiet polls' is_poll_quiet Hp').
    reflexivity. }
  assert (Etr : idle ++ SetDeviceConfig 0 :: polls
                ++ Reset :: Transfer (xfer_read_id dev) ret rd :: qtr ++ post
                = (idle ++ SetDeviceConfig 0 :: polls
                   ++ [Reset; Transfer (xfer_read_id dev) ret rd])
                  ++ qtr ++ post).
  { rewrite <- !app_assoc. cbn [app]. rewrite <- !app_assoc. reflexivity. }
  rewrite Etr. destruct (Hquad q qtr Hq) as (Hcnt & Hmut).
  split; [|split].
  - unfold write_enabled_each.
    rewrite enabled_before_quiet by exact Hhead.
    replace (match idle ++ SetDeviceConfig 0 :: polls
                   ++ [Reset; Transfer (xfer_read_id dev) ret rd]
             with [] => false | _ => false end) with false
      by (destruct (idle ++ _); reflexivity).
    rewrite (quad_run_enabled post Hq).
    rewrite <- (app_nil_r post), enabled_before_quiet by exact Hpq.
    destruct post; reflexivity.
  - rewrite count_cmd_app, (Hcount_quiet _ Hhead).
    rewrite count_cmd_app, (Hcount_quiet _ Hpq).
    rewrite Nat.add_0_l, Nat.add_0_r. exact Hcnt.
  - intros c0 Hc0 Hm.
    apply in_app_or in Hc0. destruct Hc0 as [Hc0|Hc0];
      [exfalso; exact (Hin_quiet _ c0 Hhead Hc0 Hm)|].
    apply in_app_or in Hc0. destruct Hc0 as [Hc0|Hc0];
      [exact (Hmut c0 Hc0 Hm)|].
    exfalso. exact (Hin_quiet _ c0 Hpq Hc0 Hm).
Qed.

Lemma init_enables_status_write_witness :
  exists w' tr,
    flash_flexspi_nor_init w25q128jv 1 (boot idle_flash) = Some (0, w', tr)
    /\ write_enabled_each tr = true
    /\ count_cmd WRITE_STATUS_REG tr = 1%nat.
Proof.
  destruct (flash_flexspi_nor_init w25q128jv 1 (boot idle_flash))
    as [[[r w'] tr]|] eqn:E; [|vm_compute in E; discriminate E].
  destruct (@init_enables_status_write sim sim_platform w25q128jv 1
              (boot idle_flash) w' r tr E) as (He & _ & _).
  assert (Hr : r = 0)
    by (vm_compute in E; injection E as <- _ _; reflexivity).
  assert (Hn : count_cmd WRITE_STATUS_REG tr = 1%nat)
    by (vm_compute in E; injection E as _ _ <-; reflexivity).
  subst r. exists w', tr. auto.
Defined.
